(** * RFM12 link layer: a shallow embedding of RF.cc / RF_CFG.h / Comm.cc

    The development follows the three source files:
    - [RF12]  : the command words of RF_CFG.h that the link layer issues;
    - [RF]    : the transceiver driver of RF.cc (mode switch, byte transmit,
                FIFO reset), acting on an explicit hardware record;
    - [Comm]  : the framing engine (RXInit, RXGetPacket, TXConfig, TXInit and
                the interrupt service routine), acting on the [State] struct;
                the busy-wait loops RXWait and TXWait, run against the
                interrupts that arrive while they spin; TXPreInit, and the
                loop of Testcase_UART_TX that gathers a packet.

    Bytes and machine integers are [Z] with the wrap-around of their C type
    written out; the two frame buffers are byte lists indexed by offset;
    pointers into a buffer are [option nat] offsets, [None] being NULL. *)

From Stdlib Require Import ZArith Lia.
From stdpp Require Import base decidable option list numbers.

Local Open Scope Z_scope.

(** ** Fixed-width helpers *)

Definition to_u8 (x : Z) : Z := x mod 256.
Definition to_u16 (x : Z) : Z := x mod 65536.
Definition to_u32 (x : Z) : Z := x mod 4294967296.

Definition is_u8 (x : Z) : Prop := 0 <= x < 256.
Definition is_u16 (x : Z) : Prop := 0 <= x < 65536.

Definition lo8 (x : Z) : Z := Z.land x 255.
Definition hi8 (x : Z) : Z := Z.shiftr x 8.

(** ** util/crc16.h *)

(** Modelled from the spec: [_crc_ccitt_update] is avr-libc's <util/crc16.h>,
    which is not among the sources; the spec calls it "standard
    CRC-16/CCITT".  This is the byte-wise update avr-libc documents as the
    equivalent C of its assembler routine (uint16_t crc, uint8_t data; the
    first xor of two bytes needs no truncation, the second one does). *)
Definition _crc_ccitt_update (crc data : Z) : Z :=
  let data := Z.lxor data (lo8 crc) in
  let data := to_u8 (Z.lxor data (Z.shiftl data 4)) in
  Z.lxor (Z.lxor (Z.lor (Z.shiftl data 8) (hi8 crc)) (Z.shiftr data 4))
         (Z.shiftl data 3).

(** Modelled from the spec: the bit-serial CRC-16/CCITT register the byte-wise
    routine stands for (polynomial x^16 + x^12 + x^5 + 1, taken least
    significant bit first, i.e. 0x8408). *)
Definition crc_ccitt_bit (crc : Z) : Z :=
  if Z.testbit crc 0 then Z.lxor (Z.shiftr crc 1) 0x8408 else Z.shiftr crc 1.

Definition crc_ccitt_serial (crc data : Z) : Z :=
  Nat.iter 8 crc_ccitt_bit (Z.lxor crc data).

(** The accumulator run over a byte sequence. *)
Definition crc_fold (crc : Z) (bs : list Z) : Z :=
  foldl _crc_ccitt_update crc bs.

(** ** RF_CFG.h: the command words used by the link layer *)
Module RF12.
Definition PM_BASE : Z := 0x8200.
Definition ER : Z := Z.shiftl 1 7.
Definition EBB : Z := Z.shiftl 1 6.
Definition ET : Z := Z.shiftl 1 5.
Definition ES : Z := Z.shiftl 1 4.
Definition EX : Z := Z.shiftl 1 3.
Definition DC : Z := Z.shiftl 1 0.
Definition PM_CMD (opt : Z) : Z := Z.lor PM_BASE opt.

Definition FIFO_BASE : Z := 0xCA00.
Definition FIFOINT (x : Z) : Z := Z.shiftl x 4.
Definition FSYNC : Z := Z.shiftl 0 2.
Definition FF : Z := Z.shiftl 1 1.
Definition DRESET : Z := Z.shiftl 1 0.
Definition FIFO_CMD (intbits opt : Z) : Z :=
  Z.lor (Z.lor FIFO_BASE (FIFOINT intbits)) opt.

Definition TXWR_BASE : Z := 0xB800.
Definition TXWR_CMD (byte : Z) : Z := Z.lor TXWR_BASE (to_u8 byte).

(** Status word analysis: RGUR and FFOV share bit 13. *)
Definition S_RGUR (sw : Z) : Z := Z.land sw (Z.shiftl 1 13).

(** The settings of RF.cc. *)
Definition PM_DEF : Z := PM_CMD (Z.lor (Z.lor (Z.lor EX DC) ES) EBB).
Definition PM_ECO : Z := PM_CMD DC.
Definition PM_TX : Z := PM_CMD (Z.lor (Z.lor (Z.lor ET ES) EX) DC).
Definition PM_RX : Z :=
  PM_CMD (Z.lor (Z.lor (Z.lor (Z.lor ER EBB) ES) EX) DC).
Definition FIFO_OFF : Z := FIFO_CMD 8 (Z.lor DRESET FSYNC).
Definition FIFO_ON : Z := FIFO_CMD 8 (Z.lor (Z.lor DRESET FSYNC) FF).
End RF12.

(** ** RF.cc: the transceiver driver *)
Module RF.
Inductive RF_Mode := TX | RX | DEF | ECO.

#[global] Instance RF_Mode_eq_dec : EqDecision RF_Mode.
Proof. solve_decision. Defined.

(** What goes out on the command bus.  [Cmd w] is one call of
    [VSendCommand(w)].  [TxOutside i] is [Transmit] called on the byte at
    offset [i] of the send buffer when [i] lies past the end of that
    buffer: the byte sent is then whatever follows the buffer in memory. *)
Inductive spi_cmd :=
| Cmd (w : Z)
| TxOutside (i : nat).

(** The hardware as the link layer sees it: the driver's [CurMode]
    variable, the interrupt mask bit toggled by RF_IRQ_ON / RF_IRQ_OFF,
    and the commands sent with [VSendCommand] so far, oldest first.  The
    status and FIFO bytes the handler clocks in by hand carry no command;
    they are the handler's input ([Comm.irq_in]). *)
Record Hw := mkHw {
  CurMode : RF_Mode;
  irq_on : bool;
  spi : list spi_cmd
}.

Definition VSendCommand (cmd : Z) (h : Hw) : Hw :=
  mkHw (CurMode h) (irq_on h) (spi h ++ [Cmd cmd]).

Definition RF_IRQ_ON (h : Hw) : Hw := mkHw (CurMode h) true (spi h).
Definition RF_IRQ_OFF (h : Hw) : Hw := mkHw (CurMode h) false (spi h).

Definition Mode (m : RF_Mode) (h : Hw) : Hw :=
  let h := mkHw m (irq_on h) (spi h) in
  match m with
  | TX => VSendCommand RF12.PM_TX h
  | RX => VSendCommand RF12.FIFO_ON
            (VSendCommand RF12.FIFO_OFF (VSendCommand RF12.PM_RX h))
  | DEF => VSendCommand RF12.PM_DEF h
  | ECO => VSendCommand RF12.PM_ECO h
  end.

Definition Transmit (byte : Z) (h : Hw) : Hw :=
  VSendCommand (RF12.TXWR_CMD byte) h.

Definition FIFOReset (h : Hw) : Hw :=
  VSendCommand RF12.FIFO_ON (VSendCommand RF12.FIFO_OFF h).

(** The bytes handed to [Transmit], in order ([None] for a byte taken from
    past the send buffer), read back from the command log. *)
Definition tx_event (c : spi_cmd) : option (option Z) :=
  match c with
  | Cmd w => if decide (Z.land w 0xFF00 = RF12.TXWR_BASE)
             then Some (Some (Z.land w 0xFF)) else None
  | TxOutside _ => Some None
  end.

Definition transmitted (l : list spi_cmd) : list (option Z) :=
  omap tx_event l.

End RF.

(** ** Comm.cc: the link layer *)
Module Comm.
Import RF.

(** *** Configuration (the COMM_* switches the handler branches on) *)
Record Config := mkConfig {
  COMM_TXRETRY : bool;
  COMM_RXRETRY : bool
}.

(** The settings of the source file: both retries on. *)
Definition default_config : Config := mkConfig true true.

(** *** Transport layer configuration *)

(** [len_t] is uint8_t: a value converted to it keeps its low 8 bits. *)
Definition to_len_t (x : Z) : Z := to_u8 x.

Definition CRCInit : Z := 0xFFFF.
Definition MaxMesgSize : nat := 256.
Definition COMM_HEADSIZE : nat := 1 + 1.  (* sizeof(len_t) + sizeof(ctr_t) *)
Definition COMM_TAILSIZE : nat := 2.      (* sizeof(crc_t) *)
Definition COMM_PACKETSIZE : nat := COMM_HEADSIZE + COMM_TAILSIZE.
Definition SynchData : list Z := [0xAA; 0xAA; 0x2D; 0xD4].
Definition SynchSize : nat := 4.

(** [packet_t]: Length, Type, Mesg[MaxMesgSize + COMM_TAILSIZE], laid out
    as bytes; [frame_t] is SynchSize bytes followed by a packet. *)
Definition sizeof_packet_t : nat := 1 + 1 + (MaxMesgSize + COMM_TAILSIZE).
Definition sizeof_frame_t : nat := SynchSize + sizeof_packet_t.

(** Offsets of the packet fields inside a [packet_t]. *)
Definition off_Length : nat := 0.
Definition off_Type : nat := 1.
Definition off_Mesg : nat := 2.

(** The [Type] byte: Control is the low nibble, Config the high one. *)
Definition Type_Control (raw : Z) : Z := Z.land raw 0x0F.
Definition Type_Config (raw : Z) : Z := Z.shiftr raw 4.
Definition Type_set_Control (v raw : Z) : Z :=
  Z.lor (Z.land raw 0xF0) (Z.land v 0x0F).
Definition Type_set_Config (v raw : Z) : Z :=
  Z.lor (Z.land raw 0x0F) (Z.shiftl (Z.land v 0x0F) 4).

Inductive Mode := MI | Mr | MR | MX | Mt | MT.

#[global] Instance Mode_eq_dec : EqDecision Mode.
Proof. solve_decision. Defined.

(** *** State

    The field [State.Mode] is [Mode_] here, [Mode] being the type. *)
Record State := mkState {
  SendBuff : list Z;          (* frame_t, as SendBuff.Raw *)
  SendCur : option nat;       (* offsets into SendBuff.Raw *)
  SendEnd : option nat;
  RecvBuff : list Z;          (* packet_t, as bytes *)
  RecvCur : option nat;       (* offsets into RecvBuff *)
  RecvEnd : option nat;
  Mode_ : Mode;
  Status : Z;
  PacketsTX : Z;
  PacketsRX : Z;
  CtrErr : Z;
  CRCErr : Z;
  CRC : Z
}.

Definition set_SendBuff v (s : State) :=
  mkState v (SendCur s) (SendEnd s) (RecvBuff s) (RecvCur s) (RecvEnd s)
          (Mode_ s) (Status s) (PacketsTX s) (PacketsRX s) (CtrErr s)
          (CRCErr s) (CRC s).
Definition set_SendCur v (s : State) :=
  mkState (SendBuff s) v (SendEnd s) (RecvBuff s) (RecvCur s) (RecvEnd s)
          (Mode_ s) (Status s) (PacketsTX s) (PacketsRX s) (CtrErr s)
          (CRCErr s) (CRC s).
Definition set_SendEnd v (s : State) :=
  mkState (SendBuff s) (SendCur s) v (RecvBuff s) (RecvCur s) (RecvEnd s)
          (Mode_ s) (Status s) (PacketsTX s) (PacketsRX s) (CtrErr s)
          (CRCErr s) (CRC s).
Definition set_RecvBuff v (s : State) :=
  mkState (SendBuff s) (SendCur s) (SendEnd s) v (RecvCur s) (RecvEnd s)
          (Mode_ s) (Status s) (PacketsTX s) (PacketsRX s) (CtrErr s)
          (CRCErr s) (CRC s).
Definition set_RecvCur v (s : State) :=
  mkState (SendBuff s) (SendCur s) (SendEnd s) (RecvBuff s) v (RecvEnd s)
          (Mode_ s) (Status s) (PacketsTX s) (PacketsRX s) (CtrErr s)
          (CRCErr s) (CRC s).
Definition set_RecvEnd v (s : State) :=
  mkState (SendBuff s) (SendCur s) (SendEnd s) (RecvBuff s) (RecvCur s) v
          (Mode_ s) (Status s) (PacketsTX s) (PacketsRX s) (CtrErr s)
          (CRCErr s) (CRC s).
Definition set_Mode v (s : State) :=
  mkState (SendBuff s) (SendCur s) (SendEnd s) (RecvBuff s) (RecvCur s)
          (RecvEnd s) v (Status s) (PacketsTX s) (PacketsRX s) (CtrErr s)
          (CRCErr s) (CRC s).
Definition set_Status v (s : State) :=
  mkState (SendBuff s) (SendCur s) (SendEnd s) (RecvBuff s) (RecvCur s)
          (RecvEnd s) (Mode_ s) v (PacketsTX s) (PacketsRX s) (CtrErr s)
          (CRCErr s) (CRC s).
Definition set_PacketsTX v (s : State) :=
  mkState (SendBuff s) (SendCur s) (SendEnd s) (RecvBuff s) (RecvCur s)
          (RecvEnd s) (Mode_ s) (Status s) v (PacketsRX s) (CtrErr s)
          (CRCErr s) (CRC s).
Definition set_PacketsRX v (s : State) :=
  mkState (SendBuff s) (SendCur s) (SendEnd s) (RecvBuff s) (RecvCur s)
          (RecvEnd s) (Mode_ s) (Status s) (PacketsTX s) v (CtrErr s)
          (CRCErr s) (CRC s).
Definition set_CtrErr v (s : State) :=
  mkState (SendBuff s) (SendCur s) (SendEnd s) (RecvBuff s) (RecvCur s)
          (RecvEnd s) (Mode_ s) (Status s) (PacketsTX s) (PacketsRX s) v
          (CRCErr s) (CRC s).
Definition set_CRCErr v (s : State) :=
  mkState (SendBuff s) (SendCur s) (SendEnd s) (RecvBuff s) (RecvCur s)
          (RecvEnd s) (Mode_ s) (Status s) (PacketsTX s) (PacketsRX s)
          (CtrErr s) v (CRC s).
Definition set_CRC v (s : State) :=
  mkState (SendBuff s) (SendCur s) (SendEnd s) (RecvBuff s) (RecvCur s)
          (RecvEnd s) (Mode_ s) (Status s) (PacketsTX s) (PacketsRX s)
          (CtrErr s) (CRCErr s) v.

(** The whole system: the shared [State] struct plus the hardware. *)
Record Sys := mkSys {
  comm : State;
  rf : Hw
}.

(** The statically initialised state: everything zero except the
    synchronisation pattern at the head of the send buffer.  The zero
    value of [RF::CurMode] is its first enumerator. *)
Definition State0 : State :=
  mkState (SynchData ++ replicate sizeof_packet_t 0) None None
          (replicate sizeof_packet_t 0) None None
          MI 0 0 0 0 0 0.
Definition Sys0 : Sys := mkSys State0 (mkHw TX false []).

(** A fault of the C program that the model does not continue after. *)
Inductive fault :=
| NullDeref                    (* access through a NULL cursor *)
| StoreOutside (i : nat).      (* store past the end of RecvBuff *)

Inductive result (A : Type) :=
| Ok (a : A)
| Fault (f : fault).
Arguments Ok {A} a.
Arguments Fault {A} f.

(** *** General functions *)

Definition Idle (s : Sys) : Sys :=
  let h := RF_IRQ_OFF (rf s) in
  let h := RF.Mode ECO h in
  mkSys (set_Mode MI (comm s)) h.

(** RF::Init sends its table of configuration words and a status read
    (the words are the RF12_* settings of RF.cc with their macros
    expanded: CONFIG, PM_DEF, FQ, DR, RXCTL, FILTER, FIFO_OFF, AFC, TXCTL,
    WAKE, DUTY, BATT). *)
Definition RF_Init_words : list Z :=
  [0x80D7; RF12.PM_DEF; 0xA190; 0xC605; 0x97A0; 0xC2AC; RF12.FIFO_OFF;
   0xC483; 0x9850; 0xE000; 0xC800; 0xC0E0; 0x0000].

Definition Init (s : Sys) : Sys :=
  Idle (mkSys (comm s) (foldl (fun h w => VSendCommand w h) (rf s)
                              RF_Init_words)).

(** *** RX functions *)

Definition RXInit (s : Sys) : Sys :=
  let h := RF_IRQ_OFF (rf s) in
  let h := if decide (CurMode h <> RX) then RF.Mode RX h else h in
  let h := VSendCommand 0x0000 h in
  let c := set_Mode Mr (comm s) in
  let c := set_CRC CRCInit c in
  let c := set_RecvCur (Some 0%nat) c in
  let c := set_RecvEnd (Some (0 + COMM_HEADSIZE - 1)%nat) c in
  mkSys c (RF_IRQ_ON h).

Definition RXReady (s : Sys) : bool :=
  bool_decide (Mode_ (comm s) = MX) || bool_decide (Mode_ (comm s) = MI).

(** [RXGetBuff] and [RXGetPacket] return a pointer to [RecvBuff.Mesg];
    the model returns the bytes found there ([None] for NULL). *)
Definition RXGetBuff (s : Sys) : list Z := drop off_Mesg (RecvBuff (comm s)).

(** Returns the pointer, the value stored through [Length], and the
    system as the call leaves it. *)
Definition RXGetPacket (s : Sys) : option (list Z) * Z * Sys :=
  if decide (Mode_ (comm s) <> MX) then (None, 0, s)
  else (Some (drop off_Mesg (RecvBuff (comm s))),
        RecvBuff (comm s) !!! off_Length, s).

Definition RXGetConfig (s : Sys) : Z :=
  Type_Config (RecvBuff (comm s) !!! off_Type).

(** *** TX functions *)

Definition TXReady (s : Sys) : bool := bool_decide (Mode_ (comm s) = Mt).

(** Offset in [SendBuff.Raw] of the [Mesg] array [TXGetBuff] points to. *)
Definition TXGetBuff : nat := SynchSize + off_Mesg.

(** The caller filling the TX buffer: [data] copied to [TXGetBuff()].  A
    caller stays inside [Mesg]; bytes that would fall outside the frame
    buffer are dropped here. *)
Definition TXFill (data : list Z) (s : Sys) : Sys :=
  mkSys (set_SendBuff (list_inserts TXGetBuff data (SendBuff (comm s)))
                      (comm s))
        (rf s).

Definition TXConfig (Cfg : Z) (s : Sys) : Sys :=
  let raw := SendBuff (comm s) in
  let i := (SynchSize + off_Type)%nat in
  mkSys (set_SendBuff (<[i := Type_set_Config Cfg (raw !!! i)]> raw)
                      (comm s))
        (rf s).

(** [RF::Transmit] of the byte a pointer at offset [i] of the send buffer
    points to. *)
Definition transmit_at (i : nat) (raw : list Z) (h : Hw) : Hw :=
  match raw !! i with
  | Some b => Transmit b h
  | None => mkHw (CurMode h) (irq_on h) (spi h ++ [TxOutside i])
  end.

(** The do-while of TXInit: the body runs once and then [k] more times
    ([k] is the counter [i] less one; [i] is never 0 on entry). *)
Fixpoint crc_do (k : nat) (Byte : nat) (raw : list Z) (crc : Z) : Z * nat :=
  let crc := _crc_ccitt_update crc (raw !!! Byte) in
  let Byte := S Byte in
  match k with
  | O => (crc, Byte)
  | S k' => crc_do k' Byte raw crc
  end.

(** The argument is converted to [len_t] at the call (the callers pass an
    int).  The function body is taken as one step: once it has enabled the
    interrupt it only computes and stores the trailer, which the handler
    does not touch before it has sent the bytes in front of it. *)
Definition TXInit (Length_arg : Z) (s : Sys) : Sys :=
  let Length := to_len_t Length_arg in
  let h := RF_IRQ_OFF (rf s) in
  let h := if decide (CurMode h <> TX) then RF.Mode TX h else h in
  let c := comm s in
  let raw := SendBuff c in
  let raw := <[(SynchSize + off_Length)%nat := Length]> raw in
  let t := (SynchSize + off_Type)%nat in
  let raw := <[t := Type_set_Control (Z.lnot Length) (raw !!! t)]> raw in
  let c := set_SendCur (Some 1%nat) c in
  let c := set_SendEnd
             (Some (1 + SynchSize + Z.to_nat Length + COMM_PACKETSIZE + 1)%nat)
             c in
  let c := set_Mode MT c in
  let h := transmit_at 0 raw h in
  let h := VSendCommand 0x0000 h in
  let h := RF_IRQ_ON h in
  let i := to_u16 (Length + Z.of_nat COMM_HEADSIZE) in
  let '(crc, Byte) := crc_do (Z.to_nat i - 1) SynchSize raw CRCInit in
  let raw := <[Byte := to_u8 (Z.land crc 0x00FF)]> raw in
  let raw := <[S Byte := to_u8 (Z.shiftr crc 8)]> raw in
  mkSys (set_CRC crc (set_SendBuff raw c)) h.

Definition TXPreInit (s : Sys) : Sys :=
  let c := set_Mode MI (comm s) in
  let h := RF_IRQ_OFF (rf s) in
  mkSys c (RF.Mode TX h).

(** *** The interrupt handler *)

(** What the handler reads over the bus in one invocation: the two
    status bytes and, on the receive path, the FIFO byte. *)
Record irq_in := mkIrq {
  status_hi : Z;
  status_lo : Z;
  fifo : Z
}.

(** The code under the label ResetRX. *)
Definition ResetRX (cfg : Config) (s : Sys) : Sys :=
  if COMM_RXRETRY cfg then
    let h := FIFOReset (rf s) in
    let c := set_Mode Mr (comm s) in
    let c := set_CRC CRCInit c in
    let c := set_RecvCur (Some 0%nat) c in
    let c := set_RecvEnd (Some (0 + COMM_HEADSIZE - 1)%nat) c in
    mkSys c h
  else
    let c := set_Mode MI (comm s) in
    let h := RF.Mode DEF (rf s) in
    let c := set_RecvEnd None (set_RecvCur None c) in
    mkSys c (RF_IRQ_OFF h).

Definition inc_CtrErr (c : State) : State :=
  set_CtrErr (to_u16 (CtrErr c + 1)) c.

Definition ISR (cfg : Config) (i : irq_in) (s : Sys) : result Sys :=
  let c := set_Status (to_u16 (Z.shiftl (status_hi i) 8)) (comm s) in
  let h := rf s in
  if decide (RF12.S_RGUR (Status c) <> 0) then
    (* Handle errors *)
    let c := set_Status (Z.lor (Status c) (status_lo i)) c in
    if decide (Mode_ c = MT) then
      let c := inc_CtrErr c in
      if COMM_TXRETRY cfg then
        let c := set_SendCur (Some 1%nat) c in
        Ok (mkSys c (transmit_at 0 (SendBuff c) h))
      else
        let c := set_SendEnd None (set_SendCur None c) in
        let c := set_Mode MI c in
        Ok (mkSys c (RF_IRQ_OFF (RF.Mode DEF h)))
    else
      Ok (ResetRX cfg (mkSys (inc_CtrErr c) h))
  else if decide (Mode_ c = MT) then
    (* Handle TX *)
    let c := set_Status (Z.lor (Status c) (status_lo i)) c in
    if decide (SendCur c = SendEnd c) then
      let c := set_Mode Mt c in
      let c := set_PacketsTX (to_u32 (PacketsTX c + 1)) c in
      Ok (mkSys c (RF_IRQ_OFF h))
    else
      match SendCur c with
      | None => Fault NullDeref
      | Some cur =>
          Ok (mkSys (set_SendCur (Some (S cur)) c)
                    (transmit_at cur (SendBuff c) h))
      end
  else
    (* Handle RX *)
    let c := set_Status (Z.lor (Status c) (status_lo i)) c in
    match RecvCur c with
    | None => Fault NullDeref
    | Some cur =>
        if decide (cur < length (RecvBuff c))%nat then
          let c := set_RecvBuff (<[cur := fifo i]> (RecvBuff c)) c in
          let c := set_CRC (_crc_ccitt_update (CRC c) (fifo i)) c in
          if decide (RecvCur c = RecvEnd c) then
            if decide (Mode_ c = Mr) then
              let len := RecvBuff c !!! off_Length in
              if decide (Type_Control (RecvBuff c !!! off_Type)
                         <> Z.land (Z.lnot len) 0x0F) then
                Ok (ResetRX cfg (mkSys (inc_CtrErr c) h))
              else if decide (len = 0) then
                Ok (ResetRX cfg (mkSys (inc_CtrErr c) h))
              else
                let c := set_RecvEnd
                           (Some (cur + Z.to_nat len + COMM_TAILSIZE)%nat)
                           c in
                let c := set_Mode MR c in
                Ok (mkSys (set_RecvCur (Some (S cur)) c) h)
            else
              if decide (CRC c = 0x0000) then
                let h := RF_IRQ_OFF (RF.Mode DEF h) in
                let c := set_PacketsRX (to_u32 (PacketsRX c + 1)) c in
                Ok (mkSys (set_Mode MX c) h)
              else
                let c := set_CRCErr (to_u16 (CRCErr c + 1)) c in
                Ok (ResetRX cfg (mkSys c h))
          else
            Ok (mkSys (set_RecvCur (Some (S cur)) c) h)
        else Fault (StoreOutside cur)
    end.

(** The handler is entered only while its interrupt source is enabled; an
    event arriving while it is masked is dropped.  [irq_run] delivers a
    sequence of events, oldest first. *)
Fixpoint irq_run (cfg : Config) (ins : list irq_in) (s : Sys) : result Sys :=
  match ins with
  | [] => Ok s
  | i :: ins' =>
      if irq_on (rf s) then
        match ISR cfg i s with
        | Ok s' => irq_run cfg ins' s'
        | Fault f => Fault f
        end
      else irq_run cfg ins' s
  end.

(** *** Vocabulary for the statements below *)

(** The status word the handler leaves in [State.Status]. *)
Definition isr_status (i : irq_in) : Z :=
  Z.lor (to_u16 (Z.shiftl (status_hi i) 8)) (status_lo i).

(** The status read does not flag RGUR/FFOV. *)
Definition no_rgur (i : irq_in) : Prop :=
  RF12.S_RGUR (to_u16 (Z.shiftl (status_hi i) 8)) = 0.

(** The three bytes read over the bus are bytes. *)
Definition irq_u8 (i : irq_in) : Prop :=
  is_u8 (status_hi i) /\ is_u8 (status_lo i) /\ is_u8 (fifo i).

(** The buffers have the sizes of their C types and the send buffer holds
    bytes. *)
Definition wf (s : Sys) : Prop :=
  length (SendBuff (comm s)) = sizeof_frame_t /\
  length (RecvBuff (comm s)) = sizeof_packet_t /\
  Forall is_u8 (SendBuff (comm s)).

(** The frame held in the send buffer, as delimited by its own length
    byte, and the packet that follows its synchronisation pattern: the
    bytes a receiver's FIFO hands out once the pattern has matched. *)
Definition frame_len (s : Sys) : nat :=
  (SynchSize
   + Z.to_nat (SendBuff (comm s) !!! (SynchSize + off_Length)%nat)
   + COMM_PACKETSIZE)%nat.
Definition frame_bytes (s : Sys) : list Z :=
  take (frame_len s) (SendBuff (comm s)).
Definition packet_bytes (s : Sys) : list Z :=
  drop SynchSize (frame_bytes s).

(** Encode [payload] on [tx], hand the packet to the receiver [rx] armed
    by [RXInit], one byte per interrupt, and read the result back with
    [RXGetPacket]: the frame is ready and holds the payload. *)
Definition roundtrips (cfg : Config) (tx rx : Sys) (payload : list Z) : Prop :=
  let l := Z.of_nat (length payload) in
  let tx' := TXInit l (TXFill payload tx) in
  forall ins, Forall no_rgur ins -> fifo <$> ins = packet_bytes tx' ->
    exists rx' mesg,
      irq_run cfg ins (RXInit rx) = Ok rx' /\
      Mode_ (comm rx') = MX /\
      RXGetPacket rx' = (Some mesg, l, rx') /\
      take (length payload) mesg = payload.

(** Follows the spec's words: the checksum "computed over CONTROL and
    PAYLOAD only", to be compared with what [TXInit] stores. *)
Definition spec_crc (control : Z) (payload : list Z) : Z :=
  crc_fold CRCInit (control :: payload).

(** Follows the spec's words: the send cursor "at the first data byte
    after synchronization" and the end cursor "one byte past a trailing
    dummy byte", for a payload of [n] bytes. *)
Definition spec_tx_cursors (n : nat) (s : Sys) : Prop :=
  SendCur (comm s) = Some SynchSize /\
  SendEnd (comm s) = Some (SynchSize + (COMM_HEADSIZE + n + COMM_TAILSIZE) + 1)%nat.

(** Follows the spec's words: what is clocked out is the frame followed by
    exactly one dummy byte. *)
Definition spec_tx_stream (frame : list Z) (out : list (option Z)) : Prop :=
  exists d, out = (Some <$> frame) ++ [d].

(** The header test of the handler: the control nibble repeats the
    complemented length nibble and the length is not zero. *)
Definition header_ok (len ctl : Z) : Prop :=
  Z.land ctl 0x0F = Z.land (Z.lnot len) 0x0F /\ len <> 0.

#[global] Instance header_ok_dec len ctl : Decision (header_ok len ctl).
Proof. unfold header_ok. apply _. Defined.

(** The state the receive path works on once the byte is stored. *)
Definition rx_stored (i : irq_in) (cur : nat) (c : State) : State :=
  set_CRC (_crc_ccitt_update (CRC c) (fifo i))
    (set_RecvBuff (<[cur := fifo i]> (RecvBuff c))
       (set_Status (isr_status i) c)).

(** The status left by the last of a sequence of interrupts. *)
Definition run_status (ins : list irq_in) (st : Z) : Z :=
  foldl (fun _ i => isr_status i) st ins.

(** The state in which a whole packet has been taken in, before the CRC
    decision. *)
Definition rx_taken (rx : Sys) (len ctl : Z) (body : list Z) (t1 t2 st : Z)
  : State :=
  let c := comm (RXInit rx) in
  set_RecvCur (Some (Z.to_nat len + 3)%nat)
    (set_RecvEnd (Some (Z.to_nat len + 3)%nat)
       (set_Mode MR
          (set_CRC (crc_fold CRCInit (len :: ctl :: body ++ [t1; t2]))
             (set_RecvBuff
                (len :: ctl :: body ++ t1 :: t2
                   :: drop (Z.to_nat len + 4) (RecvBuff c))
                (set_Status st c))))).

(** The predicates above are decidable. *)
#[global] Instance is_u8_dec x : Decision (is_u8 x).
Proof. unfold is_u8. apply _. Defined.
#[global] Instance is_u16_dec x : Decision (is_u16 x).
Proof. unfold is_u16. apply _. Defined.
#[global] Instance no_rgur_dec i : Decision (no_rgur i).
Proof. unfold no_rgur. apply _. Defined.
#[global] Instance irq_u8_dec i : Decision (irq_u8 i).
Proof. unfold irq_u8. apply _. Defined.
#[global] Instance wf_dec s : Decision (wf s).
Proof. unfold wf. apply _. Defined.

(** Sample data: the system after [Init], the payload "Hello", an
    interrupt that reports a received byte (FFIT/RGIT set, nothing else)
    and one that reports RGUR/FFOV as well. *)
Definition booted : Sys := Init Sys0.
Definition hello : list Z := [0x48; 0x65; 0x6C; 0x6C; 0x6F].
Definition rx_irq (b : Z) : irq_in := mkIrq 0x80 0x00 b.
Definition tx_irq : irq_in := mkIrq 0x80 0x00 0x00.
Definition rgur_irq : irq_in := mkIrq 0xA0 0x00 0x00.

(** The state after the two header bytes, when the header is accepted. *)
Definition rx_header_taken (rx : Sys) (i0 i1 : irq_in) : State :=
  let c := comm (RXInit rx) in
  set_RecvCur (Some 2%nat)
    (set_Mode MR
       (set_RecvEnd (Some (1 + Z.to_nat (fifo i0) + COMM_TAILSIZE)%nat)
          (set_CRC (crc_fold CRCInit [fifo i0; fifo i1])
             (set_RecvBuff
                (fifo i0 :: fifo i1 :: drop 2 (RecvBuff c))
                (set_Status (isr_status i1) c))))).

(** The state after the two header bytes, when the header is rejected,
    before ResetRX. *)
Definition rx_header_dropped (rx : Sys) (i0 i1 : irq_in) : State :=
  let c := comm (RXInit rx) in
  inc_CtrErr
    (set_RecvCur (Some 1%nat)
       (set_CRC (crc_fold CRCInit [fifo i0; fifo i1])
          (set_RecvBuff
             (fifo i0 :: fifo i1 :: drop 2 (RecvBuff c))
             (set_Status (isr_status i1) c)))).

(** The hardware after [n] bytes of the send buffer, from offset [cur] on,
    have been handed to [Transmit]. *)
Definition tx_from (raw : list Z) (cur n : nat) (h : Hw) : Hw :=
  foldl (fun h j => transmit_at j raw h) h (seq cur n).

(** The state in which the last byte and the dummies of "Hello" are out. *)
Definition hello_sent : Sys :=
  match irq_run default_config (replicate 14 tx_irq)
          (TXInit 5 (TXFill hello booted)) with
  | Ok s => s
  | Fault _ => booted
  end.

(** "Hello" under way: three bytes after TXInit. *)
Definition hello_under_way : Sys :=
  match irq_run default_config (replicate 3 tx_irq)
          (TXInit 5 (TXFill hello booted)) with
  | Ok s => s
  | Fault _ => booted
  end.

(** Frame ready implies the interrupt source is off. *)
Definition quiet_when_ready (s : Sys) : Prop :=
  Mode_ (comm s) = MX -> irq_on (rf s) = false.

(** The largest offset the end cursor can take: the last header byte, 255
    payload bytes and the trailer. *)
Definition max_RecvEnd : nat := (COMM_HEADSIZE - 1 + 255 + COMM_TAILSIZE)%nat.

(** While the interrupt source is on during a reception, the cursors are
    set, in order and inside the buffer; while the header is awaited the
    end cursor is on its last byte and, once the length byte is in, it is a
    byte. *)
Definition rx_inv (s : Sys) : Prop :=
  length (RecvBuff (comm s)) = sizeof_packet_t /\
  (irq_on (rf s) = true ->
   exists cur e,
     RecvCur (comm s) = Some cur /\ RecvEnd (comm s) = Some e /\
     (cur <= e)%nat /\ (e <= max_RecvEnd)%nat /\
     ((Mode_ (comm s) = Mr /\ e = (COMM_HEADSIZE - 1)%nat /\
       (cur = e -> is_u8 (RecvBuff (comm s) !!! off_Length)))
      \/ Mode_ (comm s) = MR)).

(** The update seen as a function of the byte mixed into the low half and
    of the old high half. *)
Definition crc_mix (e h : Z) : Z :=
  let data := to_u8 (Z.lxor e (Z.shiftl e 4)) in
  Z.lxor (Z.lxor (Z.lor (Z.shiftl data 8) h) (Z.shiftr data 4))
         (Z.shiftl data 3).

(** Exhaustive checks over all [n]-bit extensions of [acc]. *)
Fixpoint all_bits (n : nat) (acc : Z) (f : Z -> bool) : bool :=
  match n with
  | O => f acc
  | S n' => all_bits n' (2 * acc) f && all_bits n' (2 * acc + 1) f
  end.
Definition all_u8 (f : Z -> bool) : bool := all_bits 8 0 f.
Definition all_u16 (f : Z -> bool) : bool := all_bits 16 0 f.
Definition all_u8_u8 (f : Z -> Z -> bool) : bool :=
  all_u8 (fun a => all_u8 (f a)).

(** *** Waiting for the handler *)

(** One event at the interrupt pin: the handler runs if its source is
    enabled, and the event is lost otherwise. *)
Definition deliver (cfg : Config) (i : irq_in) (s : Sys) : result Sys :=
  if irq_on (rf s) then ISR cfg i s else Ok s.

(** [TXWait] spins while the mode is MT.  Its loop has no body: all that
    happens while it spins is the handler running on the events that
    arrive.  The model is handed those events, oldest first, and returns
    the state in which the loop exits with the events not yet delivered, or
    [None] when the events run out while it still spins. *)
Fixpoint TXWait (cfg : Config) (ins : list irq_in) (s : Sys) {struct ins}
  : result (option (Sys * list irq_in)) :=
  if decide (Mode_ (comm s) = MT) then
    match ins with
    | [] => Ok None
    | i :: ins' =>
        match deliver cfg i s with
        | Ok s' => TXWait cfg ins' s'
        | Fault f => Fault f
        end
    end
  else Ok (Some (s, ins)).

(** [RXWait] spins until the mode is MI or MX. *)
Fixpoint RXWait (cfg : Config) (ins : list irq_in) (s : Sys) {struct ins}
  : result (option (Sys * list irq_in)) :=
  if decide (Mode_ (comm s) = MI) then Ok (Some (s, ins))
  else if decide (Mode_ (comm s) = MX) then Ok (Some (s, ins))
  else
    match ins with
    | [] => Ok None
    | i :: ins' =>
        match deliver cfg i s with
        | Ok s' => RXWait cfg ins' s'
        | Fault f => Fault f
        end
    end.

(** The two statements of [TXPreInit] taken apart: the mode is cleared
    first, the interrupt is masked and the transmitter started after. *)
Definition TXPreInit_mode (s : Sys) : Sys := mkSys (set_Mode MI (comm s)) (rf s).
Definition TXPreInit_mask (s : Sys) : Sys :=
  mkSys (comm s) (RF.Mode TX (RF_IRQ_OFF (rf s))).

(** [TXPreInit] as it runs with its interrupt source possibly enabled on
    entry: [during] are the events that arrive after the store to
    [State.Mode] and before RF_IRQ_OFF(), oldest first.  Each one enters
    the handler if the source is (still) enabled. *)
Definition TXPreInit_irq (cfg : Config) (during : list irq_in) (s : Sys)
  : result Sys :=
  match irq_run cfg during (TXPreInit_mode s) with
  | Ok s' => Ok (TXPreInit_mask s')
  | Fault f => Fault f
  end.

(** [TXInit] taken apart at RF_IRQ_ON(): what it does up to and with that
    statement, and the block that computes and stores the trailer after
    it. *)
Definition TXInit_start (Length_arg : Z) (s : Sys) : Sys :=
  let Length := to_len_t Length_arg in
  let h := RF_IRQ_OFF (rf s) in
  let h := if decide (CurMode h <> TX) then RF.Mode TX h else h in
  let c := comm s in
  let raw := SendBuff c in
  let raw := <[(SynchSize + off_Length)%nat := Length]> raw in
  let t := (SynchSize + off_Type)%nat in
  let raw := <[t := Type_set_Control (Z.lnot Length) (raw !!! t)]> raw in
  let c := set_SendCur (Some 1%nat) c in
  let c := set_SendEnd
             (Some (1 + SynchSize + Z.to_nat Length + COMM_PACKETSIZE + 1)%nat)
             c in
  let c := set_Mode MT c in
  let h := transmit_at 0 raw h in
  let h := VSendCommand 0x0000 h in
  let h := RF_IRQ_ON h in
  mkSys (set_SendBuff raw c) h.

Definition TXInit_crc (Length_arg : Z) (s : Sys) : Sys :=
  let Length := to_len_t Length_arg in
  let raw := SendBuff (comm s) in
  let i := to_u16 (Length + Z.of_nat COMM_HEADSIZE) in
  let '(crc, Byte) := crc_do (Z.to_nat i - 1) SynchSize raw CRCInit in
  let raw := <[Byte := to_u8 (Z.land crc 0x00FF)]> raw in
  let raw := <[S Byte := to_u8 (Z.shiftr crc 8)]> raw in
  mkSys (set_CRC crc (set_SendBuff raw (comm s))) (rf s).

(** [TXInit] as it runs with events arriving after RF_IRQ_ON(), while the
    trailer is computed: [during] are those events, oldest first.  The
    handler then runs in MT, where it writes neither the send buffer nor
    the accumulator, and all it reads of what the trailer block stores are
    the two trailer bytes, when it transmits them: as to [State] it makes
    no difference at which turn of the CRC loop an event arrives, and the
    events are taken before the first turn. *)
Definition TXInit_irq (cfg : Config) (Length_arg : Z) (during : list irq_in)
    (s : Sys) : result Sys :=
  match irq_run cfg during (TXInit_start Length_arg s) with
  | Ok s' => Ok (TXInit_crc Length_arg s')
  | Fault f => Fault f
  end.

(** *** Sequences of calls *)

(** What a program using the module does to it, and what the transceiver
    does in between: the calls of the interface, a write of the caller
    through [TXGetBuff()], and an event at the interrupt pin.

    Idle and RXInit mask the interrupt before they touch [State], and
    RXInit unmasks it with its last statement, so the handler does not run
    inside them; RF::Init, with which Init starts, touches nothing the
    handler reads, and neither TXConfig nor a caller's write changes
    anything but the send buffer, which the handler only reads: an event
    that arrives during one of these is an [Irq] step next to it.  The
    handler can run inside the two other calls.  TXInit unmasks the
    interrupt before it computes the trailer, and TXPreInit writes
    [State.Mode] first and masks the interrupt after, so that the handler
    runs in between on a state no other step produces.  [Call_TXInit] and
    [Call_TXPreInit] carry the events that arrive in these windows. *)
Inductive call :=
| Call_Init
| Call_Idle
| Call_RXInit
| Call_TXFill (data : list Z)
| Call_TXConfig (Cfg : Z)
| Call_TXInit (Length : Z) (during : list irq_in)
| Call_TXPreInit (during : list irq_in)
| Irq (i : irq_in).

Definition do_call (cfg : Config) (c : call) (s : Sys) : result Sys :=
  match c with
  | Call_Init => Ok (Init s)
  | Call_Idle => Ok (Idle s)
  | Call_RXInit => Ok (RXInit s)
  | Call_TXFill data => Ok (TXFill data s)
  | Call_TXConfig Cfg => Ok (TXConfig Cfg s)
  | Call_TXInit Length during => TXInit_irq cfg Length during s
  | Call_TXPreInit during => TXPreInit_irq cfg during s
  | Irq i => deliver cfg i s
  end.

Fixpoint run_calls (cfg : Config) (cs : list call) (s : Sys) : result Sys :=
  match cs with
  | [] => Ok s
  | c :: cs' =>
      match do_call cfg c s with
      | Ok s' => run_calls cfg cs' s'
      | Fault f => Fault f
      end
  end.

(** A caller writes inside [Mesg], and what is read over the bus is
    bytes. *)
Definition call_ok (c : call) : Prop :=
  match c with
  | Call_TXFill data => (length data <= MaxMesgSize + COMM_TAILSIZE)%nat
  | Call_TXInit _ during => Forall irq_u8 during
  | Call_TXPreInit during => Forall irq_u8 during
  | Irq i => irq_u8 i
  | _ => True
  end.

(** A step other than a TXPreInit inside which an event arrives, between
    its store to [State.Mode] and RF_IRQ_OFF(). *)
Definition quiet_call (c : call) : Prop :=
  match c with
  | Call_TXPreInit during => during = []
  | _ => True
  end.

(** The largest offset the send end cursor can take. *)
Definition max_SendEnd : nat := (1 + SynchSize + 255 + COMM_PACKETSIZE + 1)%nat.

(** While a transmission is under way the send cursors are set and in
    order. *)
Definition tx_inv (s : Sys) : Prop :=
  Mode_ (comm s) = MT /\
  exists cur e,
    SendCur (comm s) = Some cur /\ SendEnd (comm s) = Some e /\
    (1 <= cur <= e)%nat /\ (e <= max_SendEnd)%nat.

(** The receive cursors at any time, a reception under way or not: if
    the cursor is set so is the end cursor, they are in order and inside
    the buffer; in Mr the end cursor is on the last header byte and, once
    the length byte is in, it is a byte. *)
Definition rx_cursors_ok (s : Sys) : Prop :=
  forall cur, RecvCur (comm s) = Some cur ->
    exists e,
      RecvEnd (comm s) = Some e /\ (cur <= e)%nat /\ (e <= max_RecvEnd)%nat /\
      (Mode_ (comm s) = Mr ->
       e = (COMM_HEADSIZE - 1)%nat /\
       (cur = e -> is_u8 (RecvBuff (comm s) !!! off_Length))).

(** Between two steps: the buffers keep their sizes, and the handler can
    only be entered during a transmission or a reception whose cursors are
    in order. *)
Definition link_inv (s : Sys) : Prop :=
  length (SendBuff (comm s)) = sizeof_frame_t /\
  length (RecvBuff (comm s)) = sizeof_packet_t /\
  (irq_on (rf s) = true -> tx_inv s \/ rx_inv s).

(** Two systems in the same link state: they differ in what has been sent
    to the transceiver at most. *)
Definition same_link (s1 s2 : Sys) : Prop :=
  comm s1 = comm s2 /\ irq_on (rf s1) = irq_on (rf s2).

(** A receiver waiting for the first byte of a frame, as [RXInit] and the
    retry branch of ResetRX leave it. *)
Definition armed (s : Sys) : Prop :=
  irq_on (rf s) = true /\ Mode_ (comm s) = Mr /\
  RecvCur (comm s) = Some 0%nat /\
  RecvEnd (comm s) = Some (COMM_HEADSIZE - 1)%nat /\
  CRC (comm s) = CRCInit.

(** A packet at the head of a buffer that passes the checks of the
    handler: a length byte in 1..255, a control nibble that repeats it
    complemented, and a zero residue over header, body and trailer. *)
Definition packet_valid (buf : list Z) : Prop :=
  let len := buf !!! off_Length in
  1 <= len <= 255 /\
  header_ok len (buf !!! off_Type) /\
  crc_fold CRCInit (take (COMM_HEADSIZE + Z.to_nat len + COMM_TAILSIZE) buf) = 0.

(** What a reception has established so far, mode by mode: the
    accumulator covers the bytes stored, the body is entered with a checked
    header only, and a frame is reported with a checked packet only. *)
Definition rx_track (s : Sys) : Prop :=
  let c := comm s in
  length (RecvBuff c) = sizeof_packet_t /\
  match Mode_ c with
  | Mr =>
      irq_on (rf s) = true ->
      exists cur,
        RecvCur c = Some cur /\ RecvEnd c = Some (COMM_HEADSIZE - 1)%nat /\
        (cur <= COMM_HEADSIZE - 1)%nat /\
        CRC c = crc_fold CRCInit (take cur (RecvBuff c)) /\
        (cur = 1%nat -> is_u8 (RecvBuff c !!! off_Length))
  | MR =>
      irq_on (rf s) = true ->
      exists cur,
        let len := RecvBuff c !!! off_Length in
        RecvCur c = Some cur /\
        RecvEnd c = Some (COMM_HEADSIZE - 1 + Z.to_nat len + COMM_TAILSIZE)%nat /\
        (COMM_HEADSIZE <= cur <= COMM_HEADSIZE - 1 + Z.to_nat len + COMM_TAILSIZE)%nat /\
        is_u8 len /\ header_ok len (RecvBuff c !!! off_Type) /\
        CRC c = crc_fold CRCInit (take cur (RecvBuff c))
  | MX => irq_on (rf s) = false /\ packet_valid (RecvBuff c)
  | MI => irq_on (rf s) = false
  | Mt | MT => False
  end.

(** *** Testcase_UART_TX *)

(** A store through the pointer [TXGetBuff()] returned, at index [k]. *)
Definition Buff_store (k : Z) (b : Z) (s : Sys) : Sys :=
  mkSys (set_SendBuff (<[(TXGetBuff + Z.to_nat k)%nat := b]> (SendBuff (comm s)))
                      (comm s))
        (rf s).

(** The loop of Testcase_UART_TX that gathers the data of one packet.
    [getchar] does not block and returns -1 when nothing has arrived;
    [chars] are its successive results.  The loop returns the length
    gathered, the system with the bytes stored, and the results not read
    yet, or [None] when [chars] runs out while it still polls. *)
Fixpoint UART_TX_gather (chars : list Z) (Length : Z) (s : Sys) {struct chars}
  : option (Z * Sys * list Z) :=
  if decide (Length < 255) then
    match chars with
    | [] => None
    | i :: chars' =>
        if decide (i = -1) then
          if decide (Length = 0) then UART_TX_gather chars' Length s
          else Some (Length, s, chars')
        else UART_TX_gather chars' (Length + 1) (Buff_store Length (to_u8 i) s)
    end
  else Some (Length, s, chars).

(** *** Vocabulary for the further properties *)

(** One step back of the CRC-16/CCITT register: the inverse of
    [crc_ccitt_bit] on 16-bit values. *)
Definition crc_ccitt_unbit (crc : Z) : Z :=
  if Z.testbit crc 15
  then Z.lor (Z.shiftl (Z.lxor crc 0x8408) 1) 1
  else Z.shiftl crc 1.

(** The four statistics counters. *)
Definition counters (c : State) : Z * Z * Z * Z :=
  (PacketsTX c, PacketsRX c, CtrErr c, CRCErr c).

#[global] Instance call_ok_dec c : Decision (call_ok c).
Proof. destruct c; cbn [call_ok]; apply _. Defined.

#[global] Instance quiet_call_dec c : Decision (quiet_call c).
Proof. destruct c; cbn [quiet_call]; apply _. Defined.

(** How a run of the handler that starts during a transmission can end. *)
Definition tx_outcome (cfg : Config) (s r : Sys) : Prop :=
  (SendBuff (comm r) = SendBuff (comm s)
   /\ RecvBuff (comm r) = RecvBuff (comm s))
  /\ ((Mode_ (comm r) = MT /\ irq_on (rf r) = true /\ tx_inv r
       /\ SendEnd (comm r) = SendEnd (comm s)
       /\ PacketsTX (comm r) = PacketsTX (comm s)
       /\ CurMode (rf r) = CurMode (rf s))
      \/ (Mode_ (comm r) = Mt /\ irq_on (rf r) = false
          /\ PacketsTX (comm r) = to_u32 (PacketsTX (comm s) + 1)
          /\ SendEnd (comm r) = SendEnd (comm s)
          /\ CurMode (rf r) = CurMode (rf s))
      \/ (COMM_TXRETRY cfg = false /\ Mode_ (comm r) = MI /\ irq_on (rf r) = false
          /\ PacketsTX (comm r) = PacketsTX (comm s)
          /\ SendCur (comm r) = None /\ SendEnd (comm r) = None
          /\ CurMode (rf r) = DEF))
  /\ (forall e, SendEnd (comm s) = Some e ->
        (e <= length (SendBuff (comm s)))%nat ->
        exists ws, spi (rf r) = spi (rf s) ++ (Cmd <$> ws)).

End Comm.

(** * Properties *)

Import RF Comm.

(** The arithmetic of the model is unfolded on request only. *)
#[global] Arguments to_u8 : simpl never.
#[global] Arguments to_u16 : simpl never.
#[global] Arguments to_u32 : simpl never.
#[global] Arguments lo8 : simpl never.
#[global] Arguments hi8 : simpl never.
#[global] Arguments _crc_ccitt_update : simpl never.
#[global] Arguments crc_mix : simpl never.
#[global] Arguments RF12.S_RGUR : simpl never.
#[global] Arguments RF12.TXWR_CMD : simpl never.
#[global] Arguments Type_Control : simpl never.
#[global] Arguments Type_Config : simpl never.
#[global] Arguments Type_set_Control : simpl never.
#[global] Arguments Type_set_Config : simpl never.
#[global] Arguments isr_status : simpl never.
#[global] Arguments to_len_t : simpl never.

(** Projections of the two records, for [cbn]. *)
Ltac proj :=
  cbn [comm rf SendBuff SendCur SendEnd RecvBuff RecvCur RecvEnd Mode_ Status
       PacketsTX PacketsRX CtrErr CRCErr CRC CurMode irq_on spi].
Ltac proj_in H :=
  cbn [comm rf SendBuff SendCur SendEnd RecvBuff RecvCur RecvEnd Mode_ Status
       PacketsTX PacketsRX CtrErr CRCErr CRC CurMode irq_on spi] in H.
Ltac by_compute := apply (bool_decide_unpack _); vm_compute; exact I.

Ltac simp_setters :=
  cbn [set_SendBuff set_SendCur set_SendEnd set_RecvBuff set_RecvCur
       set_RecvEnd set_Mode set_Status set_PacketsTX set_PacketsRX
       set_CtrErr set_CRCErr set_CRC inc_CtrErr
       comm rf SendBuff SendCur SendEnd RecvBuff RecvCur RecvEnd Mode_ Status
       PacketsTX PacketsRX CtrErr CRCErr CRC CurMode irq_on spi].

Ltac sizes :=
  unfold TXGetBuff, sizeof_frame_t, sizeof_packet_t, MaxMesgSize, SynchSize,
    COMM_PACKETSIZE, COMM_HEADSIZE, COMM_TAILSIZE, off_Mesg, off_Type,
    off_Length in *.

Ltac unfold_setters :=
  cbv [set_SendBuff set_SendCur set_SendEnd set_RecvBuff set_RecvCur
       set_RecvEnd set_Mode set_Status set_PacketsTX set_PacketsRX
       set_CtrErr set_CRCErr set_CRC inc_CtrErr
       comm rf SendBuff SendCur SendEnd RecvBuff RecvCur RecvEnd Mode_ Status
       PacketsTX PacketsRX CtrErr CRCErr CRC CurMode irq_on spi].

(** The catalogue check value of this CRC (reflected CCITT polynomial,
    initial value 0xFFFF, no final XOR) over the ASCII digits 1..9. *)
Example crc_check_value :
  crc_fold 0xFFFF [0x31; 0x32; 0x33; 0x34; 0x35; 0x36; 0x37; 0x38; 0x39]
  = 0x6F91.
Proof. vm_compute. reflexivity. Qed.

Example crc_serial_check_value :
  foldl crc_ccitt_serial 0xFFFF
        [0x31; 0x32; 0x33; 0x34; 0x35; 0x36; 0x37; 0x38; 0x39]
  = 0x6F91.
Proof. vm_compute. reflexivity. Qed.

(** ** Exhaustive checks *)

Lemma all_bits_spec n acc f :
  all_bits n acc f = true ->
  forall x, acc * 2 ^ Z.of_nat n <= x < (acc + 1) * 2 ^ Z.of_nat n -> f x = true.
Proof.
  revert acc. induction n as [|n IH]; intros acc H x Hx.
  - cbn [all_bits] in H. change (2 ^ Z.of_nat 0) with 1 in Hx.
    replace x with acc by lia. exact H.
  - cbn [all_bits] in H. apply andb_true_iff in H as [H0 H1].
    rewrite Nat2Z.inj_succ, Z.pow_succ_r in Hx by lia.
    set (p := 2 ^ Z.of_nat n) in *.
    destruct (Z_lt_dec x ((2 * acc + 1) * p)) as [Hlt|Hge].
    + apply (IH _ H0). fold p. lia.
    + apply (IH _ H1). fold p. lia.
Qed.

Lemma all_u8_spec f : all_u8 f = true -> forall x, is_u8 x -> f x = true.
Proof.
  intros H x Hx. apply (all_bits_spec 8 0 f H).
  unfold is_u8 in Hx. change (2 ^ Z.of_nat 8) with 256. lia.
Qed.

Lemma all_u16_spec f : all_u16 f = true -> forall x, is_u16 x -> f x = true.
Proof.
  intros H x Hx. apply (all_bits_spec 16 0 f H).
  unfold is_u16 in Hx. change (2 ^ Z.of_nat 16) with 65536. lia.
Qed.

Lemma all_u8_u8_spec f :
  all_u8_u8 f = true -> forall a b, is_u8 a -> is_u8 b -> f a b = true.
Proof.
  intros H a b Ha Hb.
  apply (all_u8_spec (f a)); [|exact Hb].
  apply (all_u8_spec (fun a => all_u8 (f a))); [exact H | exact Ha].
Qed.

Lemma lo8_u8 c : is_u8 (lo8 c).
Proof.
  unfold is_u8, lo8. change 255 with (Z.ones 8). rewrite Z.land_ones by lia.
  apply Z.mod_pos_bound. lia.
Qed.

Lemma hi8_u8 c : is_u16 c -> is_u8 (hi8 c).
Proof.
  unfold is_u8, is_u16, hi8. intros Hc. rewrite Z.shiftr_div_pow2 by lia.
  change (2 ^ 8) with 256. split; [apply Z.div_pos; lia|].
  apply Z.div_lt_upper_bound; lia.
Qed.

Lemma lxor_u8 a b : is_u8 a -> is_u8 b -> is_u8 (Z.lxor a b).
Proof.
  intros Ha Hb.
  assert (Hc : all_u8_u8 (fun a b => bool_decide (0 <= Z.lxor a b < 256)) = true)
    by (vm_compute; reflexivity).
  pose proof (all_u8_u8_spec _ Hc a b Ha Hb) as H.
  apply bool_decide_eq_true in H. exact H.
Qed.

Lemma crc_update_mix crc data :
  _crc_ccitt_update crc data = crc_mix (Z.lxor data (lo8 crc)) (hi8 crc).
Proof. reflexivity. Qed.

Lemma crc_mix_u16 e h : is_u8 e -> is_u8 h -> is_u16 (crc_mix e h).
Proof.
  intros He Hh.
  assert (Hc : all_u8_u8 (fun e h => bool_decide (0 <= crc_mix e h < 65536)) = true)
    by (vm_compute; reflexivity).
  pose proof (all_u8_u8_spec _ Hc e h He Hh) as H.
  apply bool_decide_eq_true in H. exact H.
Qed.

Lemma crc_update_u16 crc data :
  is_u16 crc -> is_u8 data -> is_u16 (_crc_ccitt_update crc data).
Proof.
  intros Hc Hd. rewrite crc_update_mix.
  apply crc_mix_u16; [apply lxor_u8; [exact Hd | apply lo8_u8] | apply hi8_u8, Hc].
Qed.

(** Feeding the accumulator its own low byte and then its high byte leaves
    zero; any other low byte leaves a non-zero residue. *)
Lemma crc_mix_residue e h :
  is_u8 e -> is_u8 h ->
  (_crc_ccitt_update (crc_mix e h) h = 0 <-> e = 0).
Proof.
  intros He Hh.
  assert (Hc : all_u8_u8 (fun e h =>
            bool_decide (_crc_ccitt_update (crc_mix e h) h = 0 <-> e = 0)) = true)
    by (vm_compute; reflexivity).
  pose proof (all_u8_u8_spec _ Hc e h He Hh) as H.
  apply bool_decide_eq_true in H. exact H.
Qed.

Lemma crc_residue_zero crc :
  is_u16 crc ->
  _crc_ccitt_update (_crc_ccitt_update crc (lo8 crc)) (hi8 crc) = 0.
Proof.
  intros Hc. rewrite (crc_update_mix crc).
  apply crc_mix_residue; [apply lxor_u8; apply lo8_u8 | apply hi8_u8, Hc |].
  apply Z.lxor_nilpotent.
Qed.

Lemma crc_residue_flipped crc b :
  is_u16 crc -> is_u8 b -> b <> lo8 crc ->
  _crc_ccitt_update (_crc_ccitt_update crc b) (hi8 crc) <> 0.
Proof.
  intros Hc Hb Hne. rewrite (crc_update_mix crc).
  rewrite crc_mix_residue; [| apply lxor_u8; [exact Hb | apply lo8_u8] | apply hi8_u8, Hc].
  rewrite Z.lxor_eq_0_iff. exact Hne.
Qed.

Lemma crc_fold_u16 bs crc :
  is_u16 crc -> Forall is_u8 bs -> is_u16 (crc_fold crc bs).
Proof.
  revert crc. induction bs as [|b bs IH]; intros crc Hc Hbs; [exact Hc|].
  inversion Hbs; subst. apply IH; [apply crc_update_u16|]; assumption.
Qed.

Lemma land_lxor_distr a b m :
  Z.land (Z.lxor a b) m = Z.lxor (Z.land a m) (Z.land b m).
Proof.
  apply Z.bits_inj'. intros n Hn.
  rewrite Z.land_spec, !Z.lxor_spec, !Z.land_spec.
  destruct (Z.testbit a n), (Z.testbit b n), (Z.testbit m n); reflexivity.
Qed.

Lemma lo8_of_u8 b : is_u8 b -> lo8 b = b.
Proof.
  unfold is_u8, lo8. intros Hb. change 255 with (Z.ones 8).
  rewrite Z.land_ones by lia. apply Z.mod_small. exact Hb.
Qed.

Lemma hi8_of_u8 b : is_u8 b -> hi8 b = 0.
Proof.
  unfold is_u8, hi8. intros Hb. rewrite Z.shiftr_div_pow2 by lia.
  apply Z.div_small. exact Hb.
Qed.

Lemma split_u16 x : x = 256 * hi8 x + lo8 x.
Proof.
  unfold hi8, lo8. change 255 with (Z.ones 8).
  rewrite Z.land_ones, Z.shiftr_div_pow2 by lia.
  change (2 ^ 8) with 256. apply Z.div_mod. lia.
Qed.

Lemma lxor_u16_u8 crc data :
  is_u16 crc -> is_u8 data ->
  lo8 (Z.lxor crc data) = Z.lxor data (lo8 crc) /\
  hi8 (Z.lxor crc data) = hi8 crc /\
  is_u16 (Z.lxor crc data).
Proof.
  intros Hc Hd.
  assert (Hlo : lo8 (Z.lxor crc data) = Z.lxor data (lo8 crc)).
  { unfold lo8 at 1. rewrite land_lxor_distr. fold (lo8 crc) (lo8 data).
    rewrite (lo8_of_u8 data Hd). apply Z.lxor_comm. }
  assert (Hhi : hi8 (Z.lxor crc data) = hi8 crc).
  { unfold hi8 at 1. rewrite Z.shiftr_lxor. fold (hi8 crc) (hi8 data).
    rewrite (hi8_of_u8 data Hd). apply Z.lxor_0_r. }
  split; [exact Hlo|]. split; [exact Hhi|].
  pose proof (split_u16 (Z.lxor crc data)) as Hs.
  pose proof (lo8_u8 (Z.lxor crc data)) as H1.
  pose proof (hi8_u8 crc Hc) as H2. rewrite <- Hhi in H2.
  unfold is_u8, is_u16 in *. lia.
Qed.

(** The byte-wise routine is the bit-serial CRC-16/CCITT register. *)
Lemma crc_update_is_ccitt crc data :
  is_u16 crc -> is_u8 data ->
  _crc_ccitt_update crc data = crc_ccitt_serial crc data.
Proof.
  intros Hc Hd. destruct (lxor_u16_u8 crc data Hc Hd) as (Hlo & Hhi & Hx).
  rewrite crc_update_mix, <- Hlo, <- Hhi. unfold crc_ccitt_serial.
  assert (Hall : all_u16 (fun x =>
            bool_decide (crc_mix (lo8 x) (hi8 x) = Nat.iter 8 crc_ccitt_bit x))
          = true) by (vm_compute; reflexivity).
  pose proof (all_u16_spec _ Hall _ Hx) as H.
  apply bool_decide_eq_true in H. exact H.
Qed.

(** ** The control byte *)

Lemma land15_u8 v : is_u8 (Z.land v 0x0F).
Proof.
  unfold is_u8. change 0x0F with (Z.ones 4). rewrite Z.land_ones by lia.
  pose proof (Z.mod_pos_bound v (2 ^ 4)). lia.
Qed.

Lemma land15_lt v : Z.land v 0x0F < 16.
Proof.
  change 0x0F with (Z.ones 4). rewrite Z.land_ones by lia.
  pose proof (Z.mod_pos_bound v (2 ^ 4)). lia.
Qed.

Lemma Type_set_Control_low v raw :
  Type_set_Control v raw = Type_set_Control (Z.land v 0x0F) raw.
Proof.
  unfold Type_set_Control. rewrite <- Z.land_assoc. reflexivity.
Qed.

Lemma Type_set_Config_low v raw :
  Type_set_Config v raw = Type_set_Config (Z.land v 0x0F) raw.
Proof.
  unfold Type_set_Config. rewrite <- Z.land_assoc. reflexivity.
Qed.

Lemma Type_set_Control_spec v raw :
  is_u8 raw ->
  is_u8 (Type_set_Control v raw) /\
  Type_Control (Type_set_Control v raw) = Z.land v 0x0F /\
  Type_Config (Type_set_Control v raw) = Type_Config raw.
Proof.
  intros Hr. rewrite Type_set_Control_low.
  assert (Hall : all_u8_u8 (fun w r => bool_decide (
            (0 <= Type_set_Control w r < 256) /\
            (w < 16 -> Type_Control (Type_set_Control w r) = w) /\
            Type_Config (Type_set_Control w r) = Type_Config r)) = true)
    by (vm_compute; reflexivity).
  pose proof (all_u8_u8_spec _ Hall _ _ (land15_u8 v) Hr) as H.
  apply bool_decide_eq_true in H. destruct H as (H1 & H2 & H3).
  split; [exact H1|]. split; [|exact H3].
  apply H2, land15_lt.
Qed.

Lemma Type_set_Config_spec v raw :
  is_u8 raw ->
  is_u8 (Type_set_Config v raw) /\
  Type_Config (Type_set_Config v raw) = Z.land v 0x0F /\
  Type_Control (Type_set_Config v raw) = Type_Control raw.
Proof.
  intros Hr. rewrite Type_set_Config_low.
  assert (Hall : all_u8_u8 (fun w r => bool_decide (
            (0 <= Type_set_Config w r < 256) /\
            (w < 16 -> Type_Config (Type_set_Config w r) = w) /\
            Type_Control (Type_set_Config w r) = Type_Control r)) = true)
    by (vm_compute; reflexivity).
  pose proof (all_u8_u8_spec _ Hall _ _ (land15_u8 v) Hr) as H.
  apply bool_decide_eq_true in H. destruct H as (H1 & H2 & H3).
  split; [exact H1|]. split; [|exact H3].
  apply H2, land15_lt.
Qed.

(** ** The CRC loop of TXInit *)

Lemma crc_do_spec k B raw crc :
  (B + S k <= length raw)%nat ->
  crc_do k B raw crc = (crc_fold crc (take (S k) (drop B raw)), (B + S k)%nat).
Proof.
  revert B crc. induction k as [|k IH]; intros B crc Hlen.
  - cbn [crc_do].
    destruct (lookup_lt_is_Some_2 raw B ltac:(lia)) as [x Hx].
    rewrite (list_lookup_total_correct _ _ _ Hx).
    rewrite (drop_S _ _ _ Hx). cbn. f_equal. lia.
  - cbn [crc_do].
    destruct (lookup_lt_is_Some_2 raw B ltac:(lia)) as [x Hx].
    rewrite (list_lookup_total_correct _ _ _ Hx).
    rewrite IH by lia.
    rewrite (drop_S _ _ _ Hx). cbn [take crc_fold foldl]. 
    f_equal. lia.
Qed.

Lemma to_len_t_u8 l : is_u8 (to_len_t l).
Proof. unfold is_u8, to_len_t, to_u8. apply Z.mod_pos_bound. lia. Qed.

Lemma insert_after {A} (p : list A) v x r :
  <[length p := v]> (p ++ x :: r) = p ++ v :: r.
Proof. induction p as [|a p IH]; [reflexivity|]. cbn. f_equal. exact IH. Qed.

Lemma insert_after_S {A} (p : list A) v x y r :
  <[S (length p) := v]> (p ++ x :: y :: r) = p ++ x :: v :: r.
Proof. induction p as [|a p IH]; [reflexivity|]. cbn. f_equal. exact IH. Qed.

Lemma to_u8_lo8 c : to_u8 (Z.land c 255) = lo8 c.
Proof.
  pose proof (lo8_u8 c) as H. unfold to_u8, is_u8, lo8 in *.
  apply Z.mod_small. exact H.
Qed.

Lemma to_u8_hi8 c : is_u16 c -> to_u8 (Z.shiftr c 8) = hi8 c.
Proof.
  intros Hc. pose proof (hi8_u8 c Hc) as H. unfold to_u8, is_u8, hi8 in *.
  apply Z.mod_small. exact H.
Qed.

(** [TXInit] on a send buffer split into its fields. *)
Lemma TXInit_frame l s s0 s1 s2 s3 a b payload x y rest :
  SendBuff (comm s) = s0 :: s1 :: s2 :: s3 :: a :: b :: payload ++ x :: y :: rest ->
  length payload = Z.to_nat (to_len_t l) ->
  is_u8 b -> Forall is_u8 payload ->
  let ctl := Type_set_Control (Z.lnot (to_len_t l)) b in
  let crc := crc_fold CRCInit (to_len_t l :: ctl :: payload) in
  comm (TXInit l s) =
    set_CRC crc
      (set_SendBuff (s0 :: s1 :: s2 :: s3 :: to_len_t l :: ctl :: payload
                       ++ lo8 crc :: hi8 crc :: rest)
         (set_Mode MT
            (set_SendEnd (Some (Z.to_nat (to_len_t l) + 10)%nat)
               (set_SendCur (Some 1%nat) (comm s))))).
Proof.
  intros Hraw Hlen Hb Hp ctl crc. pose proof (to_len_t_u8 l) as HL.
  assert (Hcrc : is_u16 crc).
  { apply crc_fold_u16; [unfold is_u16, CRCInit; lia|].
    apply Forall_cons_2; [exact HL|].
    apply Forall_cons_2; [apply Type_set_Control_spec, Hb | exact Hp]. }
  unfold is_u8 in HL. unfold TXInit. rewrite Hraw.
  set (L := to_len_t l) in *. clearbody L.
  change (<[(SynchSize + off_Length)%nat := L]>
            (s0 :: s1 :: s2 :: s3 :: a :: b :: payload ++ x :: y :: rest))
    with (s0 :: s1 :: s2 :: s3 :: L :: b :: payload ++ x :: y :: rest).
  change ((s0 :: s1 :: s2 :: s3 :: L :: b :: payload ++ x :: y :: rest)
            !!! (SynchSize + off_Type)%nat) with b.
  fold ctl.
  change (<[(SynchSize + off_Type)%nat := ctl]>
            (s0 :: s1 :: s2 :: s3 :: L :: b :: payload ++ x :: y :: rest))
    with (s0 :: s1 :: s2 :: s3 :: L :: ctl :: payload ++ x :: y :: rest).
  replace (Z.to_nat (to_u16 (L + Z.of_nat COMM_HEADSIZE)) - 1)%nat
    with (S (length payload)).
  2:{ unfold to_u16. change (Z.of_nat COMM_HEADSIZE) with 2.
      rewrite Z.mod_small by lia. clear -Hlen HL. lia. }
  rewrite crc_do_spec.
  2:{ cbn [length]. rewrite length_app. cbn [length]. unfold SynchSize. lia. }
  change (drop SynchSize
            (s0 :: s1 :: s2 :: s3 :: L :: ctl :: payload ++ x :: y :: rest))
    with (L :: ctl :: payload ++ x :: y :: rest).
  change (take (S (S (length payload))) (L :: ctl :: payload ++ x :: y :: rest))
    with (L :: ctl :: take (length payload) (payload ++ x :: y :: rest)).
  rewrite take_app_length. fold crc.
  cbv beta iota zeta. cbn [comm].
  change (SynchSize + S (S (length payload)))%nat
    with (S (S (S (S (S (S (length payload))))))).
  change (<[S (S (S (S (S (S (length payload))))))
             := to_u8 (Z.land crc 255)]>
            (s0 :: s1 :: s2 :: s3 :: L :: ctl :: payload ++ x :: y :: rest))
    with (s0 :: s1 :: s2 :: s3 :: L :: ctl ::
            <[length payload := to_u8 (Z.land crc 255)]>
              (payload ++ x :: y :: rest)).
  rewrite insert_after.
  change (<[S (S (S (S (S (S (S (length payload)))))))
             := to_u8 (Z.shiftr crc 8)]>
            (s0 :: s1 :: s2 :: s3 :: L :: ctl
               :: payload ++ to_u8 (Z.land crc 255) :: y :: rest))
    with (s0 :: s1 :: s2 :: s3 :: L :: ctl ::
            <[S (length payload) := to_u8 (Z.shiftr crc 8)]>
              (payload ++ to_u8 (Z.land crc 255) :: y :: rest)).
  rewrite insert_after_S.
  rewrite to_u8_lo8, (to_u8_hi8 _ Hcrc).
  replace (1 + SynchSize + Z.to_nat L + COMM_PACKETSIZE + 1)%nat
    with (Z.to_nat L + 10)%nat
    by (unfold SynchSize, COMM_PACKETSIZE, COMM_HEADSIZE, COMM_TAILSIZE; lia).
  reflexivity.
Qed.

(** ** Runs of the handler *)

Lemma irq_run_app cfg ins1 ins2 s :
  irq_run cfg (ins1 ++ ins2) s =
  match irq_run cfg ins1 s with
  | Ok s' => irq_run cfg ins2 s'
  | Fault f => Fault f
  end.
Proof.
  revert s. induction ins1 as [|i ins1 IH]; intros s; [reflexivity|].
  cbn [app irq_run]. destruct (irq_on (rf s)); [|apply IH].
  destruct (ISR cfg i s); [apply IH | reflexivity].
Qed.

Lemma irq_run_masked cfg ins s :
  irq_on (rf s) = false -> irq_run cfg ins s = Ok s.
Proof.
  intros H. induction ins as [|i ins IH]; [reflexivity|].
  cbn [irq_run]. rewrite H. exact IH.
Qed.

Lemma ISR_rx_store cfg i s cur :
  no_rgur i -> Mode_ (comm s) <> MT ->
  RecvCur (comm s) = Some cur -> (cur < length (RecvBuff (comm s)))%nat ->
  RecvEnd (comm s) <> Some cur ->
  ISR cfg i s =
  Ok (mkSys (set_RecvCur (Some (S cur)) (rx_stored i cur (comm s))) (rf s)).
Proof.
  intros Hr Hm Hc Hlt He. destruct s as [[] h]. cbn in *. subst.
  unfold ISR, no_rgur in *. cbn.
  rewrite decide_False by (intros ?; congruence).
  rewrite decide_False by assumption.
  rewrite decide_True by assumption.
  rewrite decide_False by congruence.
  reflexivity.
Qed.

Lemma ISR_rx_header cfg i s cur :
  no_rgur i -> Mode_ (comm s) = Mr ->
  RecvCur (comm s) = Some cur -> (cur < length (RecvBuff (comm s)))%nat ->
  RecvEnd (comm s) = Some cur ->
  let c := rx_stored i cur (comm s) in
  let len := RecvBuff c !!! off_Length in
  ISR cfg i s =
  if decide (header_ok len (RecvBuff c !!! off_Type)) then
    Ok (mkSys (set_RecvCur (Some (S cur))
                 (set_Mode MR
                    (set_RecvEnd (Some (cur + Z.to_nat len + COMM_TAILSIZE)%nat)
                       c)))
              (rf s))
  else Ok (ResetRX cfg (mkSys (inc_CtrErr c) (rf s))).
Proof.
  intros Hr Hm Hc Hlt He. destruct s as [[] h]. cbn in *. subst.
  unfold ISR, no_rgur in *. cbn.
  rewrite decide_False by (intros ?; congruence).
  rewrite decide_False by discriminate.
  rewrite decide_True by assumption.
  rewrite decide_True by reflexivity.
  rewrite decide_True by reflexivity.
  unfold header_ok, Type_Control.
  repeat case_decide; try reflexivity; try tauto.
Qed.

Lemma ISR_rx_final cfg i s cur :
  no_rgur i -> Mode_ (comm s) <> MT -> Mode_ (comm s) <> Mr ->
  RecvCur (comm s) = Some cur -> (cur < length (RecvBuff (comm s)))%nat ->
  RecvEnd (comm s) = Some cur ->
  let c := rx_stored i cur (comm s) in
  ISR cfg i s =
  if decide (CRC c = 0) then
    Ok (mkSys (set_Mode MX (set_PacketsRX (to_u32 (PacketsRX c + 1)) c))
              (RF_IRQ_OFF (RF.Mode DEF (rf s))))
  else Ok (ResetRX cfg (mkSys (set_CRCErr (to_u16 (CRCErr c + 1)) c) (rf s))).
Proof.
  intros Hr Hm Hm' Hc Hlt He. destruct s as [[] h]. cbn in *. subst.
  unfold ISR, no_rgur in *. cbn.
  rewrite decide_False by (intros ?; congruence).
  rewrite decide_False by assumption.
  rewrite decide_True by assumption.
  rewrite decide_True by reflexivity.
  rewrite decide_False by assumption.
  reflexivity.
Qed.

Lemma list_insert_inserts {A} (k l : list A) i x :
  list_inserts (S i) k (<[i := x]> l) = list_inserts i (x :: k) l.
Proof.
  cbn [list_inserts]. symmetry. apply list_insert_inserts_lt. lia.
Qed.

(** Bytes stored before the end cursor is reached. *)
Lemma rx_store_run cfg ins : forall s cur e,
  irq_on (rf s) = true -> Mode_ (comm s) <> MT ->
  RecvCur (comm s) = Some cur -> RecvEnd (comm s) = Some e ->
  (cur + length ins <= e)%nat -> (e < length (RecvBuff (comm s)))%nat ->
  Forall no_rgur ins ->
  irq_run cfg ins s =
  Ok (mkSys
        (set_RecvCur (Some (cur + length ins)%nat)
           (set_CRC (crc_fold (CRC (comm s)) (fifo <$> ins))
              (set_RecvBuff (list_inserts cur (fifo <$> ins) (RecvBuff (comm s)))
                 (set_Status (run_status ins (Status (comm s))) (comm s)))))
        (rf s)).
Proof.
  induction ins as [|i ins IH]; intros s cur e Hirq Hm Hc He Hle Hlt Hr.
  - destruct s as [[] h]. cbn in *. subst. rewrite Nat.add_0_r. reflexivity.
  - inversion Hr as [|? ? Hr1 Hr2]; subst. cbn [irq_run length] in *.
    rewrite Hirq.
    rewrite (ISR_rx_store cfg i s cur)
      by (try assumption; try lia; rewrite He; intros [=]; lia).
    destruct s as [[] h]. cbn in Hirq, Hm, Hc, He, Hlt. subst.
    rewrite (IH _ (S cur) e); cbn;
      [ | assumption | assumption | reflexivity | reflexivity | lia
        | rewrite length_insert; assumption | assumption ].
    unfold rx_stored. unfold_setters.
    rewrite list_insert_inserts.
    repeat f_equal. lia.
Qed.

Lemma list_inserts_cons_S {A} (k : list A) a l i :
  list_inserts (S i) k (a :: l) = a :: list_inserts i k l.
Proof.
  revert i. induction k as [|x k IH]; intros i; [reflexivity|].
  cbn [list_inserts]. rewrite IH. reflexivity.
Qed.

Lemma list_inserts_0 {A} (k l : list A) :
  (length k <= length l)%nat ->
  list_inserts 0 k l = k ++ drop (length k) l.
Proof.
  revert l. induction k as [|x k IH]; intros l H; [symmetry; apply drop_0|].
  destruct l as [|a l]; [cbn in H; lia|].
  cbn [list_inserts]. rewrite list_inserts_cons_S.
  cbn. f_equal. apply IH. cbn in H. lia.
Qed.

Lemma rx_packet cfg rx len ctl body t1 t2 ins :
  length (RecvBuff (comm rx)) = sizeof_packet_t ->
  is_u8 len -> header_ok len ctl -> length body = Z.to_nat len ->
  Forall no_rgur ins -> fifo <$> ins = len :: ctl :: body ++ [t1; t2] ->
  exists st,
    let c := rx_taken rx len ctl body t1 t2 st in
    let h := rf (RXInit rx) in
    irq_run cfg ins (RXInit rx) =
    Ok (if decide (CRC c = 0) then
          mkSys (set_Mode MX (set_PacketsRX (to_u32 (PacketsRX c + 1)) c))
                (RF_IRQ_OFF (RF.Mode DEF h))
        else ResetRX cfg (mkSys (set_CRCErr (to_u16 (CRCErr c + 1)) c) h)).
Proof.
  intros Hlen Hl Hok Hb Hr Hf.
  destruct ins as [|i0 [|i1 ins]]; try discriminate Hf.
  cbn [fmap list_fmap] in Hf. injection Hf as Hf0 Hf1 Hf.
  apply fmap_app_inv in Hf as (insB & insT & HfB & HfT & ->).
  destruct insT as [|iL [|iT [|? ?]]]; try discriminate HfT.
  cbn [fmap list_fmap] in HfT. injection HfT as HfL HfT.
  apply Forall_cons_1 in Hr as [Hr0 Hr].
  apply Forall_cons_1 in Hr as [Hr1 Hr].
  apply Forall_app in Hr as [HrB Hr].
  apply Forall_cons_1 in Hr as [HrL Hr].
  apply Forall_cons_1 in Hr as [HrT _].
  exists (isr_status iT).
  subst body t1 t2. rewrite <- Hf0, <- Hf1 in *.
  pose proof (eq_refl : irq_on (rf (RXInit rx)) = true) as Hirq.
  unfold rx_taken.
  change (comm (RXInit rx)) with
    (set_RecvEnd (Some 1%nat) (set_RecvCur (Some 0%nat)
       (set_CRC CRCInit (set_Mode Mr (comm rx))))).
  replace (RXInit rx) with
    (mkSys (set_RecvEnd (Some 1%nat) (set_RecvCur (Some 0%nat)
              (set_CRC CRCInit (set_Mode Mr (comm rx)))))
           (rf (RXInit rx))) by reflexivity.
  cbn [rf]. set (h0 := rf (RXInit rx)) in *. clearbody h0.
  destruct rx as [[sb sc se rb rc re m st ptx prx ce cre crc] h].
  cbn [comm RecvBuff] in Hlen.
  destruct rb as [|r0 [|r1 rb]];
    try (cbn in Hlen; unfold sizeof_packet_t in Hlen; cbn in Hlen; lia).
  assert (Hrb : length rb = 258%nat) by (cbn in Hlen; unfold sizeof_packet_t, MaxMesgSize, COMM_TAILSIZE in Hlen; lia).
  clear Hlen.
  unfold_setters.
  replace (i0 :: i1 :: insB ++ [iL; iT])
    with ([i0] ++ ([i1] ++ ((insB ++ [iL]) ++ [iT])))
    by (cbn [app]; rewrite <- app_assoc; reflexivity).
  rewrite irq_run_app.
  rewrite (rx_store_run cfg [i0] _ 0 1); proj;
    [ | assumption | discriminate | reflexivity | reflexivity | cbn [length]; lia
      | cbn [length]; lia | apply Forall_cons_2; [assumption | constructor] ].
  unfold crc_fold.
  unfold_setters. cbn [length fmap list_fmap Nat.add list_inserts run_status foldl].
  change (<[0%nat := fifo i0]> (r0 :: r1 :: rb)) with (fifo i0 :: r1 :: rb).
  (* the control byte: header check *)
  rewrite irq_run_app. cbn [irq_run]. proj. rewrite Hirq.
  rewrite (ISR_rx_header cfg i1 _ 1); proj;
    [ | assumption | reflexivity | reflexivity | cbn [length]; lia | reflexivity ].
  unfold rx_stored. unfold_setters.
  change (<[1%nat := fifo i1]> (fifo i0 :: r1 :: rb)) with (fifo i0 :: fifo i1 :: rb).
  change ((fifo i0 :: fifo i1 :: rb) !!! off_Length) with (fifo i0).
  change ((fifo i0 :: fifo i1 :: rb) !!! off_Type) with (fifo i1).
  rewrite decide_True by exact Hok.
  (* the body and the first trailer byte *)
  rewrite irq_run_app.
  rewrite (rx_store_run cfg (insB ++ [iL]) _ 2 (Z.to_nat (fifo i0) + 3)); proj;
    [ | assumption | discriminate | reflexivity
      | f_equal; unfold COMM_TAILSIZE; lia
      | rewrite length_app; rewrite length_fmap in Hb; cbn [length]; lia
      | cbn [length]; unfold is_u8 in Hl; lia
      | apply Forall_app; split; [assumption | apply Forall_cons_2; [assumption | constructor]] ].
  unfold_setters.
  (* the last trailer byte: CRC decision *)
  assert (Hn : length insB = Z.to_nat (fifo i0)) by (rewrite length_fmap in Hb; exact Hb).
  set (n := Z.to_nat (fifo i0)) in *.
  assert (Hn' : (n <= 255)%nat) by (unfold is_u8 in Hl; lia).
  destruct (lookup_lt_is_Some_2 rb (S n) ltac:(lia)) as [x Hx].
  replace (list_inserts 2 (fifo <$> insB ++ [iL]) (fifo i0 :: fifo i1 :: rb))
    with ((fifo i0 :: fifo i1 :: (fifo <$> insB) ++ [fifo iL])
            ++ x :: drop (S (S n)) rb).
  2:{ rewrite !list_inserts_cons_S, list_inserts_0
        by (rewrite length_fmap, length_app; cbn [length]; lia).
      rewrite length_fmap, length_app, fmap_app. cbn [length fmap list_fmap].
      replace (length insB + 1)%nat with (S n) by lia.
      rewrite (drop_S _ _ _ Hx). cbn [app]. rewrite <- app_assoc. reflexivity. }
  replace (2 + length (insB ++ [iL]))%nat
    with (length (fifo i0 :: fifo i1 :: (fifo <$> insB) ++ [fifo iL]))
    by (cbn [length]; rewrite !length_app, length_fmap; cbn [length]; lia).
  replace (1 + n + COMM_TAILSIZE)%nat
    with (length (fifo i0 :: fifo i1 :: (fifo <$> insB) ++ [fifo iL]))
    by (cbn [length]; rewrite !length_app, length_fmap; cbn [length];
        unfold COMM_TAILSIZE; lia).
  cbn [irq_run]. proj. rewrite Hirq.
  rewrite (ISR_rx_final cfg iT _
             (length (fifo i0 :: fifo i1 :: (fifo <$> insB) ++ [fifo iL]))); proj;
    [ | assumption | discriminate | discriminate | reflexivity
      | rewrite length_app; cbn [length]; lia | reflexivity ].
  unfold rx_stored. unfold_setters.
  rewrite insert_after.
  replace (_crc_ccitt_update
             (crc_fold
                (_crc_ccitt_update (_crc_ccitt_update CRCInit (fifo i0))
                   (fifo i1))
                (fifo <$> insB ++ [iL]))
             (fifo iT))
    with (foldl _crc_ccitt_update
            (_crc_ccitt_update (_crc_ccitt_update CRCInit (fifo i0)) (fifo i1))
            ((fifo <$> insB) ++ [fifo iL; fifo iT])).
  2:{ unfold crc_fold. rewrite fmap_app, !foldl_app. reflexivity. }
  replace (length (fifo i0 :: fifo i1 :: (fifo <$> insB) ++ [fifo iL]))
    with (n + 3)%nat
    by (cbn [length]; rewrite !length_app, length_fmap; cbn [length]; lia).
  replace ((fifo i0 :: fifo i1 :: (fifo <$> insB) ++ [fifo iL]) ++
             fifo iT :: drop (S (S n)) rb)
    with (fifo i0 :: fifo i1 :: (fifo <$> insB) ++
            fifo iL :: fifo iT :: drop (n + 4) (r0 :: r1 :: rb)).
  2:{ replace (n + 4)%nat with (S (S (S (S n)))) by lia.
      cbn [drop app]. rewrite <- app_assoc. reflexivity. }
  case_decide; reflexivity.
Qed.

(** ** The frame built by TXInit *)

Lemma list_inserts_split {A} (k l : list A) i :
  (i + length k <= length l)%nat ->
  list_inserts i k l = take i l ++ k ++ drop (i + length k) l.
Proof.
  intros H. apply list_eq. intros j.
  destruct (decide (j < i)%nat) as [Hlt|Hge].
  - rewrite list_lookup_inserts_lt by lia.
    rewrite lookup_app_l by (rewrite length_take; lia).
    rewrite lookup_take_lt by lia. reflexivity.
  - destruct (decide (j < i + length k)%nat) as [Hin|Hout].
    + rewrite list_lookup_inserts by lia.
      rewrite lookup_app_r by (rewrite length_take; lia).
      rewrite length_take. rewrite lookup_app_l by lia.
      f_equal. lia.
    + rewrite list_lookup_inserts_ge by lia.
      rewrite lookup_app_r by (rewrite length_take; lia).
      rewrite length_take.
      rewrite lookup_app_r by lia.
      rewrite lookup_drop. f_equal. lia.
Qed.

(** A send buffer of the right size splits into the fields of a frame
    carrying [n] payload bytes. *)
Lemma frame_split (raw : list Z) (n : nat) :
  length raw = sizeof_frame_t -> (n <= 255)%nat ->
  exists s0 s1 s2 s3 a b x y rest,
    raw = s0 :: s1 :: s2 :: s3 :: a :: b :: take n (drop 6 raw) ++ x :: y :: rest
    /\ length (take n (drop 6 raw)) = n
    /\ rest = drop (n + 8) raw.
Proof.
  intros Hlen Hn. sizes.
  destruct raw as [|s0 [|s1 [|s2 [|s3 [|a [|b r6]]]]]];
    try (cbn [length] in Hlen; lia).
  cbn [length] in Hlen. change (drop 6 (s0 :: s1 :: s2 :: s3 :: a :: b :: r6)) with r6.
  destruct (lookup_lt_is_Some_2 r6 n ltac:(lia)) as [x Hx].
  destruct (lookup_lt_is_Some_2 r6 (S n) ltac:(lia)) as [y Hy].
  exists s0, s1, s2, s3, a, b, x, y, (drop (S (S n)) r6).
  split; [|split].
  - rewrite <- (drop_S _ _ _ Hy), <- (drop_S _ _ _ Hx), take_drop. reflexivity.
  - rewrite length_take. lia.
  - replace (n + 8)%nat with (S (S (S (S (S (S (S (S n)))))))) by lia.
    reflexivity.
Qed.

Lemma TXInit_comm l s :
  wf s ->
  let raw := SendBuff (comm s) in
  let n := Z.to_nat (to_len_t l) in
  let payload := take n (drop 6 raw) in
  let ctl := Type_set_Control (Z.lnot (to_len_t l)) (raw !!! 5%nat) in
  let crc := crc_fold CRCInit (to_len_t l :: ctl :: payload) in
  comm (TXInit l s) =
    set_CRC crc
      (set_SendBuff (take 4 raw ++ to_len_t l :: ctl :: payload
                       ++ lo8 crc :: hi8 crc :: drop (n + 8) raw)
         (set_Mode MT
            (set_SendEnd (Some (n + 10)%nat)
               (set_SendCur (Some 1%nat) (comm s))))).
Proof.
  intros (Hlen & _ & Hu8) raw n payload ctl crc.
  pose proof (to_len_t_u8 l) as HL.
  assert (Hn : (n <= 255)%nat) by (unfold is_u8 in HL; subst n; lia).
  destruct (frame_split raw n Hlen Hn)
    as (s0 & s1 & s2 & s3 & a & b & x & y & rest & Hraw & Hp & Hrest).
  fold payload in Hraw, Hp.
  assert (Hb : raw !!! 5%nat = b) by (rewrite Hraw; reflexivity).
  assert (H4 : take 4 raw = [s0; s1; s2; s3]) by (rewrite Hraw; reflexivity).
  assert (Hub : is_u8 b).
  { fold raw in Hu8. rewrite Hraw in Hu8.
    do 5 apply Forall_cons_1 in Hu8 as [_ Hu8].
    apply Forall_cons_1 in Hu8 as [Hu8 _]. exact Hu8. }
  assert (Hup : Forall is_u8 payload).
  { subst payload. apply Forall_take, Forall_drop. exact Hu8. }
  rewrite (TXInit_frame l s s0 s1 s2 s3 a b payload x y rest Hraw Hp Hub Hup).
  subst ctl crc. rewrite Hb, H4, <- Hrest. reflexivity.
Qed.

Lemma TXInit_rf l s b0 rest :
  SendBuff (comm s) = b0 :: rest ->
  rf (TXInit l s) =
  RF_IRQ_ON
    (VSendCommand 0
       (Transmit b0
          (if decide (CurMode (rf s) <> TX)
           then RF.Mode TX (RF_IRQ_OFF (rf s)) else RF_IRQ_OFF (rf s)))).
Proof.
  intros Hraw. unfold TXInit. rewrite Hraw.
  destruct (crc_do _ _ _ _) as [crc Byte]. proj.
  destruct rest as [|b1 [|b2 [|b3 [|b4 [|b5 rest]]]]]; reflexivity.
Qed.

Lemma wf_TXFill payload s :
  wf s -> Forall is_u8 payload ->
  (length payload <= MaxMesgSize + COMM_TAILSIZE)%nat ->
  wf (TXFill payload s).
Proof.
  intros (Hs & Hr & Hu) Hp Hn. unfold wf, TXFill. simp_setters.
  rewrite length_inserts. split; [exact Hs|]. split; [exact Hr|].
  rewrite list_inserts_split by (sizes; lia).
  apply Forall_app; split; [apply Forall_take, Hu|].
  apply Forall_app; split; [exact Hp | apply Forall_drop, Hu].
Qed.

Lemma TXFill_payload payload s :
  wf s -> (length payload <= MaxMesgSize + COMM_TAILSIZE)%nat ->
  take (length payload) (drop 6 (SendBuff (comm (TXFill payload s)))) = payload.
Proof.
  intros (Hs & _) Hn. unfold TXFill. simp_setters.
  rewrite list_inserts_split by (sizes; lia).
  unfold TXGetBuff, SynchSize, off_Mesg. change (4 + 2)%nat with 6%nat.
  rewrite drop_app_length' by (rewrite length_take; sizes; lia).
  apply take_app_length.
Qed.

Lemma take4_frame (raw : list Z) :
  length raw = sizeof_frame_t ->
  exists s0 s1 s2 s3, take 4 raw = [s0; s1; s2; s3].
Proof.
  intros Hlen. sizes.
  destruct raw as [|s0 [|s1 [|s2 [|s3 r]]]]; try (cbn [length] in Hlen; lia).
  exists s0, s1, s2, s3. reflexivity.
Qed.

Lemma wf_u8_lookup s i :
  wf s -> is_u8 (SendBuff (comm s) !!! i).
Proof.
  intros (_ & _ & Hu).
  destruct (decide (i < length (SendBuff (comm s)))%nat) as [Hlt|Hge].
  - destruct (lookup_lt_is_Some_2 _ _ Hlt) as [x Hx].
    rewrite (list_lookup_total_correct _ _ _ Hx).
    eapply Forall_lookup_1; [exact Hu | exact Hx].
  - rewrite list_lookup_total_alt, lookup_ge_None_2 by lia.
    cbn. unfold is_u8. lia.
Qed.

Lemma crc_fold_app crc a b :
  crc_fold crc (a ++ b) = crc_fold (crc_fold crc a) b.
Proof. apply foldl_app. Qed.

Lemma CRCInit_u16 : is_u16 CRCInit.
Proof. unfold is_u16, CRCInit. lia. Qed.

(** The packet handed to the receiver for a payload written with [TXFill]
    and framed by [TXInit]. *)
Lemma packet_of_payload tx payload :
  wf tx -> Forall is_u8 payload -> (length payload <= 255)%nat ->
  let l := Z.of_nat (length payload) in
  let tx' := TXInit l (TXFill payload tx) in
  let ctl := Type_set_Control (Z.lnot l)
               (SendBuff (comm tx) !!! (SynchSize + off_Type)%nat) in
  let crc := crc_fold CRCInit (l :: ctl :: payload) in
  packet_bytes tx' = l :: ctl :: payload ++ [lo8 crc; hi8 crc]
  /\ is_u8 l /\ is_u8 ctl /\ is_u16 crc
  /\ Type_Control ctl = Z.land (Z.lnot l) 0x0F.
Proof.
  intros Hwf Hp Hn l tx' ctl crc.
  assert (Hl : to_len_t l = l).
  { unfold to_len_t, to_u8. apply Z.mod_small. subst l. lia. }
  assert (Hwf' : wf (TXFill payload tx)) by (apply wf_TXFill; [assumption..|sizes; lia]).
  pose proof (TXInit_comm l (TXFill payload tx) Hwf') as Hc.
  cbv zeta in Hc. rewrite Hl in Hc.
  replace (Z.to_nat l) with (length payload) in Hc by (subst l; lia).
  rewrite TXFill_payload in Hc by (try assumption; sizes; lia).
  assert (H5 : SendBuff (comm (TXFill payload tx)) !!! 5%nat
               = SendBuff (comm tx) !!! (SynchSize + off_Type)%nat).
  { unfold TXFill. simp_setters.
    rewrite !list_lookup_total_alt, list_lookup_inserts_lt by (sizes; lia).
    reflexivity. }
  rewrite H5 in Hc. fold ctl crc in Hc.
  destruct (take4_frame _ (proj1 Hwf')) as (s0 & s1 & s2 & s3 & H4).
  rewrite H4 in Hc.
  assert (Hctl : is_u8 ctl /\ Type_Control ctl = Z.land (Z.lnot l) 0x0F).
  { destruct (Type_set_Control_spec (Z.lnot l)
                (SendBuff (comm tx) !!! (SynchSize + off_Type)%nat)
                (wf_u8_lookup tx _ Hwf)) as (H1 & H2 & _).
    split; assumption. }
  assert (Hul : is_u8 l) by (unfold is_u8; subst l; lia).
  assert (Hcrc : is_u16 crc).
  { apply crc_fold_u16; [apply CRCInit_u16|].
    apply Forall_cons_2; [exact Hul|].
    apply Forall_cons_2; [apply Hctl | exact Hp]. }
  split; [|tauto].
  subst tx'. unfold packet_bytes, frame_bytes, frame_len. rewrite Hc.
  simp_setters.
  change (([s0; s1; s2; s3] ++ l :: ctl :: payload ++ lo8 crc :: hi8 crc
             :: drop (length payload + 8) (SendBuff (comm (TXFill payload tx))))
            !!! (SynchSize + off_Length)%nat) with l.
  replace (SynchSize + Z.to_nat l + COMM_PACKETSIZE)%nat
    with (S (S (S (S (S (S (length payload + 2))))))) by (subst l; sizes; lia).
  cbn [app take drop SynchSize]. do 2 f_equal.
  rewrite take_app_ge by lia.
  replace (length payload + 2 - length payload)%nat with 2%nat by lia.
  reflexivity.
Qed.

(** ** Round trip *)

Lemma RXGetPacket_ready s :
  Mode_ (comm s) = MX ->
  RXGetPacket s =
  (Some (drop off_Mesg (RecvBuff (comm s))), RecvBuff (comm s) !!! off_Length, s).
Proof.
  intros H. unfold RXGetPacket.
  rewrite decide_False by (rewrite H; intros H'; apply H'; reflexivity).
  reflexivity.
Qed.

Lemma RXGetPacket_empty s :
  Mode_ (comm s) <> MX -> RXGetPacket s = (None, 0, s).
Proof.
  intros H. unfold RXGetPacket. rewrite decide_True by exact H. reflexivity.
Qed.

(** Decoding an encoded payload: the run ends in MX with the packet at
    the head of the receive buffer. *)
Lemma decode_encoded cfg tx rx payload ins :
  wf tx -> wf rx -> Forall is_u8 payload ->
  (1 <= length payload <= 255)%nat ->
  Forall no_rgur ins ->
  fifo <$> ins
    = packet_bytes (TXInit (Z.of_nat (length payload)) (TXFill payload tx)) ->
  exists rx' ctl tail,
    irq_run cfg ins (RXInit rx) = Ok rx' /\
    Mode_ (comm rx') = MX /\
    RecvBuff (comm rx')
      = Z.of_nat (length payload) :: ctl :: payload ++ tail.
Proof.
  intros Htx Hrx Hp Hn Hr Hf.
  destruct (packet_of_payload tx payload Htx Hp ltac:(lia))
    as (Hpkt & Hl & Hctl & Hcrc & Hnib).
  cbv zeta in Hpkt. rewrite Hpkt in Hf.
  set (l := Z.of_nat (length payload)) in *.
  set (ctl := Type_set_Control (Z.lnot l) _) in *.
  set (crc := crc_fold CRCInit (l :: ctl :: payload)) in *.
  assert (Hok : header_ok l ctl).
  { split; [exact Hnib | subst l; lia]. }
  destruct (rx_packet cfg rx l ctl payload (lo8 crc) (hi8 crc) ins
              (proj1 (proj2 Hrx)) Hl Hok ltac:(subst l; lia) Hr Hf) as [st Hrun].
  cbv zeta in Hrun.
  assert (Hres : CRC (rx_taken rx l ctl payload (lo8 crc) (hi8 crc) st) = 0).
  { unfold rx_taken. simp_setters.
    change (l :: ctl :: payload ++ [lo8 crc; hi8 crc])
      with ((l :: ctl :: payload) ++ [lo8 crc; hi8 crc]).
    rewrite crc_fold_app. fold crc. apply crc_residue_zero, Hcrc. }
  rewrite decide_True in Hrun by exact Hres.
  set (c := rx_taken rx l ctl payload (lo8 crc) (hi8 crc) st) in *.
  exists (mkSys (set_Mode MX (set_PacketsRX (to_u32 (PacketsRX c + 1)) c))
                (RF_IRQ_OFF (RF.Mode DEF (rf (RXInit rx))))).
  exists ctl, (lo8 crc :: hi8 crc
                 :: drop (Z.to_nat l + 4) (RecvBuff (comm (RXInit rx)))).
  split; [exact Hrun|]. split; reflexivity.
Qed.

(** ** Header stage *)

Lemma rx_header_run cfg rx i0 i1 :
  length (RecvBuff (comm rx)) = sizeof_packet_t ->
  no_rgur i0 -> no_rgur i1 ->
  irq_run cfg [i0; i1] (RXInit rx) =
  Ok (if decide (header_ok (fifo i0) (fifo i1))
      then mkSys (rx_header_taken rx i0 i1) (rf (RXInit rx))
      else ResetRX cfg (mkSys (rx_header_dropped rx i0 i1) (rf (RXInit rx)))).
Proof.
  intros Hlen Hr0 Hr1.
  pose proof (eq_refl : irq_on (rf (RXInit rx)) = true) as Hirq.
  unfold rx_header_taken, rx_header_dropped.
  change (comm (RXInit rx)) with
    (set_RecvEnd (Some 1%nat) (set_RecvCur (Some 0%nat)
       (set_CRC CRCInit (set_Mode Mr (comm rx))))).
  replace (RXInit rx) with
    (mkSys (set_RecvEnd (Some 1%nat) (set_RecvCur (Some 0%nat)
              (set_CRC CRCInit (set_Mode Mr (comm rx)))))
           (rf (RXInit rx))) by reflexivity.
  cbn [rf]. set (h0 := rf (RXInit rx)) in *. clearbody h0.
  destruct rx as [[sb sc se rb rc re m st ptx prx ce cre crc] h].
  cbn [comm RecvBuff] in Hlen.
  destruct rb as [|r0 [|r1 rb]];
    try (cbn in Hlen; unfold sizeof_packet_t in Hlen; cbn in Hlen; lia).
  clear Hlen. unfold_setters.
  change [i0; i1] with ([i0] ++ [i1]).
  rewrite irq_run_app.
  rewrite (rx_store_run cfg [i0] _ 0 1); proj;
    [ | assumption | discriminate | reflexivity | reflexivity | cbn [length]; lia
      | cbn [length]; lia | apply Forall_cons_2; [assumption | constructor] ].
  unfold crc_fold.
  unfold_setters. cbn [length fmap list_fmap Nat.add list_inserts run_status foldl].
  change (<[0%nat := fifo i0]> (r0 :: r1 :: rb)) with (fifo i0 :: r1 :: rb).
  cbn [irq_run]. proj. rewrite Hirq.
  rewrite (ISR_rx_header cfg i1 _ 1); proj;
    [ | assumption | reflexivity | reflexivity | cbn [length]; lia | reflexivity ].
  unfold rx_stored. unfold_setters.
  change (<[1%nat := fifo i1]> (fifo i0 :: r1 :: rb)) with (fifo i0 :: fifo i1 :: rb).
  change ((fifo i0 :: fifo i1 :: rb) !!! off_Length) with (fifo i0).
  change ((fifo i0 :: fifo i1 :: rb) !!! off_Type) with (fifo i1).
  change (drop 2 (r0 :: r1 :: rb)) with rb.
  case_decide; reflexivity.
Qed.

Lemma ResetRX_Mode cfg s :
  Mode_ (comm (ResetRX cfg s)) = if COMM_RXRETRY cfg then Mr else MI.
Proof. unfold ResetRX. destruct (COMM_RXRETRY cfg); reflexivity. Qed.

Lemma nibbles_u8 x :
  is_u8 x -> x = 16 * Type_Config x + Type_Control x.
Proof.
  intros Hx.
  assert (Hall : all_u8 (fun x =>
            bool_decide (x = 16 * Type_Config x + Type_Control x)) = true)
    by (vm_compute; reflexivity).
  pose proof (all_u8_spec _ Hall x Hx) as H.
  apply bool_decide_eq_true in H. exact H.
Qed.

Lemma wf_TXConfig cfgn s : wf s -> wf (TXConfig cfgn s).
Proof.
  intros Hwf. pose proof Hwf as (Hs & Hr & Hu).
  unfold wf, TXConfig. simp_setters.
  rewrite length_insert. split; [exact Hs|]. split; [exact Hr|].
  apply Forall_insert; [exact Hu|].
  apply Type_set_Config_spec, wf_u8_lookup, Hwf.
Qed.

Lemma TXConfig_Type cfgn s :
  wf s ->
  SendBuff (comm (TXConfig cfgn s)) !!! (SynchSize + off_Type)%nat
  = Type_set_Config cfgn (SendBuff (comm s) !!! (SynchSize + off_Type)%nat).
Proof.
  intros (Hs & _). unfold TXConfig. simp_setters.
  apply list_lookup_total_insert_eq. sizes. lia.
Qed.

Lemma TXInit_Type l s :
  wf s ->
  SendBuff (comm (TXInit l s)) !!! (SynchSize + off_Type)%nat
  = Type_set_Control (Z.lnot (to_len_t l))
      (SendBuff (comm s) !!! (SynchSize + off_Type)%nat).
Proof.
  intros Hwf. rewrite (TXInit_comm l s Hwf). simp_setters.
  destruct (take4_frame _ (proj1 Hwf)) as (s0 & s1 & s2 & s3 & H4).
  rewrite H4. reflexivity.
Qed.

(** The send buffer as [TXInit] leaves it. *)
Lemma TXInit_buffer l s :
  wf s ->
  let raw := SendBuff (comm s) in
  let n := Z.to_nat (to_len_t l) in
  let payload := take n (drop 6 raw) in
  let ctl := Type_set_Control (Z.lnot (to_len_t l))
               (raw !!! (SynchSize + off_Type)%nat) in
  let crc := crc_fold CRCInit (to_len_t l :: ctl :: payload) in
  exists s0 s1 s2 s3,
    take 4 raw = [s0; s1; s2; s3] /\
    SendBuff (comm (TXInit l s)) =
      s0 :: s1 :: s2 :: s3 :: to_len_t l :: ctl :: payload
        ++ lo8 crc :: hi8 crc :: drop (n + 8) raw /\
    length payload = n /\ (n <= 255)%nat /\
    is_u8 ctl /\ Forall is_u8 payload /\ is_u16 crc.
Proof.
  intros Hwf raw n payload ctl crc.
  destruct (take4_frame _ (proj1 Hwf)) as (s0 & s1 & s2 & s3 & H4).
  exists s0, s1, s2, s3. split; [exact H4|].
  pose proof (to_len_t_u8 l) as HL.
  assert (Hn : (n <= 255)%nat) by (unfold is_u8 in HL; subst n; lia).
  assert (Hp : Forall is_u8 payload).
  { subst payload. apply Forall_take, Forall_drop, Hwf. }
  assert (Hctl : is_u8 ctl).
  { apply Type_set_Control_spec, wf_u8_lookup, Hwf. }
  split; [|split; [|split; [exact Hn|split; [exact Hctl|split; [exact Hp|]]]]].
  - pose proof (TXInit_comm l s Hwf) as Hc. cbv zeta in Hc. rewrite Hc.
    simp_setters. rewrite H4. reflexivity.
  - subst payload. rewrite length_take, length_drop.
    destruct Hwf as (Hs & _). fold raw in Hs. rewrite Hs. sizes. lia.
  - apply crc_fold_u16; [apply CRCInit_u16|].
    apply Forall_cons_2; [exact HL|]. apply Forall_cons_2; assumption.
Qed.

(** ** The transmit path of the handler *)

Lemma transmit_at_irq_on i raw h : irq_on (transmit_at i raw h) = irq_on h.
Proof. unfold transmit_at. destruct (raw !! i); reflexivity. Qed.

Lemma transmit_at_CurMode i raw h : CurMode (transmit_at i raw h) = CurMode h.
Proof. unfold transmit_at. destruct (raw !! i); reflexivity. Qed.

Lemma ISR_tx_send cfg i s cur :
  no_rgur i -> Mode_ (comm s) = MT ->
  SendCur (comm s) = Some cur -> SendEnd (comm s) <> Some cur ->
  ISR cfg i s =
  Ok (mkSys (set_SendCur (Some (S cur)) (set_Status (isr_status i) (comm s)))
            (transmit_at cur (SendBuff (comm s)) (rf s))).
Proof.
  intros Hr Hm Hc He. destruct s as [[] h]. cbn in Hm, Hc, He. subst.
  unfold ISR, no_rgur in *. unfold_setters.
  rewrite decide_False by (intros ?; congruence).
  rewrite decide_True by reflexivity.
  rewrite decide_False by congruence.
  reflexivity.
Qed.

Lemma ISR_tx_done cfg i s :
  no_rgur i -> Mode_ (comm s) = MT ->
  SendCur (comm s) = SendEnd (comm s) ->
  ISR cfg i s =
  Ok (mkSys (set_PacketsTX (to_u32 (PacketsTX (comm s) + 1))
               (set_Mode Mt (set_Status (isr_status i) (comm s))))
            (RF_IRQ_OFF (rf s))).
Proof.
  intros Hr Hm Hc. destruct s as [[] h]. cbn in Hm, Hc. subst.
  unfold ISR, no_rgur in *. unfold_setters.
  rewrite decide_False by (intros ?; congruence).
  rewrite decide_True by reflexivity.
  rewrite decide_True by reflexivity.
  reflexivity.
Qed.

Lemma ISR_tx_rgur cfg i s :
  ~ no_rgur i -> Mode_ (comm s) = MT ->
  let c := inc_CtrErr (set_Status (isr_status i) (comm s)) in
  ISR cfg i s =
  Ok (if COMM_TXRETRY cfg then
        mkSys (set_SendCur (Some 1%nat) c)
              (transmit_at 0 (SendBuff (comm s)) (rf s))
      else
        mkSys (set_Mode MI (set_SendEnd None (set_SendCur None c)))
              (RF_IRQ_OFF (RF.Mode DEF (rf s)))).
Proof.
  intros Hr Hm. destruct s as [[] h]. cbn in Hm. subst.
  unfold ISR, no_rgur in *. unfold_setters.
  rewrite decide_True by assumption.
  rewrite decide_True by reflexivity.
  destruct (COMM_TXRETRY cfg); reflexivity.
Qed.

Lemma tx_send_run cfg ins : forall s cur e,
  irq_on (rf s) = true -> Mode_ (comm s) = MT ->
  SendCur (comm s) = Some cur -> SendEnd (comm s) = Some e ->
  (cur + length ins <= e)%nat -> Forall no_rgur ins ->
  irq_run cfg ins s =
  Ok (mkSys (set_SendCur (Some (cur + length ins)%nat)
               (set_Status (run_status ins (Status (comm s))) (comm s)))
            (tx_from (SendBuff (comm s)) cur (length ins) (rf s))).
Proof.
  induction ins as [|i ins IH]; intros s cur e Hirq Hm Hc He Hle Hr.
  - destruct s as [[] h]. cbn in *. subst. rewrite Nat.add_0_r. reflexivity.
  - apply Forall_cons_1 in Hr as [Hr1 Hr2]. cbn [irq_run length] in *.
    rewrite Hirq.
    rewrite (ISR_tx_send cfg i s cur)
      by (try assumption; rewrite He; intros [=]; lia).
    destruct s as [[] h]. cbn in Hirq, Hm, Hc, He. subst.
    rewrite (IH _ (S cur) e); proj;
      [ | rewrite transmit_at_irq_on; assumption | reflexivity | reflexivity
        | reflexivity | lia | assumption ].
    unfold_setters. unfold tx_from. cbn [seq foldl run_status].
    replace (S cur + length ins)%nat with (cur + S (length ins))%nat by lia.
    reflexivity.
Qed.

(** A transmission that has [e - cur] bytes left runs to completion in
    [e - cur + 1] interrupts: MT until the last one, which sets Mt and counts
    the packet. *)
Lemma tx_complete_run cfg ins s cur e :
  irq_on (rf s) = true -> Mode_ (comm s) = MT ->
  SendCur (comm s) = Some cur -> SendEnd (comm s) = Some e ->
  (cur <= e)%nat -> length ins = (e - cur + 1)%nat -> Forall no_rgur ins ->
  (forall k, (k <= e - cur)%nat ->
     exists r, irq_run cfg (take k ins) s = Ok r /\ Mode_ (comm r) = MT
               /\ PacketsTX (comm r) = PacketsTX (comm s))
  /\ exists s2,
       irq_run cfg ins s = Ok s2 /\ Mode_ (comm s2) = Mt
       /\ PacketsTX (comm s2) = to_u32 (PacketsTX (comm s) + 1)
       /\ rf s2 = RF_IRQ_OFF (tx_from (SendBuff (comm s)) cur (e - cur) (rf s)).
Proof.
  intros Hirq Hm Hc He Hle Hlen Hr.
  assert (Hpre : forall k, (k <= e - cur)%nat ->
    irq_run cfg (take k ins) s =
    Ok (mkSys (set_SendCur (Some (cur + k)%nat)
                 (set_Status (run_status (take k ins) (Status (comm s))) (comm s)))
              (tx_from (SendBuff (comm s)) cur k (rf s)))).
  { intros k Hk.
    rewrite (tx_send_run cfg (take k ins) s cur e Hirq Hm Hc He);
      [ | rewrite length_take; lia | apply Forall_take, Hr ].
    rewrite length_take. replace (k `min` length ins)%nat with k by lia.
    reflexivity. }
  split.
  - intros k Hk. eexists. split; [apply Hpre, Hk|]. split; [exact Hm|reflexivity].
  - rewrite <- (take_drop (e - cur) ins), irq_run_app, (Hpre _ (Nat.le_refl _)).
    destruct (drop (e - cur) ins) as [|iT [|? ?]] eqn:Hd;
      try (apply (f_equal length) in Hd; rewrite length_drop in Hd;
           cbn [length] in Hd; lia).
    cbn [irq_run]. proj.
    assert (Hon : irq_on (tx_from (SendBuff (comm s)) cur (e - cur) (rf s)) = true).
    { unfold tx_from. generalize (seq cur (e - cur)). intros js.
      revert Hirq. generalize (rf s). induction js as [|j js IH]; intros h Hh;
        [exact Hh|]. cbn [foldl]. apply IH. rewrite transmit_at_irq_on. exact Hh. }
    rewrite Hon.
    assert (HrT : no_rgur iT).
    { apply (Forall_drop _ (e - cur)) in Hr. rewrite Hd in Hr.
      apply Forall_cons_1 in Hr as [Hr _]. exact Hr. }
    rewrite ISR_tx_done;
      [ | exact HrT | exact Hm | simp_setters; rewrite He; f_equal; lia ].
    eexists. split; [reflexivity|]. split; [reflexivity|].
    split; reflexivity.
Qed.


(** ** What goes out on the air *)

Lemma transmitted_app a b : transmitted (a ++ b) = transmitted a ++ transmitted b.
Proof. apply omap_app. Qed.

Lemma tx_event_TXWR b : is_u8 b -> tx_event (Cmd (RF12.TXWR_CMD b)) = Some (Some b).
Proof.
  intros Hb.
  assert (Hall : all_u8 (fun b =>
            bool_decide (tx_event (Cmd (RF12.TXWR_CMD b)) = Some (Some b))) = true)
    by (vm_compute; reflexivity).
  pose proof (all_u8_spec _ Hall b Hb) as H.
  apply bool_decide_eq_true in H. exact H.
Qed.

Lemma transmitted_transmit_at j raw h :
  Forall is_u8 raw ->
  transmitted (spi (transmit_at j raw h)) = transmitted (spi h) ++ [raw !! j].
Proof.
  intros Hu. unfold transmit_at. destruct (raw !! j) as [b|] eqn:Hj.
  - unfold Transmit, VSendCommand. proj. rewrite transmitted_app. f_equal.
    unfold transmitted. cbn [omap list_omap].
    rewrite tx_event_TXWR by (eapply Forall_lookup_1; eassumption).
    reflexivity.
  - proj. rewrite transmitted_app. reflexivity.
Qed.

Lemma transmitted_tx_from raw n : forall cur h,
  Forall is_u8 raw ->
  transmitted (spi (tx_from raw cur n h))
  = transmitted (spi h) ++ ((raw !!.) <$> seq cur n).
Proof.
  induction n as [|n IH]; intros cur h Hu.
  - unfold tx_from. cbn. rewrite app_nil_r. reflexivity.
  - unfold tx_from in *. cbn [seq foldl fmap list_fmap].
    rewrite IH by exact Hu. rewrite transmitted_transmit_at by exact Hu.
    rewrite <- app_assoc. reflexivity.
Qed.

Lemma lookups_take {A} (l : list A) k :
  (k <= length l)%nat -> (l !!.) <$> seq 0 k = Some <$> take k l.
Proof.
  intros Hk. apply list_eq. intros j.
  rewrite !list_lookup_fmap.
  destruct (decide (j < k)%nat) as [Hlt|Hge].
  - rewrite lookup_seq_lt by exact Hlt. rewrite lookup_take_lt by exact Hlt.
    cbn. destruct (lookup_lt_is_Some_2 l j ltac:(lia)) as [x Hx].
    rewrite Hx. reflexivity.
  - rewrite lookup_seq_ge by lia. rewrite lookup_take_ge by lia. reflexivity.
Qed.

Lemma spi_VSendCommand w h : spi (VSendCommand w h) = spi h ++ [Cmd w].
Proof. reflexivity. Qed.

Lemma transmitted_TXInit l s :
  wf s ->
  transmitted (spi (rf (TXInit l s)))
  = transmitted (spi (rf s)) ++ [SendBuff (comm s) !! 0%nat].
Proof.
  intros Hwf. destruct (take4_frame _ (proj1 Hwf)) as (s0 & s1 & s2 & s3 & H4).
  destruct (SendBuff (comm s)) as [|b0 rest] eqn:Hraw; [discriminate H4|].
  rewrite (TXInit_rf l s b0 rest Hraw).
  assert (Hb0 : is_u8 b0).
  { destruct Hwf as (_ & _ & Hu). rewrite Hraw in Hu.
    apply Forall_cons_1 in Hu as [Hu _]. exact Hu. }
  change (spi (RF_IRQ_ON ?h)) with (spi h).
  unfold Transmit. rewrite !spi_VSendCommand, !transmitted_app.
  change (transmitted [Cmd 0]) with (@nil (option Z)).
  unfold transmitted at 2. cbn [omap list_omap]. rewrite (tx_event_TXWR b0 Hb0).
  rewrite app_nil_r. f_equal.
  case_decide; [|reflexivity].
  change (spi (RF.Mode TX (RF_IRQ_OFF (rf s))))
    with (spi (rf s) ++ [Cmd RF12.PM_TX]).
  rewrite transmitted_app.
  change (transmitted [Cmd RF12.PM_TX]) with (@nil (option Z)).
  apply app_nil_r.
Qed.

Lemma TXInit_irq_on l s : irq_on (rf (TXInit l s)) = true.
Proof. unfold TXInit. destruct (crc_do _ _ _ _). reflexivity. Qed.

Lemma TXInit_CurMode l s : CurMode (rf (TXInit l s)) = TX.
Proof.
  unfold TXInit. destruct (crc_do _ _ _ _). proj.
  change (CurMode (RF_IRQ_ON ?h)) with (CurMode h).
  change (CurMode (VSendCommand ?w ?h)) with (CurMode h).
  rewrite transmit_at_CurMode.
  destruct (decide (CurMode (RF_IRQ_OFF (rf s)) <> TX)) as [H|H];
    [reflexivity|].
  destruct (decide (CurMode (RF_IRQ_OFF (rf s)) = TX)) as [H'|H'];
    [exact H' | contradiction].
Qed.

Lemma wf_TXInit l s : wf s -> wf (TXInit l s).
Proof.
  intros Hwf. pose proof Hwf as (Hs & Hr & Hu).
  destruct (TXInit_buffer l s Hwf)
    as (s0 & s1 & s2 & s3 & H4 & Hbuf & Hp & Hn & Hctl & Hpu & Hcrc).
  cbv zeta in Hbuf, Hp, Hctl, Hpu, Hcrc.
  assert (H4u : Forall is_u8 [s0; s1; s2; s3])
    by (rewrite <- H4; apply Forall_take, Hu).
  split; [|split].
  - rewrite Hbuf. cbn [length]. rewrite length_app. cbn [length].
    rewrite Hp, length_drop, Hs. sizes. lia.
  - pose proof (TXInit_comm l s Hwf) as Hc. cbv zeta in Hc. rewrite Hc.
    exact Hr.
  - rewrite Hbuf.
    change (s0 :: s1 :: s2 :: s3 :: ?x) with ([s0; s1; s2; s3] ++ x).
    apply Forall_app; split; [exact H4u|].
    apply Forall_cons_2; [apply to_len_t_u8|].
    apply Forall_cons_2; [exact Hctl|].
    apply Forall_app; split; [exact Hpu|].
    apply Forall_cons_2; [apply lo8_u8|].
    apply Forall_cons_2; [apply hi8_u8, Hcrc|].
    apply Forall_drop, Hu.
Qed.


(** ** Invariants of the handler *)

Lemma ResetRX_comm_rf cfg s :
  Mode_ (comm (ResetRX cfg s)) <> MX.
Proof. rewrite ResetRX_Mode. destruct (COMM_RXRETRY cfg); discriminate. Qed.

Lemma ISR_quiet cfg i s s' :
  Mode_ (comm s) <> MX -> ISR cfg i s = Ok s' -> quiet_when_ready s'.
Proof.
  intros Hm H. unfold quiet_when_ready. destruct s as [c h].
  unfold ISR in H. proj_in H. proj_in Hm.
  repeat match type of H with
  | context [decide ?P] => destruct (decide P)
  | context [COMM_TXRETRY cfg] => destruct (COMM_TXRETRY cfg)
  | context [match SendCur ?c with _ => _ end] => destruct (SendCur c)
  | context [match RecvCur ?c with _ => _ end] => destruct (RecvCur c)
  end;
  try discriminate H; injection H as <-; intros Hx;
  try (exfalso; revert Hx; apply ResetRX_comm_rf);
  try reflexivity;
  try (revert Hx; simp_setters; congruence).
Qed.

Lemma never_ready_prefix cfg ins : forall s s',
  quiet_when_ready s -> irq_run cfg ins s = Ok s' -> Mode_ (comm s') <> MX ->
  forall k, exists r, irq_run cfg (take k ins) s = Ok r /\ Mode_ (comm r) <> MX.
Proof.
  induction ins as [|i ins IH]; intros s s' Hq Hrun Hm k.
  - rewrite take_nil. cbn in Hrun. injection Hrun as <-.
    exists s. split; [reflexivity | exact Hm].
  - assert (Hs : Mode_ (comm s) <> MX).
    { intros HX. rewrite (irq_run_masked cfg _ s (Hq HX)) in Hrun.
      injection Hrun as <-. contradiction. }
    destruct k as [|k]; [exists s; split; [reflexivity | exact Hs]|].
    cbn [take irq_run] in *. destruct (irq_on (rf s)).
    + destruct (ISR cfg i s) as [s1|f] eqn:HI; [|discriminate Hrun].
      apply (IH s1 s' (ISR_quiet cfg i s s1 Hs HI) Hrun Hm).
    + apply (IH s s' Hq Hrun Hm).
Qed.

Lemma RXInit_quiet rx : quiet_when_ready (RXInit rx).
Proof. intros H. change (Mr = MX) in H. discriminate H. Qed.

Lemma lxor_flip a e : e <> 0 -> Z.lxor a e <> a.
Proof.
  intros He H. apply He.
  assert (H' : Z.lxor (Z.lxor a e) a = 0) by (rewrite H; apply Z.lxor_nilpotent).
  rewrite (Z.lxor_comm a e), Z.lxor_assoc, Z.lxor_nilpotent, Z.lxor_0_r in H'.
  exact H'.
Qed.


Lemma rx_inv_ResetRX cfg c h :
  length (RecvBuff c) = sizeof_packet_t -> rx_inv (ResetRX cfg (mkSys c h)).
Proof.
  intros Hlen. unfold ResetRX, rx_inv. destruct (COMM_RXRETRY cfg); proj.
  - split; [exact Hlen|]. intros _. exists 0%nat, 1%nat.
    split; [reflexivity|]. split; [reflexivity|].
    split; [lia|]. split; [unfold max_RecvEnd; sizes; lia|].
    left. split; [reflexivity|]. split; [reflexivity|]. intros H; discriminate H.
  - split; [exact Hlen|]. intros H. discriminate H.
Qed.

Lemma rx_inv_RXInit rx :
  length (RecvBuff (comm rx)) = sizeof_packet_t -> rx_inv (RXInit rx).
Proof.
  intros Hlen. unfold rx_inv. split; [exact Hlen|]. intros _.
  exists 0%nat, 1%nat.
  split; [reflexivity|]. split; [reflexivity|].
  split; [lia|]. split; [unfold max_RecvEnd; sizes; lia|].
  left. split; [reflexivity|]. split; [reflexivity|]. intros H; discriminate H.
Qed.

Lemma ISR_rx_inv cfg i s :
  rx_inv s -> irq_on (rf s) = true -> irq_u8 i ->
  exists s', ISR cfg i s = Ok s' /\ rx_inv s'.
Proof.
  intros [Hlen Hinv] Hirq (_ & _ & Hfifo).
  destruct (Hinv Hirq) as (cur & e & Hc & He & Hle & Hmax & Hmode).
  assert (Hlt : (cur < length (RecvBuff (comm s)))%nat)
    by (rewrite Hlen; unfold max_RecvEnd in Hmax; sizes; lia).
  assert (HnMT : Mode_ (comm s) <> MT)
    by (destruct Hmode as [(H & _) | H]; rewrite H; discriminate).
  destruct s as [c h]. proj_in Hlen. proj_in Hc. proj_in He. proj_in Hlt.
  proj_in HnMT. proj_in Hmode. proj_in Hirq.
  unfold ISR. proj.
  destruct (decide (RF12.S_RGUR (Status (set_Status _ c)) <> 0)) as [Hg|Hg].
  { rewrite decide_False by exact HnMT.
    eexists. split; [reflexivity|]. apply rx_inv_ResetRX. exact Hlen. }
  rewrite decide_False by exact HnMT.
  simp_setters. rewrite Hc. rewrite decide_True by exact Hlt.
  rewrite He.
  assert (Hlen' : length (<[cur := fifo i]> (RecvBuff c)) = sizeof_packet_t)
    by (rewrite length_insert; exact Hlen).
  destruct (decide (Some cur = Some e)) as [Heq|Hne].
  - injection Heq as <-.
    destruct Hmode as [(Hm & He1 & Hlen0) | Hm]; rewrite Hm.
    + rewrite decide_True by reflexivity.
      specialize (Hlen0 eq_refl).
      assert (Hl0 : <[cur := fifo i]> (RecvBuff c) !!! off_Length
                    = RecvBuff c !!! off_Length).
      { apply list_lookup_total_insert_ne. subst cur. discriminate. }
      rewrite Hl0.
      repeat case_decide;
        try (eexists; split; [reflexivity|]; apply rx_inv_ResetRX; exact Hlen').
      eexists. split; [reflexivity|]. split; [exact Hlen'|]. intros _.
      eexists _, _. split; [reflexivity|]. split; [reflexivity|].
      unfold is_u8 in Hlen0. unfold max_RecvEnd. subst cur. sizes.
      split; [lia|]. split; [lia|]. right. reflexivity.
    + rewrite decide_False by discriminate.
      case_decide.
      * eexists. split; [reflexivity|]. split; [exact Hlen'|].
        intros H'. discriminate H'.
      * eexists. split; [reflexivity|]. apply rx_inv_ResetRX. exact Hlen'.
  - eexists. split; [reflexivity|]. split; [exact Hlen'|]. intros _.
    exists (S cur), e. split; [reflexivity|]. split; [exact He|].
    assert (cur <> e) by congruence.
    split; [lia|]. split; [exact Hmax|].
    destruct Hmode as [(Hm & He1 & _) | Hm]; [left | right; exact Hm].
    split; [exact Hm|]. split; [exact He1|]. intros _. simp_setters.
    assert (cur = 0%nat) by (sizes; lia). subst cur. unfold off_Length.
    rewrite list_lookup_total_insert_eq by lia. exact Hfifo.
Qed.

Lemma rx_inv_run cfg ins : forall s,
  rx_inv s -> Forall irq_u8 ins ->
  forall k, exists r, irq_run cfg (take k ins) s = Ok r /\ rx_inv r.
Proof.
  induction ins as [|i ins IH]; intros s Hs Hu k.
  - rewrite take_nil. exists s. split; [reflexivity | exact Hs].
  - destruct k as [|k]; [exists s; split; [reflexivity | exact Hs]|].
    apply Forall_cons_1 in Hu as [Hi Hu].
    cbn [take irq_run]. destruct (irq_on (rf s)) eqn:Hirq.
    + destruct (ISR_rx_inv cfg i s Hs Hirq Hi) as (s1 & HI & Hs1).
      rewrite HI. apply IH; assumption.
    + apply IH; assumption.
Qed.


(** A request for 256 bytes does not survive the conversion to [len_t]: the
    frame carries length 0 and the receiver drops it at the header. *)
Lemma TXInit_256_rejected payload :
  payload = replicate 256 0x55 \/ payload = Z.of_nat <$> seq 0 256 ->
  ~ roundtrips default_config booted booted payload.
Proof.
  intros Hp Hrt. unfold roundtrips in Hrt.
  set (tx' := TXInit (Z.of_nat (length payload)) (TXFill payload booted)) in *.
  specialize (Hrt (rx_irq <$> packet_bytes tx')).
  destruct Hrt as (rx' & mesg & Hrun & Hm & _).
  - destruct Hp as [-> | ->]; by_compute.
  - rewrite <- list_fmap_compose.
    destruct Hp as [-> | ->]; vm_compute; reflexivity.
  - assert (Hmode : match irq_run default_config (rx_irq <$> packet_bytes tx')
                            (RXInit booted) with
                    | Ok r => Mode_ (comm r)
                    | Fault _ => MI
                    end = Mr)
      by (destruct Hp as [-> | ->]; vm_compute; reflexivity).
    rewrite Hrun in Hmode. congruence.
Qed.

(** ** C1: round trip *)

(** C1 as stated (every length in 1..=MaxMesgSize round-trips) is false:
    a 256-byte payload is lost. *)
Lemma roundtrip_fails_at_MaxMesgSize :
  ~ (forall payload, Forall is_u8 payload ->
       (1 <= length payload <= MaxMesgSize)%nat ->
       roundtrips default_config booted booted payload).
Proof.
  intros H. apply (TXInit_256_rejected (replicate 256 0x55)); [left; reflexivity|].
  apply H; [by_compute | vm_compute; lia].
Qed.

(** C1 (amended): for every length in 1..=255, the range of [len_t], and
    every payload of that length, the frame built by TXFill and TXInit, fed
    byte by byte through the receive path of the handler after RXInit,
    ends in MX (frame ready) and RXGetPacket returns the same length and a
    buffer that starts with the same payload bytes. *)
Theorem roundtrip_len_t cfg tx rx payload :
  wf tx -> wf rx -> Forall is_u8 payload ->
  (1 <= length payload <= 255)%nat ->
  roundtrips cfg tx rx payload.
Proof.
  intros Htx Hrx Hp Hn ins Hr Hf.
  destruct (decode_encoded cfg tx rx payload ins Htx Hrx Hp Hn Hr Hf)
    as (rx' & ctl & tail & Hrun & Hmode & Hbuf).
  exists rx', (payload ++ tail).
  split; [exact Hrun|]. split; [exact Hmode|]. split.
  - rewrite (RXGetPacket_ready rx' Hmode), Hbuf. reflexivity.
  - apply take_app_length.
Qed.

(** The round trip of "Hello" between two freshly initialised stations. *)
Lemma roundtrip_len_t_witness :
  let tx' := TXInit 5 (TXFill hello booted) in
  exists rx' mesg,
    irq_run default_config (rx_irq <$> packet_bytes tx') (RXInit booted) = Ok rx'
    /\ Mode_ (comm rx') = MX
    /\ RXGetPacket rx' = (Some mesg, 5, rx')
    /\ take 5 mesg = hello.
Proof.
  apply (roundtrip_len_t default_config booted booted hello);
    [ by_compute | by_compute | by_compute | cbn; lia | by_compute
    | rewrite <- list_fmap_compose; vm_compute; reflexivity ].
Defined.

(** ** C2: the CRC *)

(** C2 as stated (the checksum covers the control byte and the payload
    only) is false: for "Hello" with config nibble 3 the trailer TXInit
    stores is not the checksum of control byte and payload. *)
Lemma crc_covers_length_byte :
  let s := TXInit 5 (TXConfig 3 (TXFill hello booted)) in
  let raw := SendBuff (comm s) in
  (raw !!! 11%nat, raw !!! 12%nat)
  <> (lo8 (spec_crc (raw !!! 5%nat) hello), hi8 (spec_crc (raw !!! 5%nat) hello)).
Proof. intros s raw H. vm_compute in H. discriminate H. Qed.

(** C2 (amended): the accumulator is the CRC-16/CCITT register (reflected
    polynomial 0x8408) started at 0xFFFF and updated one byte at a time over
    the length byte, the control byte and the payload; TXInit appends it low
    byte first; on reception the frame is declared ready (MX) iff the
    accumulator, run over length byte, control byte, payload and the two
    trailer bytes, is 0x0000. *)
Theorem crc_trailer_and_residue cfg s l rx len ctl body t1 t2 ins :
  wf s -> length (RecvBuff (comm rx)) = sizeof_packet_t ->
  is_u8 len -> header_ok len ctl -> length body = Z.to_nat len ->
  Forall no_rgur ins -> fifo <$> ins = len :: ctl :: body ++ [t1; t2] ->
  CRCInit = 0xFFFF
  /\ (forall crc data, is_u16 crc -> is_u8 data ->
        _crc_ccitt_update crc data = crc_ccitt_serial crc data)
  /\ (let raw' := SendBuff (comm (TXInit l s)) in
      let n := Z.to_nat (to_len_t l) in
      let covered := take (COMM_HEADSIZE + n) (drop SynchSize raw') in
      let crc := crc_fold CRCInit covered in
      covered = to_len_t l :: raw' !!! (SynchSize + off_Type)%nat
                  :: take n (drop TXGetBuff raw')
      /\ raw' !! (SynchSize + COMM_HEADSIZE + n)%nat = Some (lo8 crc)
      /\ raw' !! (SynchSize + COMM_HEADSIZE + n + 1)%nat = Some (hi8 crc)
      /\ CRC (comm (TXInit l s)) = crc)
  /\ exists rx',
       irq_run cfg ins (RXInit rx) = Ok rx'
       /\ (Mode_ (comm rx') = MX <->
           crc_fold CRCInit (len :: ctl :: body ++ [t1; t2]) = 0).
Proof.
  intros Hwf Hrx Hlen Hok Hb Hr Hf.
  split; [reflexivity|]. split; [exact crc_update_is_ccitt|]. split.
  - cbv zeta.
    destruct (TXInit_buffer l s Hwf)
      as (s0 & s1 & s2 & s3 & H4 & Hbuf & Hp & Hn & _).
    cbv zeta in Hbuf, Hp.
    set (n := Z.to_nat (to_len_t l)) in *.
    set (payload := take n (drop 6 (SendBuff (comm s)))) in *.
    set (c := Type_set_Control _ _) in *.
    set (crc := crc_fold CRCInit (to_len_t l :: c :: payload)) in *.
    assert (Hcov : take (COMM_HEADSIZE + n)
                     (drop SynchSize (SendBuff (comm (TXInit l s))))
                   = to_len_t l :: c :: payload).
    { rewrite Hbuf. unfold COMM_HEADSIZE, SynchSize. cbn [drop Nat.add take].
      f_equal. f_equal. rewrite <- Hp at 1. apply take_app_length. }
    rewrite Hcov. fold crc.
    split; [|split; [|split]].
    + rewrite Hbuf. unfold SynchSize, off_Type, TXGetBuff, off_Mesg.
      cbn [Nat.add drop]. f_equal. f_equal. rewrite <- Hp at 1.
      symmetry. apply take_app_length.
    + rewrite Hbuf. unfold SynchSize, COMM_HEADSIZE. cbn [Nat.add].
      rewrite <- Hp. change (S (S (S (S (S (S (length payload)))))))
        with (length (s0 :: s1 :: s2 :: s3 :: to_len_t l :: c :: payload)).
      change (s0 :: s1 :: s2 :: s3 :: to_len_t l :: c :: payload ++ ?x)
        with ((s0 :: s1 :: s2 :: s3 :: to_len_t l :: c :: payload) ++ x).
      apply list_lookup_middle. reflexivity.
    + rewrite Hbuf. unfold SynchSize, COMM_HEADSIZE. cbn [Nat.add].
      rewrite <- Hp.
      replace (S (S (S (S (S (S (length payload + 1)))))))
        with (length (s0 :: s1 :: s2 :: s3 :: to_len_t l :: c :: payload
                        ++ [lo8 crc]))
        by (cbn [length]; rewrite length_app; cbn [length]; lia).
      replace (s0 :: s1 :: s2 :: s3 :: to_len_t l :: c :: payload
                 ++ lo8 crc :: hi8 crc :: drop (length payload + 8) (SendBuff (comm s)))
        with ((s0 :: s1 :: s2 :: s3 :: to_len_t l :: c :: payload ++ [lo8 crc])
                ++ hi8 crc :: drop (length payload + 8) (SendBuff (comm s)))
        by (cbn [app]; rewrite <- app_assoc; reflexivity).
      apply list_lookup_middle. reflexivity.
    + pose proof (TXInit_comm l s Hwf) as Hc. cbv zeta in Hc. rewrite Hc.
      reflexivity.
  - destruct (rx_packet cfg rx len ctl body t1 t2 ins Hrx Hlen Hok Hb Hr Hf)
      as [st Hrun].
    cbv zeta in Hrun.
    change (CRC (rx_taken rx len ctl body t1 t2 st))
      with (crc_fold CRCInit (len :: ctl :: body ++ [t1; t2])) in Hrun.
    destruct (decide (crc_fold CRCInit (len :: ctl :: body ++ [t1; t2]) = 0))
      as [Hz|Hz]; eexists; (split; [exact Hrun|]).
    + split; [intros _; exact Hz | reflexivity].
    + rewrite ResetRX_Mode. split; [|intros; contradiction].
      destruct (COMM_RXRETRY cfg); discriminate.
Qed.

Lemma crc_trailer_and_residue_witness :
  CRCInit = 0xFFFF
  /\ (forall crc data, is_u16 crc -> is_u8 data ->
        _crc_ccitt_update crc data = crc_ccitt_serial crc data)
  /\ (let raw' := SendBuff (comm (TXInit 5 (TXFill hello booted))) in
      let n := Z.to_nat (to_len_t 5) in
      let covered := take (COMM_HEADSIZE + n) (drop SynchSize raw') in
      let crc := crc_fold CRCInit covered in
      covered = to_len_t 5 :: raw' !!! (SynchSize + off_Type)%nat
                  :: take n (drop TXGetBuff raw')
      /\ raw' !! (SynchSize + COMM_HEADSIZE + n)%nat = Some (lo8 crc)
      /\ raw' !! (SynchSize + COMM_HEADSIZE + n + 1)%nat = Some (hi8 crc)
      /\ CRC (comm (TXInit 5 (TXFill hello booted))) = crc)
  /\ exists rx',
       irq_run default_config
         (rx_irq <$> [5; 0x0A] ++ hello ++ [0xA4; 0xD0]) (RXInit booted) = Ok rx'
       /\ (Mode_ (comm rx') = MX <->
           crc_fold CRCInit (5 :: 0x0A :: hello ++ [0xA4; 0xD0]) = 0).
Proof.
  apply (crc_trailer_and_residue default_config (TXFill hello booted) 5 booted
           5 0x0A hello 0xA4 0xD0);
    [by_compute | reflexivity | by_compute | by_compute | reflexivity
    | by_compute | reflexivity].
Defined.

(** ** C3: header redundancy *)

(** C3: TXInit writes the complemented low nibble of the length into the
    low nibble of the control byte and keeps the high (config) nibble, which
    is the one TXConfig stored; a length of 5 with config nibble 3 gives the
    control byte 0x3A.  After the two header bytes the receiver goes on to
    the body (MR) iff control & 0x0F = (~length) & 0x0F and length <> 0; a
    zero length never reaches MR. *)
Theorem header_redundancy cfg s l cfgn rx i0 i1 :
  wf s -> length (RecvBuff (comm rx)) = sizeof_packet_t ->
  no_rgur i0 -> no_rgur i1 ->
  let t := (SynchSize + off_Type)%nat in
  Type_Control (SendBuff (comm (TXInit l s)) !!! t)
    = Z.land (Z.lnot (to_len_t l)) 0x0F
  /\ Type_Config (SendBuff (comm (TXInit l s)) !!! t)
     = Type_Config (SendBuff (comm s) !!! t)
  /\ Type_Config (SendBuff (comm (TXInit l (TXConfig cfgn s))) !!! t)
     = Z.land cfgn 0x0F
  /\ SendBuff (comm (TXInit 5 (TXConfig 3 s))) !!! t = 0x3A
  /\ exists rx',
       irq_run cfg [i0; i1] (RXInit rx) = Ok rx'
       /\ (Mode_ (comm rx') = MR <->
           Z.land (fifo i1) 0x0F = Z.land (Z.lnot (fifo i0)) 0x0F
           /\ fifo i0 <> 0)
       /\ (fifo i0 = 0 ->
           Mode_ (comm rx') = if COMM_RXRETRY cfg then Mr else MI).
Proof.
  intros Hwf Hrx Hr0 Hr1 t. subst t.
  pose proof (wf_u8_lookup s (SynchSize + off_Type)%nat Hwf) as Hu.
  assert (Hgen : forall l' cfgn',
    let x := SendBuff (comm (TXInit l' (TXConfig cfgn' s)))
               !!! (SynchSize + off_Type)%nat in
    is_u8 x /\ Type_Control x = Z.land (Z.lnot (to_len_t l')) 0x0F
    /\ Type_Config x = Z.land cfgn' 0x0F).
  { intros l' cfgn' x. subst x.
    rewrite (TXInit_Type _ _ (wf_TXConfig cfgn' s Hwf)), TXConfig_Type by exact Hwf.
    destruct (Type_set_Config_spec cfgn' _ Hu) as (H1 & H2 & H3).
    destruct (Type_set_Control_spec (Z.lnot (to_len_t l')) _ H1) as (H4 & H5 & H6).
    split; [exact H4|]. split; [exact H5|]. rewrite H6. exact H2. }
  rewrite (TXInit_Type l s Hwf).
  destruct (Type_set_Control_spec (Z.lnot (to_len_t l)) _ Hu) as (_ & H1 & H2).
  split; [exact H1|]. split; [exact H2|].
  split; [apply Hgen|].
  split.
  { destruct (Hgen 5 3) as (H3 & H4 & H5). cbv zeta in H3, H4, H5.
    rewrite (nibbles_u8 _ H3), H4, H5. reflexivity. }
  rewrite (rx_header_run cfg rx i0 i1 Hrx Hr0 Hr1).
  eexists. split; [reflexivity|].
  fold (Type_Control (fifo i1)).
  change (Type_Control (fifo i1) = Z.land (Z.lnot (fifo i0)) 15 /\ fifo i0 <> 0)
    with (header_ok (fifo i0) (fifo i1)).
  case_decide as Hok.
  - split; [split; [intros _; exact Hok | reflexivity]|].
    intros H0. destruct Hok as [_ Hne]. contradiction.
  - rewrite ResetRX_Mode. split.
    + split; [|intros; contradiction].
      destruct (COMM_RXRETRY cfg); discriminate.
    + intros _. reflexivity.
Qed.

Lemma header_redundancy_witness :
  let t := (SynchSize + off_Type)%nat in
  Type_Control (SendBuff (comm (TXInit 5 booted)) !!! t)
    = Z.land (Z.lnot (to_len_t 5)) 0x0F
  /\ Type_Config (SendBuff (comm (TXInit 5 booted)) !!! t)
     = Type_Config (SendBuff (comm booted) !!! t)
  /\ Type_Config (SendBuff (comm (TXInit 5 (TXConfig 3 booted))) !!! t)
     = Z.land 3 0x0F
  /\ SendBuff (comm (TXInit 5 (TXConfig 3 booted))) !!! t = 0x3A
  /\ exists rx',
       irq_run default_config [rx_irq 5; rx_irq 0x3A] (RXInit booted) = Ok rx'
       /\ (Mode_ (comm rx') = MR <->
           Z.land (fifo (rx_irq 0x3A)) 0x0F = Z.land (Z.lnot (fifo (rx_irq 5))) 0x0F
           /\ fifo (rx_irq 5) <> 0)
       /\ (fifo (rx_irq 5) = 0 ->
           Mode_ (comm rx') = if COMM_RXRETRY default_config then Mr else MI).
Proof.
  apply (header_redundancy default_config booted 5 3 booted (rx_irq 5) (rx_irq 0x3A));
    [by_compute | reflexivity | by_compute | by_compute].
Defined.

(** ** C4: the largest length *)

(** C4 as stated (a 256-byte transfer round-trips) is false. *)
Lemma length_256_not_carried :
  ~ roundtrips default_config booted booted (Z.of_nat <$> seq 0 256).
Proof. apply TXInit_256_rejected. right. reflexivity. Qed.

(** C4 (amended): a transfer of 255 bytes, the largest length the one-byte
    length field carries, is accepted and round-trips. *)
Theorem roundtrip_255 cfg tx rx payload :
  wf tx -> wf rx -> Forall is_u8 payload -> length payload = 255%nat ->
  roundtrips cfg tx rx payload.
Proof.
  intros Htx Hrx Hp Hn ins Hr Hf.
  assert (Hn' : (1 <= length payload <= 255)%nat) by lia.
  destruct (decode_encoded cfg tx rx payload ins Htx Hrx Hp Hn' Hr Hf)
    as (rx' & ctl & tail & Hrun & Hmode & Hbuf).
  exists rx', (drop off_Mesg (RecvBuff (comm rx'))).
  split; [exact Hrun|]. split; [exact Hmode|]. split.
  - rewrite (RXGetPacket_ready rx' Hmode), Hbuf. reflexivity.
  - rewrite Hbuf. apply take_app_length.
Qed.

(** The round trip of 255 bytes between two freshly initialised stations. *)
Lemma roundtrip_255_witness :
  let payload := replicate 255 0x55 in
  let tx' := TXInit 255 (TXFill payload booted) in
  exists rx' mesg,
    irq_run default_config (rx_irq <$> packet_bytes tx') (RXInit booted) = Ok rx'
    /\ Mode_ (comm rx') = MX
    /\ RXGetPacket rx' = (Some mesg, 255, rx')
    /\ take 255 mesg = payload.
Proof.
  apply (roundtrip_255 default_config booted booted (replicate 255 0x55));
    [ by_compute | by_compute | by_compute | reflexivity | by_compute
    | rewrite <- list_fmap_compose; vm_compute; reflexivity ].
Defined.

(** ** C5: transmit underrun *)

(** C5: an interrupt that reports RGUR while the state is MT.  With TX
    retry the handler rewinds the send cursor to offset 1 and hands byte 0 of
    the frame to the transmitter again: the one command it sends is the
    transmitter write of that byte, and the interrupt mask and the driver
    mode stay as they are; the state stays MT, and over the [e] interrupts
    that follow ([e] the end cursor) the TX counter keeps its value until
    the last one, which sets Mt and counts the packet once.  Without TX
    retry the state becomes MI, both cursors become NULL, the TX counter
    keeps its value, the one command sent is the default power mode and the
    interrupt is masked. *)
Theorem tx_underrun cfg i s e ins :
  ~ no_rgur i -> Mode_ (comm s) = MT -> irq_on (rf s) = true ->
  length (SendBuff (comm s)) = sizeof_frame_t ->
  SendEnd (comm s) = Some e -> (1 <= e)%nat ->
  Forall no_rgur ins -> length ins = e ->
  exists s1,
    ISR cfg i s = Ok s1
    /\ PacketsTX (comm s1) = PacketsTX (comm s)
    /\ (COMM_TXRETRY cfg = true ->
          Mode_ (comm s1) = MT
          /\ SendCur (comm s1) = Some 1%nat
          /\ SendEnd (comm s1) = SendEnd (comm s)
          /\ rf s1 = transmit_at 0 (SendBuff (comm s)) (rf s)
          /\ spi (rf s1)
             = spi (rf s) ++ [Cmd (RF12.TXWR_CMD (SendBuff (comm s) !!! 0%nat))]
          /\ irq_on (rf s1) = true
          /\ CurMode (rf s1) = CurMode (rf s)
          /\ (forall k, (k < e)%nat ->
                exists r, irq_run cfg (take k ins) s1 = Ok r
                          /\ Mode_ (comm r) = MT
                          /\ PacketsTX (comm r) = PacketsTX (comm s))
          /\ exists s2,
               irq_run cfg ins s1 = Ok s2
               /\ Mode_ (comm s2) = Mt
               /\ PacketsTX (comm s2) = to_u32 (PacketsTX (comm s) + 1))
    /\ (COMM_TXRETRY cfg = false ->
          Mode_ (comm s1) = MI
          /\ SendCur (comm s1) = None
          /\ SendEnd (comm s1) = None
          /\ spi (rf s1) = spi (rf s) ++ [Cmd RF12.PM_DEF]
          /\ irq_on (rf s1) = false
          /\ CurMode (rf s1) = DEF).
Proof.
  intros Hr Hm Hirq Hsb He He1 Hins Hlen.
  pose proof (ISR_tx_rgur cfg i s Hr Hm) as HI. cbv zeta in HI.
  rewrite HI. eexists. split; [reflexivity|].
  destruct (COMM_TXRETRY cfg) eqn:Hcfg.
  - split; [reflexivity|]. split; [|intros; discriminate].
    intros _. split; [exact Hm|]. split; [reflexivity|].
    split; [reflexivity|]. split; [reflexivity|].
    assert (Hb0 : SendBuff (comm s) !! 0%nat
                  = Some (SendBuff (comm s) !!! 0%nat)).
    { apply list_lookup_lookup_total_lt. rewrite Hsb. sizes. lia. }
    split.
    { simp_setters. unfold transmit_at. rewrite Hb0. reflexivity. }
    split; [simp_setters; rewrite transmit_at_irq_on; exact Hirq|].
    split; [simp_setters; apply transmit_at_CurMode|].
    set (s1 := mkSys _ _).
    destruct (tx_complete_run cfg ins s1 1 e) as [Hpre (s2 & Hrun & Hm2 & Hp2 & _)];
      [ subst s1; proj; rewrite transmit_at_irq_on; exact Hirq
      | exact Hm | reflexivity | exact He | lia | lia | exact Hins | ].
    split.
    + intros k Hk. destruct (Hpre k ltac:(lia)) as (r & H1 & H2 & H3).
      exists r. split; [exact H1|]. split; [exact H2|]. exact H3.
    + exists s2. split; [exact Hrun|]. split; [exact Hm2|]. exact Hp2.
  - split; [reflexivity|]. split; [intros; discriminate|].
    intros _. repeat (split; [reflexivity|]). reflexivity.
Qed.

Lemma tx_underrun_witness :
  exists s1,
    ISR default_config rgur_irq hello_under_way = Ok s1
    /\ PacketsTX (comm s1) = PacketsTX (comm hello_under_way)
    /\ (COMM_TXRETRY default_config = true ->
          Mode_ (comm s1) = MT
          /\ SendCur (comm s1) = Some 1%nat
          /\ SendEnd (comm s1) = SendEnd (comm hello_under_way)
          /\ rf s1 = transmit_at 0 (SendBuff (comm hello_under_way))
                       (rf hello_under_way)
          /\ spi (rf s1) = spi (rf hello_under_way) ++ [Cmd 0xB8AA]
          /\ irq_on (rf s1) = true
          /\ CurMode (rf s1) = CurMode (rf hello_under_way)
          /\ (forall k, (k < 15)%nat ->
                exists r, irq_run default_config (take k (replicate 15 tx_irq)) s1
                          = Ok r
                          /\ Mode_ (comm r) = MT
                          /\ PacketsTX (comm r) = PacketsTX (comm hello_under_way))
          /\ exists s2,
               irq_run default_config (replicate 15 tx_irq) s1 = Ok s2
               /\ Mode_ (comm s2) = Mt
               /\ PacketsTX (comm s2)
                  = to_u32 (PacketsTX (comm hello_under_way) + 1))
    /\ (COMM_TXRETRY default_config = false ->
          Mode_ (comm s1) = MI
          /\ SendCur (comm s1) = None
          /\ SendEnd (comm s1) = None
          /\ spi (rf s1) = spi (rf hello_under_way) ++ [Cmd RF12.PM_DEF]
          /\ irq_on (rf s1) = false
          /\ CurMode (rf s1) = DEF).
Proof.
  change (Cmd 0xB8AA)
    with (Cmd (RF12.TXWR_CMD (SendBuff (comm hello_under_way) !!! 0%nat))).
  apply (tx_underrun default_config rgur_irq hello_under_way 15
           (replicate 15 tx_irq));
    [ vm_compute; intros H; discriminate H | vm_compute; reflexivity
    | vm_compute; reflexivity | vm_compute; reflexivity
    | vm_compute; reflexivity | lia | by_compute | reflexivity ].
Defined.

(** ** C6: a corrupted CRC trailer *)

(** C6: a well-formed frame whose low CRC trailer byte has some of its bits
    flipped.  No prefix of the reception reaches MX; at the end the
    CRC-error counter has gone up by one and the frame counter has not
    moved; with RX retry the receiver is back in Mr with the accumulator at
    CRCInit and the cursors on the header window, exactly as RXInit leaves
    them, the only commands sent being the two of the FIFO reset, and the
    transceiver mode untouched. *)
Theorem crc_low_flipped cfg tx rx payload e ins :
  wf tx -> wf rx -> Forall is_u8 payload ->
  (1 <= length payload <= 255)%nat ->
  is_u8 e -> e <> 0 -> Forall no_rgur ins ->
  let n := length payload in
  let pkt := packet_bytes (TXInit (Z.of_nat n) (TXFill payload tx)) in
  let at_crc_low := (COMM_HEADSIZE + n)%nat in
  fifo <$> ins = <[at_crc_low := Z.lxor (pkt !!! at_crc_low) e]> pkt ->
  (forall k, exists r,
      irq_run cfg (take k ins) (RXInit rx) = Ok r /\ Mode_ (comm r) <> MX)
  /\ exists rx',
       irq_run cfg ins (RXInit rx) = Ok rx'
       /\ CRCErr (comm rx') = to_u16 (CRCErr (comm rx) + 1)
       /\ PacketsRX (comm rx') = PacketsRX (comm rx)
       /\ (COMM_RXRETRY cfg = true ->
             Mode_ (comm rx') = Mr
             /\ CRC (comm rx') = CRCInit
             /\ RecvCur (comm rx') = Some 0%nat
             /\ RecvEnd (comm rx') = Some (COMM_HEADSIZE - 1)%nat
             /\ Mode_ (comm rx') = Mode_ (comm (RXInit rx))
             /\ CRC (comm rx') = CRC (comm (RXInit rx))
             /\ RecvCur (comm rx') = RecvCur (comm (RXInit rx))
             /\ RecvEnd (comm rx') = RecvEnd (comm (RXInit rx))
             /\ spi (rf rx')
                = spi (rf (RXInit rx)) ++ [Cmd RF12.FIFO_OFF; Cmd RF12.FIFO_ON]
             /\ CurMode (rf rx') = CurMode (rf (RXInit rx))
             /\ irq_on (rf rx') = true).
Proof.
  intros Htx Hrx Hp Hn He He0 Hr n pkt at_crc_low Hf.
  destruct (packet_of_payload tx payload Htx Hp ltac:(lia))
    as (Hpkt & Hl & Hctl & Hcrc & Hnib).
  cbv zeta in Hpkt. subst at_crc_low pkt n. rewrite Hpkt in Hf. clear Hpkt.
  set (l := Z.of_nat (length payload)) in *.
  set (ctl := Type_set_Control (Z.lnot l) _) in *.
  set (crc := crc_fold CRCInit (l :: ctl :: payload)) in *.
  assert (Hlow : (l :: ctl :: payload ++ [lo8 crc; hi8 crc])
                   !!! (COMM_HEADSIZE + length payload)%nat
                 = lo8 crc).
  { unfold COMM_HEADSIZE. cbn [Nat.add].
    change ((l :: ctl :: ?x) !!! S (S ?k)) with (x !!! k).
    apply list_lookup_total_correct, list_lookup_middle. reflexivity. }
  rewrite Hlow in Hf.
  assert (Hins : <[(COMM_HEADSIZE + length payload)%nat := Z.lxor (lo8 crc) e]>
                   (l :: ctl :: payload ++ [lo8 crc; hi8 crc])
                 = l :: ctl :: payload ++ [Z.lxor (lo8 crc) e; hi8 crc]).
  { unfold COMM_HEADSIZE. cbn [Nat.add].
    change (<[S (S ?k) := ?v]> (l :: ctl :: ?x)) with (l :: ctl :: <[k := v]> x).
    rewrite insert_after. reflexivity. }
  rewrite Hins in Hf. clear Hlow Hins.
  assert (Hok : header_ok l ctl).
  { split; [exact Hnib | subst l; lia]. }
  destruct (rx_packet cfg rx l ctl payload (Z.lxor (lo8 crc) e) (hi8 crc) ins
              (proj1 (proj2 Hrx)) Hl Hok ltac:(subst l; lia) Hr Hf) as [st Hrun].
  cbv zeta in Hrun.
  assert (Hres : CRC (rx_taken rx l ctl payload (Z.lxor (lo8 crc) e) (hi8 crc) st)
                 <> 0).
  { unfold rx_taken. simp_setters.
    change (l :: ctl :: payload ++ [Z.lxor (lo8 crc) e; hi8 crc])
      with ((l :: ctl :: payload) ++ [Z.lxor (lo8 crc) e; hi8 crc]).
    rewrite crc_fold_app. fold crc.
    apply crc_residue_flipped;
      [exact Hcrc | apply lxor_u8; [apply lo8_u8 | exact He]
      | apply lxor_flip, He0]. }
  rewrite decide_False in Hrun by exact Hres.
  split.
  - apply (never_ready_prefix cfg ins _ _ (RXInit_quiet rx) Hrun).
    apply ResetRX_comm_rf.
  - eexists. split; [exact Hrun|].
    unfold ResetRX. proj.
    destruct (COMM_RXRETRY cfg).
    + split; [reflexivity|]. split; [reflexivity|]. intros _.
      repeat split.
      proj. unfold FIFOReset. rewrite !spi_VSendCommand, <- app_assoc.
      reflexivity.
    + split; [reflexivity|]. split; [reflexivity|]. intros; discriminate.
Qed.

Lemma crc_low_flipped_witness :
  let n := length hello in
  let pkt := packet_bytes (TXInit (Z.of_nat n) (TXFill hello booted)) in
  let at_crc_low := (COMM_HEADSIZE + n)%nat in
  let ins := rx_irq <$> <[at_crc_low := Z.lxor (pkt !!! at_crc_low) 0xFF]> pkt in
  (forall k, exists r,
      irq_run default_config (take k ins) (RXInit booted) = Ok r
      /\ Mode_ (comm r) <> MX)
  /\ exists rx',
       irq_run default_config ins (RXInit booted) = Ok rx'
       /\ CRCErr (comm rx') = to_u16 (CRCErr (comm booted) + 1)
       /\ PacketsRX (comm rx') = PacketsRX (comm booted)
       /\ (COMM_RXRETRY default_config = true ->
             Mode_ (comm rx') = Mr
             /\ CRC (comm rx') = CRCInit
             /\ RecvCur (comm rx') = Some 0%nat
             /\ RecvEnd (comm rx') = Some (COMM_HEADSIZE - 1)%nat
             /\ Mode_ (comm rx') = Mode_ (comm (RXInit booted))
             /\ CRC (comm rx') = CRC (comm (RXInit booted))
             /\ RecvCur (comm rx') = RecvCur (comm (RXInit booted))
             /\ RecvEnd (comm rx') = RecvEnd (comm (RXInit booted))
             /\ spi (rf rx')
                = spi (rf (RXInit booted))
                    ++ [Cmd RF12.FIFO_OFF; Cmd RF12.FIFO_ON]
             /\ CurMode (rf rx') = CurMode (rf (RXInit booted))
             /\ irq_on (rf rx') = true).
Proof.
  apply (crc_low_flipped default_config booted booted hello 0xFF);
    [ by_compute | by_compute | by_compute | cbn; lia | by_compute
    | discriminate | by_compute | ].
  rewrite <- list_fmap_compose. vm_compute. reflexivity.
Defined.

(** ** C7: RXGetPacket *)

(** C7: RXGetPacket is a total function of the state; it hands out the
    message buffer and the stored length iff the mode is MX, reports
    (NULL, 0) in every other mode, and leaves the whole system as it was. *)
Theorem RXGetPacket_spec s :
  (Mode_ (comm s) = MX ->
     RXGetPacket s = (Some (RXGetBuff s), RecvBuff (comm s) !!! off_Length, s))
  /\ (Mode_ (comm s) <> MX -> RXGetPacket s = (None, 0, s))
  /\ (is_Some (RXGetPacket s).1.1 <-> Mode_ (comm s) = MX)
  /\ (RXGetPacket s).2 = s.
Proof.
  split; [apply RXGetPacket_ready|]. split; [apply RXGetPacket_empty|].
  destruct (decide (Mode_ (comm s) = MX)) as [H|H].
  - rewrite (RXGetPacket_ready s H). cbn [fst snd]. split; [|reflexivity].
    split; [intros _; exact H | intros _; eexists; reflexivity].
  - rewrite (RXGetPacket_empty s H). cbn [fst snd]. split; [|reflexivity].
    split; [intros [x Hx]; discriminate Hx | intros; contradiction].
Qed.

Lemma RXGetPacket_spec_witness :
  (Mode_ (comm booted) = MX ->
     RXGetPacket booted
     = (Some (RXGetBuff booted), RecvBuff (comm booted) !!! off_Length, booted))
  /\ (Mode_ (comm booted) <> MX -> RXGetPacket booted = (None, 0, booted))
  /\ (is_Some (RXGetPacket booted).1.1 <-> Mode_ (comm booted) = MX)
  /\ (RXGetPacket booted).2 = booted.
Proof. apply (RXGetPacket_spec booted). Defined.

(** ** C8: the bytes clocked out *)

(** C8 as stated is false for "Hello": the send cursor is not at the first
    byte after the synchronisation pattern, the end cursor is not one past
    a single dummy byte, and what is clocked out is not the frame followed by
    exactly one byte. *)
Lemma tx_cursors_not_as_stated :
  let s1 := TXInit 5 (TXConfig 3 (TXFill hello booted)) in
  ~ spec_tx_cursors 5 s1
  /\ forall s2,
       irq_run default_config (replicate 15 tx_irq) s1 = Ok s2 ->
       Mode_ (comm s2) = Mt
       /\ ~ spec_tx_stream (frame_bytes s1) (transmitted (spi (rf s2))).
Proof.
  intros s1. split.
  - intros [H _]. vm_compute in H. discriminate H.
  - intros s2 Hrun.
    assert (Hs2 : match irq_run default_config (replicate 15 tx_irq) s1 with
                  | Ok s => (Mode_ (comm s), length (transmitted (spi (rf s))))
                  | Fault _ => (MI, 0%nat)
                  end = (Mt, 15%nat)) by (vm_compute; reflexivity).
    rewrite Hrun in Hs2. injection Hs2 as Hm Hlen.
    split; [exact Hm|]. intros [d Hd].
    apply (f_equal length) in Hd. rewrite Hlen, length_app, length_fmap in Hd.
    vm_compute in Hd. discriminate Hd.
Qed.

(** C8 (amended): TXInit hands the first synchronisation byte to the
    transmitter itself and points the send cursor at the second byte of the
    frame buffer; the end cursor lies past the end of the frame.  The bytes
    clocked out until the handler reports completion are the whole frame
    (4 synchronisation bytes, length, control, payload, 2 CRC bytes, low
    byte first) followed by trailing dummy bytes. *)
Theorem tx_stream cfg s l ins :
  wf s -> Forall no_rgur ins ->
  length ins = (Z.to_nat (to_len_t l) + 10)%nat ->
  let s1 := TXInit l s in
  let raw := SendBuff (comm s) in
  let n := Z.to_nat (to_len_t l) in
  let ctl := SendBuff (comm s1) !!! (SynchSize + off_Type)%nat in
  let payload := take n (drop TXGetBuff raw) in
  let crc := crc_fold CRCInit (to_len_t l :: ctl :: payload) in
  SendCur (comm s1) = Some 1%nat
  /\ transmitted (spi (rf s1)) = transmitted (spi (rf s)) ++ [raw !! 0%nat]
  /\ frame_bytes s1
     = take SynchSize raw ++ to_len_t l :: ctl :: payload ++ [lo8 crc; hi8 crc]
  /\ (exists e, SendEnd (comm s1) = Some e /\ (length (frame_bytes s1) < e)%nat)
  /\ exists s2 trail,
       irq_run cfg ins s1 = Ok s2
       /\ Mode_ (comm s2) = Mt
       /\ transmitted (spi (rf s2))
          = transmitted (spi (rf s)) ++ (Some <$> frame_bytes s1) ++ trail
       /\ trail <> [].
Proof.
  intros Hwf Hr Hlen. cbv zeta.
  pose proof (TXInit_comm l s Hwf) as Hc. cbv zeta in Hc.
  destruct (TXInit_buffer l s Hwf)
    as (s0 & s1 & s2 & s3 & H4 & Hbuf & Hp & Hn & Hctl & Hpu & Hcrc).
  cbv zeta in Hbuf, Hp, Hctl, Hpu, Hcrc.
  pose proof (wf_TXInit l s Hwf) as Hwf1.
  set (n := Z.to_nat (to_len_t l)) in *.
  set (payload := take n (drop 6 (SendBuff (comm s)))) in *.
  set (ctl := Type_set_Control _ _) in *.
  set (crc := crc_fold CRCInit (to_len_t l :: ctl :: payload)) in *.
  assert (Hctl' : SendBuff (comm (TXInit l s)) !!! (SynchSize + off_Type)%nat = ctl)
    by (rewrite Hbuf; reflexivity).
  rewrite Hctl'. change (take n (drop TXGetBuff (SendBuff (comm s)))) with payload.
  fold crc.
  assert (Hflen : frame_len (TXInit l s) = (n + 8)%nat).
  { unfold frame_len. rewrite Hbuf.
    change ((s0 :: s1 :: s2 :: s3 :: to_len_t l :: _) !!! (SynchSize + off_Length)%nat)
      with (to_len_t l). fold n. sizes. lia. }
  assert (Hframe : frame_bytes (TXInit l s)
                   = take SynchSize (SendBuff (comm s))
                       ++ to_len_t l :: ctl :: payload ++ [lo8 crc; hi8 crc]).
  { unfold frame_bytes. rewrite Hflen, Hbuf. unfold SynchSize. rewrite H4.
    replace (n + 8)%nat with (S (S (S (S (S (S (n + 2))))))) by lia.
    cbn [take app]. do 6 f_equal.
    rewrite take_app_ge by lia. rewrite Hp.
    replace (n + 2 - n)%nat with 2%nat by lia. reflexivity. }
  assert (Hfl : length (frame_bytes (TXInit l s)) = (n + 8)%nat).
  { rewrite Hframe, length_app, length_take. cbn [length].
    rewrite length_app, Hp. cbn [length].
    destruct Hwf as (Hs & _). rewrite Hs. sizes. lia. }
  split; [rewrite Hc; reflexivity|].
  split; [apply transmitted_TXInit, Hwf|].
  split; [exact Hframe|].
  split.
  { exists (n + 10)%nat. split; [rewrite Hc; reflexivity | lia]. }
  destruct (tx_complete_run cfg ins (TXInit l s) 1 (n + 10))
    as [_ (sF & Hrun & HmF & _ & HrfF)];
    [ apply TXInit_irq_on | rewrite Hc; reflexivity | rewrite Hc; reflexivity
    | rewrite Hc; reflexivity | lia | lia | exact Hr | ].
  set (raw' := SendBuff (comm (TXInit l s))) in *.
  exists sF, [raw' !! (n + 8)%nat; raw' !! (n + 9)%nat].
  split; [exact Hrun|]. split; [exact HmF|]. split; [|discriminate].
  rewrite HrfF. change (spi (RF_IRQ_OFF ?h)) with (spi h).
  rewrite transmitted_tx_from by apply Hwf1.
  rewrite (transmitted_TXInit l s Hwf), <- app_assoc. f_equal.
  assert (H0 : SendBuff (comm s) !! 0%nat = raw' !! 0%nat).
  { subst raw'. rewrite Hbuf.
    destruct (SendBuff (comm s)) as [|b0 r]; [discriminate H4|].
    cbn in H4. injection H4 as -> _. reflexivity. }
  rewrite H0.
  replace (n + 10 - 1)%nat with (n + 9)%nat by lia.
  change ([raw' !! 0%nat] ++ ((raw' !!.) <$> seq 1 (n + 9)))
    with ((raw' !!.) <$> seq 0 (S (n + 9))).
  replace (S (n + 9)) with ((n + 8) + 2)%nat by lia.
  rewrite seq_app, fmap_app. f_equal.
  - unfold frame_bytes. rewrite Hflen. apply lookups_take.
    destruct Hwf1 as (Hs1 & _). subst raw'. rewrite Hs1. sizes. lia.
  - cbn [seq fmap list_fmap Nat.add]. 
    replace (S (n + 8)) with (n + 9)%nat by lia. reflexivity.
Qed.

Lemma tx_stream_witness :
  let s := TXConfig 3 (TXFill hello booted) in
  let s1 := TXInit 5 s in
  let raw := SendBuff (comm s) in
  let n := Z.to_nat (to_len_t 5) in
  let ctl := SendBuff (comm s1) !!! (SynchSize + off_Type)%nat in
  let payload := take n (drop TXGetBuff raw) in
  let crc := crc_fold CRCInit (to_len_t 5 :: ctl :: payload) in
  SendCur (comm s1) = Some 1%nat
  /\ transmitted (spi (rf s1)) = transmitted (spi (rf s)) ++ [raw !! 0%nat]
  /\ frame_bytes s1
     = take SynchSize raw ++ to_len_t 5 :: ctl :: payload ++ [lo8 crc; hi8 crc]
  /\ (exists e, SendEnd (comm s1) = Some e /\ (length (frame_bytes s1) < e)%nat)
  /\ exists s2 trail,
       irq_run default_config (replicate 15 tx_irq) s1 = Ok s2
       /\ Mode_ (comm s2) = Mt
       /\ transmitted (spi (rf s2))
          = transmitted (spi (rf s)) ++ (Some <$> frame_bytes s1) ++ trail
       /\ trail <> [].
Proof.
  apply (tx_stream default_config (TXConfig 3 (TXFill hello booted)) 5
           (replicate 15 tx_irq));
    [by_compute | by_compute | reflexivity].
Defined.

(** ** C9: completion of a transmission *)

(** C9: when the handler is entered (no RGUR) in MT with the send cursor on
    the end cursor, the state becomes Mt, the TX counter goes up by one, the
    interrupt source is switched off, and nothing is sent to the
    transceiver: its mode stays what it was, so TX stays TX. *)
Theorem tx_completion cfg i s :
  no_rgur i -> Mode_ (comm s) = MT -> SendCur (comm s) = SendEnd (comm s) ->
  exists s',
    ISR cfg i s = Ok s'
    /\ Mode_ (comm s') = Mt
    /\ PacketsTX (comm s') = to_u32 (PacketsTX (comm s) + 1)
    /\ irq_on (rf s') = false
    /\ CurMode (rf s') = CurMode (rf s)
    /\ spi (rf s') = spi (rf s)
    /\ (CurMode (rf s) = TX -> CurMode (rf s') = TX).
Proof.
  intros Hr Hm Hc. rewrite (ISR_tx_done cfg i s Hr Hm Hc).
  eexists. split; [reflexivity|].
  repeat split. intros H. exact H.
Qed.

Lemma tx_completion_witness :
  exists s',
    ISR default_config tx_irq hello_sent = Ok s'
    /\ Mode_ (comm s') = Mt
    /\ PacketsTX (comm s') = to_u32 (PacketsTX (comm hello_sent) + 1)
    /\ irq_on (rf s') = false
    /\ CurMode (rf s') = CurMode (rf hello_sent)
    /\ spi (rf s') = spi (rf hello_sent)
    /\ (CurMode (rf hello_sent) = TX -> CurMode (rf s') = TX).
Proof.
  apply tx_completion; [by_compute | vm_compute; reflexivity | vm_compute; reflexivity].
Defined.

(** ** C10: stores through the receive cursor *)

(** C10: the end cursor never exceeds offset header_size - 1 + 255 +
    trailer_size, which lies inside the packet buffer (length byte, control
    byte, MaxMesgSize and trailer).  From RXInit on, whatever status words
    and bytes the transceiver delivers, no invocation of the handler faults:
    after every prefix of the events the buffer has kept its size and, while
    the interrupt source is on, the receive cursor is set, not past the end
    cursor, and inside the buffer, so the next store lands in RecvBuff. *)
Theorem rx_store_in_bounds cfg rx ins :
  length (RecvBuff (comm rx)) = sizeof_packet_t -> Forall irq_u8 ins ->
  (max_RecvEnd < sizeof_packet_t)%nat
  /\ sizeof_packet_t = (1 + 1 + MaxMesgSize + COMM_TAILSIZE)%nat
  /\ forall k, exists r,
       irq_run cfg (take k ins) (RXInit rx) = Ok r
       /\ length (RecvBuff (comm r)) = sizeof_packet_t
       /\ (irq_on (rf r) = true ->
           exists cur e,
             RecvCur (comm r) = Some cur /\ RecvEnd (comm r) = Some e
             /\ (cur <= e)%nat /\ (e <= max_RecvEnd)%nat
             /\ (cur < length (RecvBuff (comm r)))%nat
             /\ forall i, irq_u8 i -> exists r', ISR cfg i r = Ok r').
Proof.
  intros Hlen Hu.
  split; [unfold max_RecvEnd; sizes; lia|].
  split; [sizes; lia|].
  intros k.
  destruct (rx_inv_run cfg ins (RXInit rx) (rx_inv_RXInit rx Hlen) Hu k)
    as (r & Hrun & Hr).
  exists r. split; [exact Hrun|]. split; [apply Hr|]. intros Hirq.
  pose proof Hr as [Hl Hinv].
  destruct (Hinv Hirq) as (cur & e & Hc & He & Hle & Hmax & _).
  exists cur, e. split; [exact Hc|]. split; [exact He|].
  split; [exact Hle|]. split; [exact Hmax|].
  split; [rewrite Hl; unfold max_RecvEnd in Hmax; sizes; lia|].
  intros i Hi. destruct (ISR_rx_inv cfg i r Hr Hirq Hi) as (r' & HI & _).
  exists r'. exact HI.
Qed.

Lemma rx_store_in_bounds_witness :
  let ins := [rx_irq 0xFF; rx_irq 0x00] ++ replicate 300 (rx_irq 0x55) in
  (max_RecvEnd < sizeof_packet_t)%nat
  /\ sizeof_packet_t = (1 + 1 + MaxMesgSize + COMM_TAILSIZE)%nat
  /\ forall k, exists r,
       irq_run default_config (take k ins) (RXInit booted) = Ok r
       /\ length (RecvBuff (comm r)) = sizeof_packet_t
       /\ (irq_on (rf r) = true ->
           exists cur e,
             RecvCur (comm r) = Some cur /\ RecvEnd (comm r) = Some e
             /\ (cur <= e)%nat /\ (e <= max_RecvEnd)%nat
             /\ (cur < length (RecvBuff (comm r)))%nat
             /\ forall i, irq_u8 i -> exists r', ISR default_config i r = Ok r').
Proof.
  apply (rx_store_in_bounds default_config booted);
    [reflexivity | by_compute].
Defined.

(** * Further properties *)

(** ** One invocation of the handler, branch by branch *)

Ltac simp_setters_in H :=
  cbn [set_SendBuff set_SendCur set_SendEnd set_RecvBuff set_RecvCur
       set_RecvEnd set_Mode set_Status set_PacketsTX set_PacketsRX
       set_CtrErr set_CRCErr set_CRC inc_CtrErr
       comm rf SendBuff SendCur SendEnd RecvBuff RecvCur RecvEnd Mode_ Status
       PacketsTX PacketsRX CtrErr CRCErr CRC CurMode irq_on spi] in H.

Ltac simp_hyps :=
  repeat match goal with
  | H : _ |- _ => progress simp_setters_in H
  end.

(** Splits a hypothesis [ISR cfg i s = Ok s'] into the branches of the
    handler. *)
Ltac isr_branches H :=
  unfold ISR in H; proj_in H;
  repeat match type of H with
  | context [decide ?P] => destruct (decide P)
  | context [COMM_TXRETRY ?cfg] => destruct (COMM_TXRETRY cfg) eqn:?
  | context [match SendCur ?c with _ => _ end] => destruct (SendCur c) eqn:?
  | context [match RecvCur ?c with _ => _ end] => destruct (RecvCur c) eqn:?
  end;
  try discriminate H; injection H as <-; simp_hyps.

Ltac reset_branches :=
  unfold ResetRX;
  repeat match goal with
  | |- context [COMM_RXRETRY ?cfg] => destruct (COMM_RXRETRY cfg) eqn:?
  end.

Lemma isr_status_eq i c :
  Z.lor (Status (set_Status (to_u16 (Z.shiftl (status_hi i) 8)) c)) (status_lo i)
  = isr_status i.
Proof. reflexivity. Qed.

Lemma ISR_untouched cfg i s s' :
  ISR cfg i s = Ok s' ->
  SendBuff (comm s') = SendBuff (comm s)
  /\ Status (comm s') = isr_status i
  /\ length (RecvBuff (comm s')) = length (RecvBuff (comm s))
  /\ (Mode_ (comm s) = MT ->
      RecvBuff (comm s') = RecvBuff (comm s)
      /\ RecvCur (comm s') = RecvCur (comm s)
      /\ RecvEnd (comm s') = RecvEnd (comm s)
      /\ CRC (comm s') = CRC (comm s)
      /\ PacketsRX (comm s') = PacketsRX (comm s)
      /\ CRCErr (comm s') = CRCErr (comm s))
  /\ (Mode_ (comm s) <> MT ->
      SendCur (comm s') = SendCur (comm s)
      /\ SendEnd (comm s') = SendEnd (comm s)
      /\ PacketsTX (comm s') = PacketsTX (comm s)
      /\ Mode_ (comm s') <> MT).
Proof.
  intros H. destruct s as [c h]. isr_branches H; reset_branches;
    simp_setters; rewrite ?length_insert;
    (split; [reflexivity|]); (split; [reflexivity|]); (split; [reflexivity|]);
    (split; intros Hm; [try contradiction | try (exfalso; apply Hm; assumption)]);
    repeat split; try reflexivity; try discriminate; try assumption.
Qed.

Lemma ISR_counters cfg i s s' :
  ISR cfg i s = Ok s' ->
  let c := comm s in
  let c' := comm s' in
  (counters c' = counters c
   /\ (Mode_ c' = Mode_ c \/ (Mode_ c = Mr /\ Mode_ c' = MR)))
  \/ (counters c'
      = (to_u32 (PacketsTX c + 1), PacketsRX c, CtrErr c, CRCErr c)
      /\ Mode_ c = MT /\ Mode_ c' = Mt)
  \/ (counters c'
      = (PacketsTX c, to_u32 (PacketsRX c + 1), CtrErr c, CRCErr c)
      /\ Mode_ c <> MT /\ Mode_ c' = MX)
  \/ (counters c'
      = (PacketsTX c, PacketsRX c, to_u16 (CtrErr c + 1), CRCErr c)
      /\ Mode_ c' <> Mt /\ Mode_ c' <> MX)
  \/ (counters c'
      = (PacketsTX c, PacketsRX c, CtrErr c, to_u16 (CRCErr c + 1))
      /\ Mode_ c <> MT /\ Mode_ c' <> Mt /\ Mode_ c' <> MX).
Proof.
  intros H. destruct s as [c h]. cbv zeta. isr_branches H; reset_branches;
    unfold counters; simp_setters;
    first
      [ left; split; [reflexivity|]; first [left; reflexivity | right; split; [assumption|reflexivity]]
      | right; left; split; [reflexivity|]; split; [assumption|reflexivity]
      | right; right; left; split; [reflexivity|]; split; [assumption|reflexivity]
      | right; right; right; left; split; [reflexivity|]; split; congruence
      | right; right; right; right; split; [reflexivity|];
        split; [assumption|]; split; discriminate ].
Qed.

(** ** The link state does not depend on the command log *)

Lemma ResetRX_same_link cfg c h1 h2 :
  irq_on h1 = irq_on h2 ->
  same_link (ResetRX cfg (mkSys c h1)) (ResetRX cfg (mkSys c h2)).
Proof.
  intros Hi. unfold ResetRX. destruct (COMM_RXRETRY cfg); split; proj;
    try reflexivity. exact Hi.
Qed.

Lemma ISR_same_link cfg i s1 s2 :
  same_link s1 s2 ->
  match ISR cfg i s1, ISR cfg i s2 with
  | Ok a, Ok b => same_link a b
  | Fault f, Fault g => f = g
  | _, _ => False
  end.
Proof.
  intros [Hc Hi]. destruct s1 as [c h1], s2 as [c2 h2].
  proj_in Hc. proj_in Hi. subst c2. unfold ISR. proj.
  repeat first
    [ apply ResetRX_same_link; exact Hi
    | case_decide
    | match goal with
      | |- context [COMM_TXRETRY cfg] => destruct (COMM_TXRETRY cfg)
      | |- context [match SendCur ?c with _ => _ end] => destruct (SendCur c)
      | |- context [match RecvCur ?c with _ => _ end] => destruct (RecvCur c)
      end ];
  try reflexivity;
  split; proj; rewrite ?transmit_at_irq_on; try reflexivity; try exact Hi.
Qed.

Lemma irq_run_same_link cfg ins : forall s1 s2,
  same_link s1 s2 ->
  match irq_run cfg ins s1, irq_run cfg ins s2 with
  | Ok a, Ok b => same_link a b
  | Fault f, Fault g => f = g
  | _, _ => False
  end.
Proof.
  induction ins as [|i ins IH]; intros s1 s2 H; [exact H|].
  cbn [irq_run]. pose proof H as [_ Hi]. rewrite <- Hi.
  destruct (irq_on (rf s1)); [|apply IH, H].
  pose proof (ISR_same_link cfg i s1 s2 H) as HI.
  destruct (ISR cfg i s1) as [a|f], (ISR cfg i s2) as [b|g];
    try contradiction; [apply IH, HI | exact HI].
Qed.

Lemma irq_run_same_link_Ok cfg ins s1 s2 r1 :
  same_link s1 s2 -> irq_run cfg ins s1 = Ok r1 ->
  exists r2, irq_run cfg ins s2 = Ok r2 /\ same_link r1 r2.
Proof.
  intros H Hr. pose proof (irq_run_same_link cfg ins s1 s2 H) as HS.
  rewrite Hr in HS. destruct (irq_run cfg ins s2) as [r2|]; [|contradiction].
  exists r2. split; [reflexivity | exact HS].
Qed.

Lemma armed_same_link s :
  armed s -> same_link (RXInit s) s.
Proof.
  intros (Hi & Hm & Hc & He & Hcrc). destruct s as [[] h].
  proj_in Hi. proj_in Hm. proj_in Hc. proj_in He. proj_in Hcrc. subst.
  split; [reflexivity|]. proj. rewrite Hi. reflexivity.
Qed.

(** ** Any order of calls and interrupts *)

Lemma TXInit_fields l s :
  Mode_ (comm (TXInit l s)) = MT
  /\ SendCur (comm (TXInit l s)) = Some 1%nat
  /\ SendEnd (comm (TXInit l s))
     = Some (1 + SynchSize + Z.to_nat (to_len_t l) + COMM_PACKETSIZE + 1)%nat
  /\ length (SendBuff (comm (TXInit l s))) = length (SendBuff (comm s))
  /\ RecvBuff (comm (TXInit l s)) = RecvBuff (comm s)
  /\ RecvCur (comm (TXInit l s)) = RecvCur (comm s)
  /\ RecvEnd (comm (TXInit l s)) = RecvEnd (comm s)
  /\ counters (comm (TXInit l s)) = counters (comm s).
Proof.
  unfold TXInit. destruct (crc_do _ _ _ _) as [crc Byte]. simp_setters.
  rewrite !length_insert. repeat split.
Qed.

Lemma link_inv_masked s c' h' :
  link_inv s ->
  length (SendBuff c') = length (SendBuff (comm s)) ->
  length (RecvBuff c') = length (RecvBuff (comm s)) ->
  irq_on h' = false ->
  link_inv (mkSys c' h').
Proof.
  intros (Hs & Hr & _) Hs' Hr' Hi. split; [|split]; proj.
  - rewrite Hs'. exact Hs.
  - rewrite Hr'. exact Hr.
  - rewrite Hi. intros H. discriminate H.
Qed.

Lemma link_inv_Sys0 : link_inv Sys0.
Proof.
  split; [reflexivity|]. split; [reflexivity|]. intros H. discriminate H.
Qed.

Lemma link_inv_Idle s : link_inv s -> link_inv (Idle s).
Proof. intros H. apply (link_inv_masked s); [exact H|reflexivity..]. Qed.

Lemma link_inv_Init s : link_inv s -> link_inv (Init s).
Proof. intros H. apply (link_inv_masked s); [exact H|reflexivity..]. Qed.

Lemma link_inv_RXInit s : link_inv s -> link_inv (RXInit s).
Proof.
  intros (Hs & Hr & _). split; [exact Hs|]. split; [exact Hr|].
  intros _. right. apply rx_inv_RXInit, Hr.
Qed.

(** A caller's write changes the send buffer only. *)
Lemma link_inv_SendBuff s raw :
  link_inv s -> length raw = length (SendBuff (comm s)) ->
  link_inv (mkSys (set_SendBuff raw (comm s)) (rf s)).
Proof.
  intros (Hs & Hr & Hi) Hlen. split; [|split]; simp_setters.
  - rewrite Hlen. exact Hs.
  - exact Hr.
  - intros H. destruct (Hi H) as [(Hm & cur & e & H1)|Hrx]; [left|right].
    + split; [exact Hm|]. exists cur, e. exact H1.
    + exact Hrx.
Qed.

Lemma link_inv_TXFill data s : link_inv s -> link_inv (TXFill data s).
Proof. intros H. apply link_inv_SendBuff; [exact H | apply length_inserts]. Qed.

Lemma link_inv_TXConfig Cfg s : link_inv s -> link_inv (TXConfig Cfg s).
Proof. intros H. apply link_inv_SendBuff; [exact H | apply length_insert]. Qed.

Lemma ISR_tx_inv cfg i s :
  tx_inv s ->
  exists s', ISR cfg i s = Ok s'
    /\ SendBuff (comm s') = SendBuff (comm s)
    /\ RecvBuff (comm s') = RecvBuff (comm s)
    /\ (irq_on (rf s') = true ->
        tx_inv s' /\ SendEnd (comm s') = SendEnd (comm s)).
Proof.
  intros (Hm & cur & e & Hc & He & Hle & Hmax).
  destruct (decide (no_rgur i)) as [Hr|Hr].
  - destruct (decide (cur = e)) as [->|Hne].
    + rewrite (ISR_tx_done cfg i s Hr Hm) by (rewrite Hc, He; reflexivity).
      eexists. split; [reflexivity|]. simp_setters.
      split; [reflexivity|]. split; [reflexivity|]. intros H. discriminate H.
    + rewrite (ISR_tx_send cfg i s cur Hr Hm Hc) by (rewrite He; congruence).
      eexists. split; [reflexivity|]. simp_setters.
      split; [reflexivity|]. split; [reflexivity|]. intros _.
      split; [|reflexivity]. split; [exact Hm|]. exists (S cur), e. simp_setters.
      split; [reflexivity|]. split; [exact He|]. split; [lia | exact Hmax].
  - pose proof (ISR_tx_rgur cfg i s Hr Hm) as HI. cbv zeta in HI. rewrite HI.
    eexists. split; [reflexivity|]. destruct (COMM_TXRETRY cfg); simp_setters.
    + split; [reflexivity|]. split; [reflexivity|]. intros _.
      split; [|reflexivity]. split; [exact Hm|]. exists 1%nat, e. simp_setters.
      split; [reflexivity|]. split; [exact He|]. split; [lia | exact Hmax].
    + split; [reflexivity|]. split; [reflexivity|]. intros H. discriminate H.
Qed.

Lemma link_inv_deliver cfg i s :
  link_inv s -> irq_u8 i ->
  exists s', deliver cfg i s = Ok s' /\ link_inv s'.
Proof.
  intros Hinv Hi. unfold deliver. destruct (irq_on (rf s)) eqn:Hon.
  2:{ exists s. split; [reflexivity | exact Hinv]. }
  destruct Hinv as (Hs & Hr & Hcase). destruct (Hcase Hon) as [Htx|Hrx].
  - destruct (ISR_tx_inv cfg i s Htx) as (s' & HI & Hsb & Hrb & Hnext).
    exists s'. split; [exact HI|]. split; [rewrite Hsb; exact Hs|].
    split; [rewrite Hrb; exact Hr|]. intros H. left. apply Hnext, H.
  - destruct (ISR_rx_inv cfg i s Hrx Hon Hi) as (s' & HI & Hrx').
    destruct (ISR_untouched cfg i s s' HI) as (Hsb & _).
    exists s'. split; [exact HI|]. split; [rewrite Hsb; exact Hs|].
    split; [apply Hrx'|]. intros _. right. exact Hrx'.
Qed.

(** The receive cursors at any time, a reception under way or not. *)

Lemma rx_cursors_ok_ResetRX cfg s : rx_cursors_ok (ResetRX cfg s).
Proof.
  unfold ResetRX, rx_cursors_ok. destruct (COMM_RXRETRY cfg); simp_setters.
  - intros cur Hc. injection Hc as <-. eexists. split; [reflexivity|].
    unfold max_RecvEnd. sizes. split; [lia|]. split; [lia|].
    intros _. split; [reflexivity|]. intros H. discriminate H.
  - intros cur Hc. discriminate Hc.
Qed.

(** A step that leaves the receive side alone and does not enter Mr. *)
Lemma rx_cursors_ok_kept s s' :
  rx_cursors_ok s ->
  RecvCur (comm s') = RecvCur (comm s) -> RecvEnd (comm s') = RecvEnd (comm s) ->
  (Mode_ (comm s') = Mr ->
   Mode_ (comm s) = Mr /\ RecvBuff (comm s') = RecvBuff (comm s)) ->
  rx_cursors_ok s'.
Proof.
  intros H Hc He Hm cur Hcur. rewrite Hc in Hcur.
  destruct (H cur Hcur) as (e & H1 & H2 & H3 & H4).
  exists e. rewrite He. split; [exact H1|]. split; [exact H2|].
  split; [exact H3|]. intros Hmr. destruct (Hm Hmr) as [Hmr' Hb].
  rewrite Hb. apply H4, Hmr'.
Qed.

Lemma ISR_rx_cursors_ok cfg i s :
  irq_u8 i -> length (RecvBuff (comm s)) = sizeof_packet_t ->
  rx_cursors_ok s ->
  match ISR cfg i s with
  | Ok s' => rx_cursors_ok s'
  | Fault f => f = NullDeref
  end.
Proof.
  intros (_ & _ & Hfifo) Hlen Hok.
  destruct s as [c h]. proj_in Hlen. unfold ISR. proj.
  destruct (decide (RF12.S_RGUR (Status (set_Status _ c)) <> 0)) as [Hg|Hg].
  { simp_setters. case_decide as Hm; [|apply rx_cursors_ok_ResetRX].
    destruct (COMM_TXRETRY cfg);
      (apply (rx_cursors_ok_kept (mkSys c h)); [exact Hok|reflexivity..|]);
      simp_setters; intros Hx; [|discriminate Hx].
    rewrite Hm in Hx. discriminate Hx. }
  simp_setters. case_decide as Hm.
  { case_decide.
    - apply (rx_cursors_ok_kept (mkSys c h)); [exact Hok|reflexivity..|].
      simp_setters. intros Hx. discriminate Hx.
    - destruct (SendCur c); [|reflexivity].
      apply (rx_cursors_ok_kept (mkSys c h)); [exact Hok|reflexivity..|].
      simp_setters. intros Hx. rewrite Hm in Hx. discriminate Hx. }
  destruct (RecvCur c) as [cur|] eqn:Hc; [|reflexivity].
  destruct (Hok cur Hc) as (e & He & Hle & Hmax & Hmr).
  proj_in He. proj_in Hmr.
  assert (Hlt : (cur < length (RecvBuff c))%nat)
    by (rewrite Hlen; unfold max_RecvEnd in Hmax; sizes; lia).
  rewrite decide_True by exact Hlt. rewrite He.
  destruct (decide (Some cur = Some e)) as [Heq|Hne].
  - injection Heq as <-.
    destruct (decide (Mode_ c = Mr)) as [Hmode|Hmode].
    + destruct (Hmr Hmode) as [He1 Hl0]. specialize (Hl0 eq_refl).
      assert (Hl0' : <[cur := fifo i]> (RecvBuff c) !!! off_Length
                     = RecvBuff c !!! off_Length).
      { apply list_lookup_total_insert_ne. subst cur. discriminate. }
      rewrite Hl0'.
      repeat case_decide; try apply rx_cursors_ok_ResetRX.
      intros cur' Hc'. simp_setters. proj_in Hc'. simp_setters_in Hc'.
      injection Hc' as <-. eexists. split; [reflexivity|].
      unfold is_u8 in Hl0. unfold max_RecvEnd. subst cur. sizes.
      split; [lia|]. split; [lia|]. intros Hx. discriminate Hx.
    + case_decide; [|apply rx_cursors_ok_ResetRX].
      intros cur' Hc'. simp_setters. simp_setters_in Hc'.
      rewrite Hc in Hc'. injection Hc' as <-.
      exists cur. split; [exact He|]. split; [lia|]. split; [exact Hmax|].
      intros Hx. discriminate Hx.
  - assert (Hlt' : (cur < e)%nat) by (assert (cur <> e) by congruence; lia).
    intros cur' Hc'. simp_setters. simp_setters_in Hc'. injection Hc' as <-.
    exists e. split; [exact He|]. split; [lia|]. split; [exact Hmax|].
    intros Hmode. destruct (Hmr Hmode) as [He1 _]. split; [exact He1|].
    intros HS. assert (cur = 0%nat) as -> by (subst e; sizes; lia).
    unfold off_Length.
    rewrite list_lookup_total_insert_eq by (rewrite Hlen; sizes; lia).
    exact Hfifo.
Qed.

(** Events delivered while the mode is not MT, as inside TXPreInit: a
    store through a NULL receive cursor is the one thing that can go
    wrong. *)
Lemma irq_run_not_MT cfg during : forall s,
  Forall irq_u8 during ->
  length (RecvBuff (comm s)) = sizeof_packet_t ->
  rx_cursors_ok s -> Mode_ (comm s) <> MT ->
  match irq_run cfg during s with
  | Ok s' =>
      rx_cursors_ok s'
      /\ SendBuff (comm s') = SendBuff (comm s)
      /\ length (RecvBuff (comm s')) = sizeof_packet_t
      /\ SendCur (comm s') = SendCur (comm s)
      /\ SendEnd (comm s') = SendEnd (comm s)
      /\ PacketsTX (comm s') = PacketsTX (comm s)
      /\ Mode_ (comm s') <> MT
  | Fault f => f = NullDeref /\ during <> []
  end.
Proof.
  induction during as [|i during IH]; intros s Hu Hlen Hok Hm.
  - cbn [irq_run]. repeat (split; [first [assumption | reflexivity]|]). exact Hm.
  - apply Forall_cons_1 in Hu as [Hi Hu]. cbn [irq_run].
    destruct (irq_on (rf s)).
    2:{ specialize (IH s Hu Hlen Hok Hm).
        destruct (irq_run cfg during s); [exact IH|].
        split; [apply IH | discriminate]. }
    pose proof (ISR_rx_cursors_ok cfg i s Hi Hlen Hok) as HI.
    destruct (ISR cfg i s) as [s1|f] eqn:HE; [|split; [exact HI | discriminate]].
    destruct (ISR_untouched cfg i s s1 HE) as (Hsb & _ & Hrl & _ & Hrest).
    destruct (Hrest Hm) as (Hsc & Hse & Hptx & Hm1).
    specialize (IH s1 Hu ltac:(rewrite Hrl; exact Hlen) HI Hm1).
    destruct (irq_run cfg during s1) as [s'|f]; [|split; [apply IH | discriminate]].
    destruct IH as (H1 & H2 & H3 & H4 & H5 & H6 & H7).
    split; [exact H1|]. split; [rewrite H2; exact Hsb|]. split; [exact H3|].
    split; [rewrite H4; exact Hsc|]. split; [rewrite H5; exact Hse|].
    split; [rewrite H6; exact Hptx|]. exact H7.
Qed.

(** A step that keeps mode, cursors and receive buffer. *)
Lemma rx_cursors_ok_comm_recv s s' :
  rx_cursors_ok s ->
  RecvCur (comm s') = RecvCur (comm s) -> RecvEnd (comm s') = RecvEnd (comm s) ->
  Mode_ (comm s') = Mode_ (comm s) -> RecvBuff (comm s') = RecvBuff (comm s) ->
  rx_cursors_ok s'.
Proof.
  intros H Hc He Hm Hb. apply (rx_cursors_ok_kept s); [exact H|exact Hc|exact He|].
  rewrite Hm. intros Hx. split; [exact Hx | exact Hb].
Qed.

Lemma rx_cursors_ok_comm s s' :
  rx_cursors_ok s -> comm s' = comm s -> rx_cursors_ok s'.
Proof. intros H Hc cur. rewrite Hc. apply H. Qed.

(** What TXPreInit leaves, whatever arrives inside it. *)
Lemma TXPreInit_irq_cases cfg during s :
  Forall irq_u8 during ->
  length (RecvBuff (comm s)) = sizeof_packet_t -> rx_cursors_ok s ->
  match TXPreInit_irq cfg during s with
  | Ok s1 =>
      rx_cursors_ok s1
      /\ SendBuff (comm s1) = SendBuff (comm s)
      /\ length (RecvBuff (comm s1)) = sizeof_packet_t
      /\ SendCur (comm s1) = SendCur (comm s)
      /\ SendEnd (comm s1) = SendEnd (comm s)
      /\ PacketsTX (comm s1) = PacketsTX (comm s)
      /\ Mode_ (comm s1) <> MT
      /\ irq_on (rf s1) = false /\ CurMode (rf s1) = TX
      /\ list.last (spi (rf s1)) = Some (Cmd RF12.PM_TX)
  | Fault f => f = NullDeref /\ during <> []
  end.
Proof.
  intros Hu Hlen Hok. unfold TXPreInit_irq.
  assert (Hok' : rx_cursors_ok (TXPreInit_mode s)).
  { apply (rx_cursors_ok_kept s); [exact Hok|reflexivity..|].
    unfold TXPreInit_mode. simp_setters. intros H. discriminate H. }
  pose proof (irq_run_not_MT cfg during (TXPreInit_mode s) Hu Hlen Hok'
                ltac:(unfold TXPreInit_mode; simp_setters; discriminate)) as HR.
  destruct (irq_run cfg during (TXPreInit_mode s)) as [s'|f]; [|exact HR].
  destruct HR as (H1 & H2 & H3 & H4 & H5 & H6 & H7).
  split; [apply (rx_cursors_ok_comm s'); [exact H1 | reflexivity]|].
  unfold TXPreInit_mask. proj.
  split; [exact H2|]. split; [exact H3|]. split; [exact H4|].
  split; [exact H5|]. split; [exact H6|]. split; [exact H7|].
  split; [reflexivity|]. split; [reflexivity|].
  change (spi (RF.Mode TX (RF_IRQ_OFF (rf s'))))
    with (spi (rf s') ++ [Cmd RF12.PM_TX]).
  apply last_snoc.
Qed.

Lemma TXPreInit_irq_quiet cfg during s :
  irq_on (rf s) = false \/ during = [] ->
  TXPreInit_irq cfg during s = Ok (TXPreInit s).
Proof.
  intros H. unfold TXPreInit_irq.
  assert (Hrun : irq_run cfg during (TXPreInit_mode s) = Ok (TXPreInit_mode s)).
  { destruct H as [H| ->]; [|reflexivity]. apply irq_run_masked. exact H. }
  rewrite Hrun. reflexivity.
Qed.

Lemma rx_cursors_ok_Sys0 : rx_cursors_ok Sys0.
Proof. intros cur H. discriminate H. Qed.

Lemma rx_cursors_ok_RXInit s : rx_cursors_ok (RXInit s).
Proof.
  intros cur Hc. unfold RXInit in *. simp_setters. simp_setters_in Hc.
  injection Hc as <-. eexists. split; [reflexivity|].
  unfold max_RecvEnd. sizes. split; [lia|]. split; [lia|].
  intros _. split; [reflexivity|]. intros H. discriminate H.
Qed.

(** Events inside TXInit, after RF_IRQ_ON(). *)

Lemma TXInit_split l s : TXInit l s = TXInit_crc l (TXInit_start l s).
Proof. reflexivity. Qed.

Lemma TXInit_irq_quiet cfg l s : TXInit_irq cfg l [] s = Ok (TXInit l s).
Proof. reflexivity. Qed.

Lemma TXInit_start_fields l s :
  Mode_ (comm (TXInit_start l s)) = MT
  /\ SendCur (comm (TXInit_start l s)) = Some 1%nat
  /\ SendEnd (comm (TXInit_start l s))
     = Some (1 + SynchSize + Z.to_nat (to_len_t l) + COMM_PACKETSIZE + 1)%nat
  /\ length (SendBuff (comm (TXInit_start l s))) = length (SendBuff (comm s))
  /\ RecvBuff (comm (TXInit_start l s)) = RecvBuff (comm s)
  /\ RecvCur (comm (TXInit_start l s)) = RecvCur (comm s)
  /\ RecvEnd (comm (TXInit_start l s)) = RecvEnd (comm s).
Proof.
  unfold TXInit_start. simp_setters. rewrite !length_insert. repeat split.
Qed.

Lemma TXInit_crc_fields l s :
  Mode_ (comm (TXInit_crc l s)) = Mode_ (comm s)
  /\ SendCur (comm (TXInit_crc l s)) = SendCur (comm s)
  /\ SendEnd (comm (TXInit_crc l s)) = SendEnd (comm s)
  /\ length (SendBuff (comm (TXInit_crc l s))) = length (SendBuff (comm s))
  /\ RecvBuff (comm (TXInit_crc l s)) = RecvBuff (comm s)
  /\ RecvCur (comm (TXInit_crc l s)) = RecvCur (comm s)
  /\ RecvEnd (comm (TXInit_crc l s)) = RecvEnd (comm s)
  /\ rf (TXInit_crc l s) = rf s.
Proof.
  unfold TXInit_crc. destruct (crc_do _ _ _ _) as [crc Byte]. simp_setters.
  rewrite !length_insert. repeat split.
Qed.

(** A step that changes the contents of the send buffer and the
    accumulator at most. *)
Lemma link_inv_same s s' :
  link_inv s ->
  length (SendBuff (comm s')) = length (SendBuff (comm s)) ->
  RecvBuff (comm s') = RecvBuff (comm s) ->
  Mode_ (comm s') = Mode_ (comm s) ->
  SendCur (comm s') = SendCur (comm s) -> SendEnd (comm s') = SendEnd (comm s) ->
  RecvCur (comm s') = RecvCur (comm s) -> RecvEnd (comm s') = RecvEnd (comm s) ->
  irq_on (rf s') = irq_on (rf s) ->
  link_inv s'.
Proof.
  intros (Hs & Hr & Hcase) Hsl Hrb Hm Hsc Hse Hrc Hre Hi.
  unfold link_inv, tx_inv, rx_inv.
  rewrite Hsl, Hrb, Hm, Hsc, Hse, Hrc, Hre, Hi.
  split; [exact Hs|]. split; [exact Hr|]. exact Hcase.
Qed.

Lemma link_inv_TXInit_start l s : link_inv s -> link_inv (TXInit_start l s).
Proof.
  intros (Hs & Hr & _).
  destruct (TXInit_start_fields l s) as (Hm & Hc & He & Hlen & Hrb & _).
  split; [rewrite Hlen; exact Hs|]. split; [rewrite Hrb; exact Hr|].
  intros _. left. split; [exact Hm|].
  eexists _, _. split; [exact Hc|]. split; [exact He|].
  pose proof (to_len_t_u8 l) as HL. unfold is_u8 in HL.
  unfold max_SendEnd. sizes. lia.
Qed.

Lemma link_inv_irq_run cfg ins : forall s,
  link_inv s -> rx_cursors_ok s -> Forall irq_u8 ins ->
  exists r, irq_run cfg ins s = Ok r /\ link_inv r /\ rx_cursors_ok r.
Proof.
  induction ins as [|i ins IH]; intros s Hinv Hok Hu.
  - exists s. split; [reflexivity|]. split; assumption.
  - apply Forall_cons_1 in Hu as [Hi Hu]. cbn [irq_run].
    destruct (link_inv_deliver cfg i s Hinv Hi) as (s' & Hd & Hinv').
    unfold deliver in Hd. destruct (irq_on (rf s)).
    + rewrite Hd. apply IH; [exact Hinv'| |exact Hu].
      pose proof Hinv as (_ & Hr & _).
      pose proof (ISR_rx_cursors_ok cfg i s Hi Hr Hok) as HI.
      rewrite Hd in HI. exact HI.
    + apply IH; assumption.
Qed.

Lemma link_inv_TXInit_irq cfg l during s :
  link_inv s -> rx_cursors_ok s -> Forall irq_u8 during ->
  exists s', TXInit_irq cfg l during s = Ok s'
             /\ link_inv s' /\ rx_cursors_ok s'.
Proof.
  intros Hinv Hok Hu. unfold TXInit_irq.
  destruct (TXInit_start_fields l s) as (Hm & _ & _ & _ & _ & Hc & He).
  assert (Hok1 : rx_cursors_ok (TXInit_start l s)).
  { apply (rx_cursors_ok_kept s); [exact Hok | exact Hc | exact He |].
    rewrite Hm. intros Hx. discriminate Hx. }
  destruct (link_inv_irq_run cfg during _ (link_inv_TXInit_start l s Hinv) Hok1 Hu)
    as (r & Hrun & Hinv' & Hok').
  rewrite Hrun. eexists. split; [reflexivity|].
  destruct (TXInit_crc_fields l r)
    as (Hm' & Hsc & Hse & Hsl & Hrb & Hrc & Hre & Hrf).
  split.
  - apply (link_inv_same r); try assumption. rewrite Hrf. reflexivity.
  - apply (rx_cursors_ok_comm_recv r); assumption.
Qed.

Lemma link_inv_do_call cfg c s :
  link_inv s -> rx_cursors_ok s -> call_ok c ->
  match do_call cfg c s with
  | Ok s' => link_inv s' /\ rx_cursors_ok s'
  | Fault f => f = NullDeref /\ ~ quiet_call c
  end.
Proof.
  intros Hinv Hok Hc. destruct c; cbn [do_call call_ok quiet_call] in *.
  - split; [apply link_inv_Init, Hinv|].
    apply (rx_cursors_ok_kept s); [exact Hok|reflexivity..|].
    intros H. discriminate H.
  - split; [apply link_inv_Idle, Hinv|].
    apply (rx_cursors_ok_kept s); [exact Hok|reflexivity..|].
    intros H. discriminate H.
  - split; [apply link_inv_RXInit, Hinv | apply rx_cursors_ok_RXInit].
  - split; [apply link_inv_TXFill, Hinv|].
    apply (rx_cursors_ok_comm_recv s); [exact Hok|reflexivity..].
  - split; [apply link_inv_TXConfig, Hinv|].
    apply (rx_cursors_ok_comm_recv s); [exact Hok|reflexivity..].
  - destruct (link_inv_TXInit_irq cfg Length during s Hinv Hok Hc)
      as (s' & Hd & Hinv' & Hok').
    rewrite Hd. split; assumption.
  - pose proof Hinv as (Hs & Hr & _).
    pose proof (TXPreInit_irq_cases cfg during s Hc Hr Hok) as HT.
    destruct (TXPreInit_irq cfg during s) as [s1|f].
    + destruct HT as (H1 & H2 & H3 & _ & _ & _ & _ & H8 & _).
      split; [|exact H1]. split; [rewrite H2; exact Hs|]. split; [exact H3|].
      rewrite H8. intros H. discriminate H.
    + destruct HT as [Hf Hne]. split; [exact Hf|]. exact Hne.
  - destruct (link_inv_deliver cfg i s Hinv Hc) as (s' & Hd & Hinv').
    rewrite Hd. split; [exact Hinv'|].
    unfold deliver in Hd. destruct (irq_on (rf s)).
    + pose proof Hinv as (_ & Hr & _).
      pose proof (ISR_rx_cursors_ok cfg i s Hc Hr Hok) as HI.
      rewrite Hd in HI. exact HI.
    + injection Hd as <-. exact Hok.
Qed.

Lemma link_inv_run_calls cfg cs : forall s,
  link_inv s -> rx_cursors_ok s -> Forall call_ok cs ->
  match run_calls cfg cs s with
  | Ok r => link_inv r /\ rx_cursors_ok r
  | Fault f => f = NullDeref /\ ~ Forall quiet_call cs
  end.
Proof.
  induction cs as [|c cs IH]; intros s Hinv Hcur Hok.
  - split; assumption.
  - apply Forall_cons_1 in Hok as [Hc Hok]. cbn [run_calls].
    pose proof (link_inv_do_call cfg c s Hinv Hcur Hc) as Hd.
    destruct (do_call cfg c s) as [s'|f].
    + destruct Hd as [Hinv' Hcur']. specialize (IH s' Hinv' Hcur' Hok).
      destruct (run_calls cfg cs s') as [r|f]; [exact IH|].
      destruct IH as [Hf Hq]. split; [exact Hf|].
      intros HQ. apply Hq. apply Forall_cons_1 in HQ as [_ HQ]. exact HQ.
    + destruct Hd as [Hf Hq]. split; [exact Hf|].
      intros HQ. apply Hq. apply Forall_cons_1 in HQ as [HQ _]. exact HQ.
Qed.

(** X1: from the statically initialised state, whatever the order of calls
    of the interface, writes to the send buffer and interrupts, events that
    arrive inside TXInit (after RF_IRQ_ON()) and inside TXPreInit included,
    the handler never stores outside the receive buffer.  The only fault possible is an access through a NULL
    cursor, and it needs an event that arrives inside TXPreInit, between
    its store to State.Mode and RF_IRQ_OFF(): a run in which no event
    does so goes through.  After a run that goes through both buffers have
    their sizes, a receive cursor that is set is in order with its end
    cursor and inside the receive buffer, and if the interrupt source is
    enabled the link is either transmitting (MT) with its send cursors set,
    in order and at most one byte past the frame buffer, or receiving (Mr,
    MR) with its receive cursors set. *)
Theorem calls_never_fault cfg cs :
  Forall call_ok cs ->
  (Forall quiet_call cs -> exists r, run_calls cfg cs Sys0 = Ok r)
  /\ match run_calls cfg cs Sys0 with
     | Ok r =>
         length (SendBuff (comm r)) = sizeof_frame_t
         /\ length (RecvBuff (comm r)) = sizeof_packet_t
         /\ (forall cur, RecvCur (comm r) = Some cur ->
               exists e, RecvEnd (comm r) = Some e
                         /\ (cur <= e)%nat /\ (e < sizeof_packet_t)%nat)
         /\ (irq_on (rf r) = true ->
             (Mode_ (comm r) = MT
              /\ exists cur e,
                   SendCur (comm r) = Some cur /\ SendEnd (comm r) = Some e
                   /\ (1 <= cur <= e)%nat /\ (e <= sizeof_frame_t + 1)%nat)
             \/ ((Mode_ (comm r) = Mr \/ Mode_ (comm r) = MR)
                 /\ exists cur, RecvCur (comm r) = Some cur))
     | Fault f => f = NullDeref /\ ~ Forall quiet_call cs
     end.
Proof.
  intros Hok.
  pose proof (link_inv_run_calls cfg cs Sys0 link_inv_Sys0 rx_cursors_ok_Sys0 Hok)
    as Hrun.
  destruct (run_calls cfg cs Sys0) as [r|f].
  2:{ split; [|exact Hrun]. intros HQ. exfalso. apply Hrun, HQ. }
  split; [intros _; exists r; reflexivity|].
  destruct Hrun as [(Hs & Hr & Hcase) Hcur].
  split; [exact Hs|]. split; [exact Hr|]. split.
  - intros cur Hc. destruct (Hcur cur Hc) as (e & He & Hle & Hmax & _).
    exists e. split; [exact He|]. split; [exact Hle|].
    unfold max_RecvEnd in Hmax. sizes. lia.
  - intros Hon.
    destruct (Hcase Hon) as [(Hm & cur & e & Hc & He & Hle & Hmax)|Hrx].
    + left. split; [exact Hm|]. exists cur, e.
      split; [exact Hc|]. split; [exact He|]. split; [exact Hle|].
      unfold max_SendEnd in Hmax. sizes. lia.
    + right. destruct Hrx as [_ Hrx].
      destruct (Hrx Hon) as (cur & e & Hc & _ & _ & _ & Hmode).
      split; [destruct Hmode as [(Hm & _)|Hm]; [left|right]; exact Hm|].
      exists cur. exact Hc.
Qed.

Lemma calls_never_fault_witness :
  let cs := [Call_Init; Call_TXFill hello; Call_TXConfig 3;
             Call_TXInit 5 [tx_irq; rgur_irq];
             Irq tx_irq; Irq rgur_irq; Call_RXInit; Irq (rx_irq 5);
             Call_TXPreInit [rx_irq 0x3A; rx_irq 0x48];
             Call_TXInit 5 []; Irq tx_irq] in
  run_calls default_config
    [Call_Init; Call_TXInit 5 []; Call_TXPreInit [tx_irq]] Sys0
  = Fault NullDeref
  /\ exists r,
    run_calls default_config cs Sys0 = Ok r
    /\ length (SendBuff (comm r)) = sizeof_frame_t
    /\ length (RecvBuff (comm r)) = sizeof_packet_t
    /\ (forall cur, RecvCur (comm r) = Some cur ->
          exists e, RecvEnd (comm r) = Some e
                    /\ (cur <= e)%nat /\ (e < sizeof_packet_t)%nat)
    /\ (irq_on (rf r) = true ->
        (Mode_ (comm r) = MT
         /\ exists cur e,
              SendCur (comm r) = Some cur /\ SendEnd (comm r) = Some e
              /\ (1 <= cur <= e)%nat /\ (e <= sizeof_frame_t + 1)%nat)
        \/ ((Mode_ (comm r) = Mr \/ Mode_ (comm r) = MR)
            /\ exists cur, RecvCur (comm r) = Some cur)).
Proof.
  intros cs. split; [vm_compute; reflexivity|].
  pose proof (calls_never_fault default_config cs ltac:(by_compute)) as [_ H].
  destruct (run_calls default_config cs Sys0) as [r|f] eqn:Hrun.
  - exists r. split; [reflexivity | exact H].
  - exfalso. vm_compute in Hrun. discriminate Hrun.
Defined.

(** ** What a reception has checked *)

Lemma ISR_rx_rgur cfg i s :
  ~ no_rgur i -> Mode_ (comm s) <> MT ->
  ISR cfg i s
  = Ok (ResetRX cfg (mkSys (inc_CtrErr (set_Status (isr_status i) (comm s)))
                           (rf s))).
Proof.
  intros Hr Hm. destruct s as [[] h]. proj_in Hm.
  unfold ISR, no_rgur in *. unfold_setters.
  rewrite decide_True by assumption.
  rewrite decide_False by assumption.
  reflexivity.
Qed.

Lemma take_S_insert {A} (l : list A) n x :
  (n < length l)%nat -> take (S n) (<[n := x]> l) = take n l ++ [x].
Proof.
  intros H. rewrite (take_S_r _ _ x) by (apply list_lookup_insert_eq, H).
  rewrite take_insert_ge by lia. reflexivity.
Qed.

Lemma crc_fold_snoc crc l b :
  crc_fold crc (l ++ [b]) = _crc_ccitt_update (crc_fold crc l) b.
Proof. rewrite crc_fold_app. reflexivity. Qed.

Lemma rx_track_ResetRX cfg c h :
  length (RecvBuff c) = sizeof_packet_t -> rx_track (ResetRX cfg (mkSys c h)).
Proof.
  intros Hlen. unfold ResetRX, rx_track. destruct (COMM_RXRETRY cfg); simp_setters.
  - split; [exact Hlen|]. intros _. exists 0%nat.
    split; [reflexivity|]. split; [reflexivity|]. split; [sizes; lia|].
    split; [reflexivity|]. intros H. discriminate H.
  - split; [exact Hlen|]. reflexivity.
Qed.

Lemma rx_track_RXInit rx :
  length (RecvBuff (comm rx)) = sizeof_packet_t -> rx_track (RXInit rx).
Proof.
  intros Hlen. unfold rx_track, RXInit. simp_setters.
  split; [exact Hlen|]. intros _. exists 0%nat.
  split; [reflexivity|]. split; [reflexivity|]. split; [sizes; lia|].
  split; [reflexivity|]. intros H. discriminate H.
Qed.

Lemma header_ok_nonzero len ctl : is_u8 len -> header_ok len ctl -> 1 <= len <= 255.
Proof. unfold is_u8, header_ok. intros H1 [_ H2]. lia. Qed.

Lemma ISR_rx_track cfg i s :
  rx_track s -> irq_on (rf s) = true -> is_u8 (fifo i) ->
  exists s',
    ISR cfg i s = Ok s' /\ rx_track s'
    /\ (COMM_RXRETRY cfg = true -> Mode_ (comm s') <> MI).
Proof.
  intros [Hlen Ht] Hon Hu8. cbv zeta in Hlen, Ht.
  destruct (decide (no_rgur i)) as [Hr|Hr].
  2:{ assert (HnMT : Mode_ (comm s) <> MT)
        by (intros Hm; rewrite Hm in Ht; exact Ht).
      rewrite (ISR_rx_rgur cfg i s Hr HnMT). eexists. split; [reflexivity|].
      split; [apply rx_track_ResetRX; exact Hlen|].
      intros Hcfg. rewrite ResetRX_Mode, Hcfg. discriminate. }
  destruct (Mode_ (comm s)) eqn:Hm; try contradiction; try congruence;
    try (destruct Ht as [Ht _]; congruence).
  - (* Mr: the header *)
    destruct (Ht Hon) as (cur & Hc & He & Hle & Hcrc & Hl0).
    assert (Hlt : (cur < length (RecvBuff (comm s)))%nat)
      by (rewrite Hlen; sizes; lia).
    destruct (decide (cur = 1%nat)) as [->|Hne].
    + pose proof (ISR_rx_header cfg i s 1 Hr Hm Hc Hlt He) as HI.
      cbv zeta in HI. rewrite HI. clear HI.
      unfold rx_stored. simp_setters.
      assert (H0 : <[1%nat := fifo i]> (RecvBuff (comm s)) !!! off_Length
                   = RecvBuff (comm s) !!! off_Length)
        by (apply list_lookup_total_insert_ne; discriminate).
      assert (H1 : <[1%nat := fifo i]> (RecvBuff (comm s)) !!! off_Type = fifo i)
        by (apply list_lookup_total_insert_eq; exact Hlt).
      rewrite H0, H1. specialize (Hl0 eq_refl).
      case_decide as Hok.
      * eexists. split; [reflexivity|]. split; [|intros _; discriminate].
        unfold rx_track. simp_setters. rewrite length_insert.
        split; [exact Hlen|]. intros _. exists 2%nat. cbv zeta.
        rewrite H0, H1.
        split; [reflexivity|]. split; [reflexivity|].
        split; [sizes; lia|]. split; [exact Hl0|]. split; [exact Hok|].
        rewrite (take_S_insert _ 1) by exact Hlt.
        rewrite crc_fold_snoc, <- Hcrc. reflexivity.
      * eexists. split; [reflexivity|].
        split; [apply rx_track_ResetRX; simp_setters; rewrite length_insert; exact Hlen|].
        intros Hcfg. rewrite ResetRX_Mode, Hcfg. discriminate.
    + assert (cur = 0%nat) as -> by (sizes; lia).
      rewrite (ISR_rx_store cfg i s 0 Hr) by
        (try assumption; try (rewrite Hm; discriminate); rewrite He; discriminate).
      eexists. split; [reflexivity|]. split; [|simp_setters; unfold rx_stored; simp_setters; rewrite Hm; intros _; discriminate].
      unfold rx_track, rx_stored. simp_setters. rewrite Hm, length_insert.
      split; [exact Hlen|]. intros _. exists 1%nat.
      split; [reflexivity|]. split; [exact He|]. split; [sizes; lia|].
      split.
      * rewrite (take_S_insert _ 0) by exact Hlt.
        rewrite crc_fold_snoc, <- Hcrc. reflexivity.
      * intros _. unfold off_Length.
        rewrite list_lookup_total_insert_eq by exact Hlt. exact Hu8.
  - (* MR: the body *)
    destruct (Ht Hon) as (cur & Hc & He & Hle & Hl0 & Hok & Hcrc).
    cbv zeta in Hc, He, Hle, Hl0, Hok, Hcrc.
    set (len := RecvBuff (comm s) !!! off_Length) in *.
    assert (Hlen255 : 1 <= len <= 255) by (apply (header_ok_nonzero _ _ Hl0 Hok)).
    assert (Hlt : (cur < length (RecvBuff (comm s)))%nat)
      by (rewrite Hlen; sizes; lia).
    assert (H0 : <[cur := fifo i]> (RecvBuff (comm s)) !!! off_Length = len)
      by (apply list_lookup_total_insert_ne; sizes; lia).
    assert (H1 : <[cur := fifo i]> (RecvBuff (comm s)) !!! off_Type
                 = RecvBuff (comm s) !!! off_Type)
      by (apply list_lookup_total_insert_ne; sizes; lia).
    destruct (decide (cur = COMM_HEADSIZE - 1 + Z.to_nat len + COMM_TAILSIZE)%nat)
      as [Hend|Hne].
    + pose proof (ISR_rx_final cfg i s cur Hr) as HI.
      rewrite Hm in HI. specialize (HI ltac:(discriminate) ltac:(discriminate) Hc Hlt).
      rewrite He, <- Hend in HI. specialize (HI eq_refl). cbv zeta in HI.
      rewrite HI. clear HI. unfold rx_stored. simp_setters.
      case_decide as Hz.
      * eexists. split; [reflexivity|]. split; [|intros _; discriminate].
        unfold rx_track. simp_setters. rewrite length_insert.
        split; [exact Hlen|]. split; [reflexivity|].
        unfold packet_valid. cbv zeta. rewrite H0, H1.
        split; [exact Hlen255|]. split; [exact Hok|].
        replace (COMM_HEADSIZE + Z.to_nat len + COMM_TAILSIZE)%nat with (S cur)
          by (rewrite Hend; sizes; lia).
        rewrite (take_S_insert _ cur) by exact Hlt.
        rewrite crc_fold_snoc, <- Hcrc. exact Hz.
      * eexists. split; [reflexivity|].
        split; [apply rx_track_ResetRX; simp_setters; rewrite length_insert; exact Hlen|].
        intros Hcfg. rewrite ResetRX_Mode, Hcfg. discriminate.
    + rewrite (ISR_rx_store cfg i s cur Hr) by
        (try assumption; try (rewrite Hm; discriminate); rewrite He; congruence).
      eexists. split; [reflexivity|]. split; [|simp_setters; unfold rx_stored; simp_setters; rewrite Hm; intros _; discriminate].
      unfold rx_track, rx_stored. simp_setters. rewrite Hm, length_insert.
      split; [exact Hlen|]. intros _. exists (S cur). cbv zeta. rewrite H0, H1.
      split; [reflexivity|]. split; [exact He|]. split; [lia|].
      split; [exact Hl0|]. split; [exact Hok|].
      rewrite (take_S_insert _ cur) by exact Hlt.
      rewrite crc_fold_snoc, <- Hcrc. reflexivity.
Qed.

Lemma ISR_PacketsRX cfg i s s' :
  ISR cfg i s = Ok s' -> Mode_ (comm s) <> MX ->
  (Mode_ (comm s') = MX /\ PacketsRX (comm s') = to_u32 (PacketsRX (comm s) + 1))
  \/ (Mode_ (comm s') <> MX /\ PacketsRX (comm s') = PacketsRX (comm s)).
Proof.
  intros H Hm. pose proof (ISR_counters cfg i s s' H) as Hc. cbv zeta in Hc.
  unfold counters in Hc.
  destruct Hc as [(He & Hmode)|[(He & _ & Hmode)|[(He & _ & Hmode)
                 |[(He & _ & Hmode)|(He & _ & _ & Hmode)]]]];
    injection He as _ Hrx _ _.
  - right. split; [|exact Hrx]. destruct Hmode as [->|(_ & ->)]; [exact Hm|discriminate].
  - right. split; [rewrite Hmode; discriminate | exact Hrx].
  - left. split; [exact Hmode | exact Hrx].
  - right. split; [exact Hmode | exact Hrx].
  - right. split; [exact Hmode | exact Hrx].
Qed.

Lemma rx_track_masked s :
  rx_track s -> Mode_ (comm s) = MX -> irq_on (rf s) = false.
Proof. intros [_ H] Hm. rewrite Hm in H. apply H. Qed.

Lemma rx_track_run cfg ins : forall s,
  rx_track s -> Mode_ (comm s) <> MX -> Forall irq_u8 ins ->
  exists r,
    irq_run cfg ins s = Ok r /\ rx_track r
    /\ (COMM_RXRETRY cfg = true -> Mode_ (comm s) <> MI -> Mode_ (comm r) <> MI)
    /\ (Mode_ (comm r) = MX ->
        PacketsRX (comm r) = to_u32 (PacketsRX (comm s) + 1))
    /\ (Mode_ (comm r) <> MX -> PacketsRX (comm r) = PacketsRX (comm s)).
Proof.
  induction ins as [|i ins IH]; intros s Ht Hm Hu.
  - exists s. split; [reflexivity|]. split; [exact Ht|].
    split; [intros _ H; exact H|]. split; [intros H; contradiction | reflexivity].
  - apply Forall_cons_1 in Hu as [Hi Hu]. cbn [irq_run].
    destruct (irq_on (rf s)) eqn:Hon; [|apply IH; assumption].
    destruct (ISR_rx_track cfg i s Ht Hon (proj2 (proj2 Hi)))
      as (s' & HI & Ht' & HnI).
    rewrite HI.
    destruct (ISR_PacketsRX cfg i s s' HI Hm) as [(HX & Hp)|(HnX & Hp)].
    + rewrite (irq_run_masked cfg ins s' (rx_track_masked s' Ht' HX)).
      exists s'. split; [reflexivity|]. split; [exact Ht'|].
      split; [intros Hcfg _; apply HnI, Hcfg|].
      split; [intros _; exact Hp | intros H; contradiction].
    + destruct (IH s' Ht' HnX Hu) as (r & Hrun & Htr & HrI & HrX & HrnX).
      exists r. split; [exact Hrun|]. split; [exact Htr|].
      split; [intros Hcfg _; apply HrI; [exact Hcfg | apply HnI, Hcfg]|].
      rewrite <- Hp. split; assumption.
Qed.

(** ** The waiting loops and the runs of the handler *)

Lemma irq_run_cons cfg i ins s :
  irq_run cfg (i :: ins) s
  = match deliver cfg i s with
    | Ok s' => irq_run cfg ins s'
    | Fault f => Fault f
    end.
Proof. unfold deliver. cbn [irq_run]. destruct (irq_on (rf s)); reflexivity. Qed.

Lemma RXReady_false s :
  RXReady s = false <-> Mode_ (comm s) <> MI /\ Mode_ (comm s) <> MX.
Proof.
  unfold RXReady. destruct (Mode_ (comm s)); cbn; split;
    try (intros H; discriminate H); try (intros [H1 H2]; congruence);
    try (intros _; split; discriminate); try reflexivity.
Qed.

Lemma RXReady_true s :
  RXReady s = true <-> Mode_ (comm s) = MI \/ Mode_ (comm s) = MX.
Proof.
  unfold RXReady. destruct (Mode_ (comm s)); cbn; split;
    try (intros H; discriminate H); try (intros [H|H]; discriminate H);
    try (intros _; tauto); try reflexivity.
Qed.

Lemma RXWait_ready cfg ins s :
  RXReady s = true -> RXWait cfg ins s = Ok (Some (s, ins)).
Proof.
  intros H. apply RXReady_true in H.
  destruct ins; cbn [RXWait]; repeat case_decide; try reflexivity; tauto.
Qed.

Lemma RXWait_cons cfg i ins s :
  RXReady s = false ->
  RXWait cfg (i :: ins) s
  = match deliver cfg i s with
    | Ok s' => RXWait cfg ins s'
    | Fault f => Fault f
    end.
Proof.
  intros H. apply RXReady_false in H as [H1 H2]. cbn [RXWait].
  rewrite !decide_False by assumption. reflexivity.
Qed.

Lemma RXWait_nil cfg s : RXReady s = false -> RXWait cfg [] s = Ok None.
Proof.
  intros H. apply RXReady_false in H as [H1 H2]. cbn [RXWait].
  rewrite !decide_False by assumption. reflexivity.
Qed.

(** [RXWait] returns the state of the first prefix of the events after
    which the mode is MI or MX. *)
Lemma RXWait_first_ready cfg n : forall ins s r,
  (n <= length ins)%nat ->
  (forall j, (j < n)%nat ->
     exists r', irq_run cfg (take j ins) s = Ok r' /\ RXReady r' = false) ->
  irq_run cfg (take n ins) s = Ok r -> RXReady r = true ->
  RXWait cfg ins s = Ok (Some (r, drop n ins)).
Proof.
  induction n as [|n IH]; intros ins s r Hn Hpre Hrun Hready.
  - rewrite take_0 in Hrun. cbn in Hrun. injection Hrun as <-.
    rewrite drop_0. apply RXWait_ready, Hready.
  - destruct ins as [|i ins]; [cbn in Hn; lia|]. cbn [length] in Hn.
    destruct (Hpre 0%nat ltac:(lia)) as (r0 & H0 & Hr0).
    rewrite take_0 in H0. cbn in H0. injection H0 as <-.
    rewrite (RXWait_cons cfg i ins s Hr0). cbn [take drop] in *.
    rewrite irq_run_cons in Hrun.
    destruct (deliver cfg i s) as [s1|f] eqn:Hd; [|discriminate Hrun].
    apply IH; [lia | | exact Hrun | exact Hready].
    intros j Hj. destruct (Hpre (S j) ltac:(lia)) as (r' & H' & Hr').
    cbn [take] in H'. rewrite irq_run_cons, Hd in H'. exists r'. split; assumption.
Qed.

(** Whatever [RXWait] returns is the state after a prefix of the events. *)
Lemma RXWait_run cfg ins : forall s,
  match RXWait cfg ins s with
  | Ok (Some (r, rest)) =>
      exists k, (k <= length ins)%nat /\ irq_run cfg (take k ins) s = Ok r
                /\ rest = drop k ins /\ RXReady r = true
  | Ok None => exists r, irq_run cfg ins s = Ok r /\ RXReady r = false
  | Fault f => exists k, irq_run cfg (take k ins) s = Fault f
  end.
Proof.
  induction ins as [|i ins IH]; intros s.
  - destruct (RXReady s) eqn:Hr.
    + rewrite (RXWait_ready _ _ _ Hr). exists 0%nat.
      split; [lia|]. split; [reflexivity|]. split; [reflexivity | exact Hr].
    + rewrite (RXWait_nil _ _ Hr). exists s. split; [reflexivity | exact Hr].
  - destruct (RXReady s) eqn:Hr.
    + rewrite (RXWait_ready _ _ _ Hr). exists 0%nat.
      split; [lia|]. split; [reflexivity|]. split; [reflexivity | exact Hr].
    + rewrite (RXWait_cons _ _ _ _ Hr).
      destruct (deliver cfg i s) as [s1|f] eqn:Hd.
      * specialize (IH s1). destruct (RXWait cfg ins s1) as [[[r rest]|]|f].
        -- destruct IH as (k & Hk & Hrun & Hrest & Hready). exists (S k).
           cbn [take drop length]. rewrite irq_run_cons, Hd.
           split; [lia|]. split; [exact Hrun|]. split; assumption.
        -- destruct IH as (r & Hrun & Hready). exists r.
           rewrite irq_run_cons, Hd. split; assumption.
        -- destruct IH as (k & Hrun). exists (S k). cbn [take].
           rewrite irq_run_cons, Hd. exact Hrun.
      * exists 1%nat. cbn [take]. rewrite take_0, irq_run_cons, Hd. reflexivity.
Qed.

(** While a well-formed frame comes in, the receiver is in Mr or MR. *)
Lemma rx_frame_prefix cfg rx len ctl body t1 t2 ins k :
  length (RecvBuff (comm rx)) = sizeof_packet_t ->
  is_u8 len -> header_ok len ctl -> length body = Z.to_nat len ->
  Forall no_rgur ins -> fifo <$> ins = len :: ctl :: body ++ [t1; t2] ->
  (k < length ins)%nat ->
  exists r, irq_run cfg (take k ins) (RXInit rx) = Ok r
            /\ (Mode_ (comm r) = Mr \/ Mode_ (comm r) = MR).
Proof.
  intros Hlen Hl Hok Hb Hr Hf Hk.
  assert (Hn : length ins = (Z.to_nat len + 4)%nat).
  { apply (f_equal length) in Hf. rewrite length_fmap in Hf. rewrite Hf.
    cbn [length]. rewrite length_app, Hb. cbn [length]. lia. }
  destruct ins as [|i0 [|i1 rest]]; try discriminate Hf.
  cbn [fmap list_fmap] in Hf. injection Hf as Hf0 Hf1 Hf.
  apply Forall_cons_1 in Hr as [Hr0 Hr]. apply Forall_cons_1 in Hr as [Hr1 Hr].
  cbn [length] in Hn, Hk.
  destruct k as [|[|k]].
  - exists (RXInit rx). split; [reflexivity|]. left. reflexivity.
  - cbn [take].
    rewrite (rx_store_run cfg [i0] (RXInit rx) 0 1);
      [ | reflexivity | discriminate | reflexivity | reflexivity
        | cbn [length]; lia | cbn [RXInit comm]; simp_setters; rewrite Hlen; sizes; lia
        | apply Forall_cons_2; [assumption | constructor] ].
    eexists. split; [reflexivity|]. left. reflexivity.
  - cbn [take]. change (i0 :: i1 :: take k rest) with ([i0; i1] ++ take k rest).
    rewrite irq_run_app, (rx_header_run cfg rx i0 i1 Hlen Hr0 Hr1).
    rewrite decide_True by (rewrite Hf0, Hf1; exact Hok).
    rewrite (rx_store_run cfg (take k rest) _ 2
               (1 + Z.to_nat (fifo i0) + COMM_TAILSIZE));
      [ | reflexivity | discriminate | reflexivity | reflexivity
        | rewrite length_take, Hf0; sizes; lia
        | unfold rx_header_taken; simp_setters; cbn [length];
          rewrite length_drop; cbn [RXInit comm]; simp_setters;
          rewrite Hlen, Hf0; unfold is_u8 in Hl; sizes; lia
        | apply Forall_take, Hr ].
    eexists. split; [reflexivity|]. right. reflexivity.
Qed.

(** Decoding an encoded payload, with the counters. *)
Lemma decode_encoded_counts cfg tx rx payload ins :
  wf tx -> length (RecvBuff (comm rx)) = sizeof_packet_t ->
  Forall is_u8 payload -> (1 <= length payload <= 255)%nat ->
  Forall no_rgur ins ->
  fifo <$> ins
    = packet_bytes (TXInit (Z.of_nat (length payload)) (TXFill payload tx)) ->
  exists rx' tail,
    irq_run cfg ins (RXInit rx) = Ok rx' /\
    Mode_ (comm rx') = MX /\
    RecvBuff (comm rx')
      = Z.of_nat (length payload)
          :: Type_set_Control (Z.lnot (Z.of_nat (length payload)))
               (SendBuff (comm tx) !!! (SynchSize + off_Type)%nat)
          :: payload ++ tail /\
    counters (comm rx')
      = (PacketsTX (comm rx), to_u32 (PacketsRX (comm rx) + 1),
         CtrErr (comm rx), CRCErr (comm rx)) /\
    irq_on (rf rx') = false /\ CurMode (rf rx') = DEF /\
    (forall k, (k < length ins)%nat ->
       exists r, irq_run cfg (take k ins) (RXInit rx) = Ok r
                 /\ (Mode_ (comm r) = Mr \/ Mode_ (comm r) = MR)).
Proof.
  intros Htx Hrx Hp Hn Hr Hf.
  destruct (packet_of_payload tx payload Htx Hp ltac:(lia))
    as (Hpkt & Hl & Hctl & Hcrc & Hnib).
  cbv zeta in Hpkt. rewrite Hpkt in Hf.
  set (l := Z.of_nat (length payload)) in *.
  set (ctl := Type_set_Control (Z.lnot l) _) in *.
  set (crc := crc_fold CRCInit (l :: ctl :: payload)) in *.
  assert (Hok : header_ok l ctl).
  { split; [exact Hnib | subst l; lia]. }
  assert (Hb : length payload = Z.to_nat l) by (subst l; lia).
  destruct (rx_packet cfg rx l ctl payload (lo8 crc) (hi8 crc) ins
              Hrx Hl Hok Hb Hr Hf) as [st Hrun].
  cbv zeta in Hrun.
  assert (Hres : CRC (rx_taken rx l ctl payload (lo8 crc) (hi8 crc) st) = 0).
  { unfold rx_taken. simp_setters.
    change (l :: ctl :: payload ++ [lo8 crc; hi8 crc])
      with ((l :: ctl :: payload) ++ [lo8 crc; hi8 crc]).
    rewrite crc_fold_app. fold crc. apply crc_residue_zero, Hcrc. }
  rewrite decide_True in Hrun by exact Hres.
  set (c := rx_taken rx l ctl payload (lo8 crc) (hi8 crc) st) in *.
  exists (mkSys (set_Mode MX (set_PacketsRX (to_u32 (PacketsRX c + 1)) c))
                (RF_IRQ_OFF (RF.Mode DEF (rf (RXInit rx))))).
  exists (lo8 crc :: hi8 crc
            :: drop (Z.to_nat l + 4) (RecvBuff (comm (RXInit rx)))).
  split; [exact Hrun|]. split; [reflexivity|]. split; [reflexivity|].
  split; [reflexivity|]. split; [reflexivity|]. split; [reflexivity|].
  intros k Hk.
  apply (rx_frame_prefix cfg rx l ctl payload (lo8 crc) (hi8 crc) ins k);
    assumption.
Qed.

(** ** The receiver reports checked packets only *)

(** X2: receiver soundness.  From RXInit on, whatever bytes and status
    words arrive and however often the reception is restarted, the handler
    does not fault, and if it ends in MX the interrupt is off and the
    receive buffer starts with a packet that passes every check: a length
    byte in 1..255, a control nibble equal to the complemented length
    nibble, and a zero CRC residue over length byte, control byte, that many
    body bytes and the two trailer bytes.  RXGetPacket then hands out that
    length.  The frame counter has gone up by one if MX was reached and has
    not moved otherwise; with RX retry the mode is never MI. *)
Theorem rx_reports_checked_packets cfg rx ins :
  length (RecvBuff (comm rx)) = sizeof_packet_t -> Forall irq_u8 ins ->
  exists r,
    irq_run cfg ins (RXInit rx) = Ok r
    /\ (Mode_ (comm r) = MX ->
        irq_on (rf r) = false
        /\ packet_valid (RecvBuff (comm r))
        /\ PacketsRX (comm r) = to_u32 (PacketsRX (comm rx) + 1)
        /\ exists len, RXGetPacket r = (Some (RXGetBuff r), len, r)
                       /\ 1 <= len <= 255)
    /\ (Mode_ (comm r) <> MX -> PacketsRX (comm r) = PacketsRX (comm rx))
    /\ (COMM_RXRETRY cfg = true -> Mode_ (comm r) <> MI).
Proof.
  intros Hlen Hu.
  destruct (rx_track_run cfg ins (RXInit rx) (rx_track_RXInit rx Hlen)
              ltac:(discriminate) Hu) as (r & Hrun & Ht & HnI & HX & HnX).
  exists r. split; [exact Hrun|]. split; [|split; [exact HnX|]].
  - intros Hm. pose proof Ht as [_ Hmx]. cbv zeta in Hmx. rewrite Hm in Hmx.
    destruct Hmx as [Hoff Hv]. split; [exact Hoff|]. split; [exact Hv|].
    split; [apply HX, Hm|].
    exists (RecvBuff (comm r) !!! off_Length).
    split; [apply RXGetPacket_ready, Hm | apply Hv].
  - intros Hcfg. apply HnI; [exact Hcfg | discriminate].
Qed.

Lemma rx_reports_checked_packets_witness :
  exists r,
    irq_run default_config (rx_irq <$> [5; 0x0A] ++ hello ++ [0x79; 0x31])
      (RXInit booted) = Ok r
    /\ (Mode_ (comm r) = MX ->
        irq_on (rf r) = false
        /\ packet_valid (RecvBuff (comm r))
        /\ PacketsRX (comm r) = to_u32 (PacketsRX (comm booted) + 1)
        /\ exists len, RXGetPacket r = (Some (RXGetBuff r), len, r)
                       /\ 1 <= len <= 255)
    /\ (Mode_ (comm r) <> MX -> PacketsRX (comm r) = PacketsRX (comm booted))
    /\ (COMM_RXRETRY default_config = true -> Mode_ (comm r) <> MI).
Proof.
  apply (rx_reports_checked_packets default_config booted);
    [reflexivity | by_compute].
Defined.

(** ** RXWait with RX retry *)

(** X3: with RX retry, RXInit followed by RXWait either keeps waiting or
    returns with a frame ready: it never faults and never returns in MI, so
    the RXGetPacket that follows it never returns NULL, and the length it
    reports is in 1..255, that of a packet that has passed the header and
    CRC checks. *)
Theorem RXWait_returns_frame cfg rx ins :
  COMM_RXRETRY cfg = true ->
  length (RecvBuff (comm rx)) = sizeof_packet_t -> Forall irq_u8 ins ->
  exists res,
    RXWait cfg ins (RXInit rx) = Ok res
    /\ forall r rest, res = Some (r, rest) ->
         Mode_ (comm r) = MX
         /\ packet_valid (RecvBuff (comm r))
         /\ (exists len, RXGetPacket r = (Some (RXGetBuff r), len, r)
                         /\ 1 <= len <= 255)
         /\ PacketsRX (comm r) = to_u32 (PacketsRX (comm rx) + 1)
         /\ exists k, (k <= length ins)%nat /\ rest = drop k ins.
Proof.
  intros Hcfg Hlen Hu.
  assert (Hpre : forall k, exists r,
            irq_run cfg (take k ins) (RXInit rx) = Ok r /\ rx_track r
            /\ Mode_ (comm r) <> MI
            /\ (Mode_ (comm r) = MX ->
                PacketsRX (comm r) = to_u32 (PacketsRX (comm rx) + 1))).
  { intros k.
    destruct (rx_track_run cfg (take k ins) (RXInit rx) (rx_track_RXInit rx Hlen)
                ltac:(discriminate) (Forall_take _ k _ Hu))
      as (r & Hrun & Ht & HnI & HX & _).
    exists r. split; [exact Hrun|]. split; [exact Ht|].
    split; [apply HnI; [exact Hcfg | discriminate] | exact HX]. }
  pose proof (RXWait_run cfg ins (RXInit rx)) as Hw.
  destruct (RXWait cfg ins (RXInit rx)) as [[[r rest]|]|f].
  - destruct Hw as (k & Hk & Hrun & Hrest & Hready).
    eexists. split; [reflexivity|]. intros r' rest' [= <- <-].
    destruct (Hpre k) as (r2 & Hrun2 & Ht & HnI & HX).
    rewrite Hrun in Hrun2. injection Hrun2 as <-.
    apply RXReady_true in Hready as [HI|Hm]; [contradiction|].
    pose proof Ht as [_ Hmx]. cbv zeta in Hmx. rewrite Hm in Hmx.
    destruct Hmx as [_ Hv].
    split; [exact Hm|]. split; [exact Hv|]. split; [|split; [apply HX, Hm|]].
    + exists (RecvBuff (comm r) !!! off_Length).
      split; [apply RXGetPacket_ready, Hm | apply Hv].
    + exists k. split; assumption.
  - eexists. split; [reflexivity|]. intros r rest H. discriminate H.
  - destruct Hw as (k & Hrun). destruct (Hpre k) as (r2 & Hrun2 & _).
    rewrite Hrun in Hrun2. discriminate Hrun2.
Qed.

Lemma RXWait_returns_frame_witness :
  let ins := rx_irq <$> [5; 0x0C; 5; 0x0A] ++ hello ++ [0x79; 0x31; 0x11] in
  exists res,
    RXWait default_config ins (RXInit booted) = Ok res
    /\ forall r rest, res = Some (r, rest) ->
         Mode_ (comm r) = MX
         /\ packet_valid (RecvBuff (comm r))
         /\ (exists len, RXGetPacket r = (Some (RXGetBuff r), len, r)
                         /\ 1 <= len <= 255)
         /\ PacketsRX (comm r) = to_u32 (PacketsRX (comm booted) + 1)
         /\ exists k, (k <= length ins)%nat /\ rest = drop k ins.
Proof.
  apply (RXWait_returns_frame default_config booted);
    [reflexivity | reflexivity | by_compute].
Defined.

(** ** The receive example of the module *)

(** X4: the receive example of the file header (RXInit, RXWait,
    RXGetPacket) against a frame built by TXFill and TXInit for a payload of
    1..255 bytes: RXWait returns exactly when the last byte of the frame has
    been taken, leaving the events that follow undelivered; RXGetPacket then
    returns the sender's length and a buffer that starts with the sender's
    payload, and the frame counter has gone up by one, the error counters
    not at all. *)
Theorem rx_example cfg tx rx payload ins more :
  wf tx -> length (RecvBuff (comm rx)) = sizeof_packet_t ->
  Forall is_u8 payload -> (1 <= length payload <= 255)%nat ->
  Forall no_rgur ins ->
  fifo <$> ins
    = packet_bytes (TXInit (Z.of_nat (length payload)) (TXFill payload tx)) ->
  exists rx' mesg,
    RXWait cfg (ins ++ more) (RXInit rx) = Ok (Some (rx', more))
    /\ RXGetPacket rx' = (Some mesg, Z.of_nat (length payload), rx')
    /\ take (length payload) mesg = payload
    /\ counters (comm rx')
       = (PacketsTX (comm rx), to_u32 (PacketsRX (comm rx) + 1),
          CtrErr (comm rx), CRCErr (comm rx)).
Proof.
  intros Htx Hrx Hp Hn Hr Hf.
  destruct (decode_encoded_counts cfg tx rx payload ins Htx Hrx Hp Hn Hr Hf)
    as (rx' & tail & Hrun & Hm & Hbuf & Hcnt & _ & _ & Hpre).
  exists rx', (payload ++ tail).
  split; [|split; [|split; [apply take_app_length | exact Hcnt]]].
  - rewrite <- (drop_app_length ins more) at 2.
    apply RXWait_first_ready.
    + rewrite length_app. lia.
    + intros j Hj. rewrite take_app_le by lia.
      destruct (Hpre j Hj) as (r & Hrunj & Hmode). exists r.
      split; [exact Hrunj|]. apply RXReady_false.
      destruct Hmode as [->| ->]; split; discriminate.
    + rewrite take_app_length. exact Hrun.
    + apply RXReady_true. right. exact Hm.
  - rewrite (RXGetPacket_ready rx' Hm), Hbuf. reflexivity.
Qed.

Lemma rx_example_witness :
  let tx' := TXInit 5 (TXFill hello booted) in
  exists rx' mesg,
    RXWait default_config ((rx_irq <$> packet_bytes tx') ++ [rx_irq 0x77])
      (RXInit booted) = Ok (Some (rx', [rx_irq 0x77]))
    /\ RXGetPacket rx' = (Some mesg, 5, rx')
    /\ take 5 mesg = hello
    /\ counters (comm rx')
       = (PacketsTX (comm booted), to_u32 (PacketsRX (comm booted) + 1),
          CtrErr (comm booted), CRCErr (comm booted)).
Proof.
  apply (rx_example default_config booted booted hello);
    [ by_compute | reflexivity | by_compute | cbn; lia | by_compute
    | rewrite <- list_fmap_compose; vm_compute; reflexivity ].
Defined.

(** ** The transmit path, whatever the events *)

(** What is appended to the command log when a byte inside the send buffer
    is handed to the transmitter. *)
Lemma transmit_at_inside i raw h :
  (i < length raw)%nat ->
  exists w, transmit_at i raw h = VSendCommand w h.
Proof.
  intros Hi. unfold transmit_at.
  destruct (lookup_lt_is_Some_2 raw i Hi) as [b Hb]. rewrite Hb.
  exists (RF12.TXWR_CMD b). reflexivity.
Qed.

Lemma transmit_at_outside i raw h :
  (length raw <= i)%nat ->
  transmit_at i raw h = mkHw (CurMode h) (irq_on h) (spi h ++ [TxOutside i]).
Proof.
  intros Hi. unfold transmit_at. rewrite lookup_ge_None_2 by exact Hi. reflexivity.
Qed.

(** One invocation of the handler during a transmission. *)
Lemma ISR_tx_cases cfg i s cur e :
  Mode_ (comm s) = MT -> SendCur (comm s) = Some cur -> SendEnd (comm s) = Some e ->
  exists s',
    ISR cfg i s = Ok s'
    /\ (SendBuff (comm s') = SendBuff (comm s)
        /\ RecvBuff (comm s') = RecvBuff (comm s))
    /\ ((Mode_ (comm s') = MT /\ SendEnd (comm s') = Some e
         /\ PacketsTX (comm s') = PacketsTX (comm s)
         /\ ((no_rgur i /\ cur <> e /\ SendCur (comm s') = Some (S cur)
              /\ rf s' = transmit_at cur (SendBuff (comm s)) (rf s))
             \/ (~ no_rgur i /\ COMM_TXRETRY cfg = true
                 /\ SendCur (comm s') = Some 1%nat
                 /\ rf s' = transmit_at 0 (SendBuff (comm s)) (rf s))))
        \/ (no_rgur i /\ cur = e /\ Mode_ (comm s') = Mt
            /\ PacketsTX (comm s') = to_u32 (PacketsTX (comm s) + 1)
            /\ SendEnd (comm s') = Some e
            /\ rf s' = RF_IRQ_OFF (rf s))
        \/ (~ no_rgur i /\ COMM_TXRETRY cfg = false /\ Mode_ (comm s') = MI
            /\ PacketsTX (comm s') = PacketsTX (comm s)
            /\ SendCur (comm s') = None /\ SendEnd (comm s') = None
            /\ rf s' = RF_IRQ_OFF (RF.Mode DEF (rf s)))).
Proof.
  intros Hm Hc He.
  destruct (decide (no_rgur i)) as [Hr|Hr].
  - destruct (decide (cur = e)) as [->|Hne].
    + rewrite (ISR_tx_done cfg i s Hr Hm) by (rewrite Hc, He; reflexivity).
      eexists. split; [reflexivity|]. simp_setters. split; [split; reflexivity|].
      right. left. repeat split; assumption.
    + rewrite (ISR_tx_send cfg i s cur Hr Hm Hc) by (rewrite He; congruence).
      eexists. split; [reflexivity|]. simp_setters. split; [split; reflexivity|].
      left. split; [exact Hm|]. split; [exact He|]. split; [reflexivity|].
      left. repeat split; assumption.
  - pose proof (ISR_tx_rgur cfg i s Hr Hm) as HI. cbv zeta in HI. rewrite HI.
    eexists. split; [reflexivity|].
    destruct (COMM_TXRETRY cfg); simp_setters; (split; [split; reflexivity|]).
    + left. split; [exact Hm|]. split; [exact He|]. split; [reflexivity|].
      right. repeat split. exact Hr.
    + right. right. repeat split. exact Hr.
Qed.

Lemma tx_run_outcome cfg ins : forall s,
  tx_inv s -> irq_on (rf s) = true ->
  exists r, irq_run cfg ins s = Ok r /\ tx_outcome cfg s r.
Proof.
  induction ins as [|i ins IH]; intros s Hinv Hon.
  - exists s. split; [reflexivity|]. split; [split; reflexivity|]. split.
    + left. destruct Hinv as [Hm Hcur]. repeat split; try assumption.
    + intros e _ _. exists []. cbn. rewrite app_nil_r. reflexivity.
  - pose proof Hinv as (Hm & cur & e & Hc & He & Hle & Hmax).
    destruct (ISR_tx_cases cfg i s cur e Hm Hc He)
      as (s' & HI & [Hsb Hrb] & Hcase).
    cbn [irq_run]. rewrite Hon, HI.
    destruct Hcase as [(Hm' & He' & Hp' & Hsub)|[Hdone|Hgave]].
    + assert (Hrf : exists j, (j < e)%nat /\ rf s' = transmit_at j (SendBuff (comm s)) (rf s)
                              /\ exists cur', SendCur (comm s') = Some cur' /\ (1 <= cur' <= e)%nat).
      { destruct Hsub as [(_ & Hne & Hc' & Hrf)|(_ & _ & Hc' & Hrf)].
        - exists cur. split; [lia|]. split; [exact Hrf|]. exists (S cur). split; [exact Hc'|lia].
        - exists 0%nat. split; [lia|]. split; [exact Hrf|]. exists 1%nat. split; [exact Hc'|lia]. }
      destruct Hrf as (j & Hj & Hrf & cur' & Hc' & Hle').
      assert (Hon' : irq_on (rf s') = true) by (rewrite Hrf, transmit_at_irq_on; exact Hon).
      assert (Hinv' : tx_inv s').
      { split; [exact Hm'|]. exists cur', e. repeat split; try assumption; lia. }
      destruct (IH s' Hinv' Hon') as (r & Hrun & [Hsbr Hrbr] & Hout & Hlog).
      exists r. split; [exact Hrun|].
      split; [split; [rewrite Hsbr; exact Hsb | rewrite Hrbr; exact Hrb]|]. split.
      * rewrite He' in Hout. rewrite Hp' in Hout. rewrite He.
        assert (Hcm : CurMode (rf s') = CurMode (rf s))
          by (rewrite Hrf; apply transmit_at_CurMode).
        rewrite Hcm in Hout.
        destruct Hout as [H1|[H1|H1]]; [left|right; left|right; right]; exact H1.
      * intros e0 He0 Hlen0. rewrite He in He0. injection He0 as <-.
        destruct (Hlog e He' ltac:(rewrite Hsb; exact Hlen0)) as (ws & Hws).
        destruct (transmit_at_inside j (SendBuff (comm s)) (rf s) ltac:(lia))
          as (w & Hw).
        exists (w :: ws). rewrite Hws, Hrf, Hw. cbn [fmap list_fmap].
        rewrite spi_VSendCommand, <- app_assoc. reflexivity.
    + destruct Hdone as (_ & _ & Hm' & Hp' & He' & Hrf).
      rewrite (irq_run_masked cfg ins s') by (rewrite Hrf; reflexivity).
      exists s'. split; [reflexivity|]. split; [split; assumption|]. split.
      * right. left. rewrite Hrf, He, He'. repeat split; assumption.
      * intros e0 _ _. exists []. rewrite Hrf. cbn. rewrite app_nil_r. reflexivity.
    + destruct Hgave as (_ & Hcfg & Hm' & Hp' & Hc' & He' & Hrf).
      rewrite (irq_run_masked cfg ins s') by (rewrite Hrf; reflexivity).
      exists s'. split; [reflexivity|]. split; [split; assumption|]. split.
      * right. right. rewrite Hrf. repeat split; assumption.
      * intros e0 _ _. exists [RF12.PM_DEF]. rewrite Hrf. reflexivity.
Qed.

Lemma TXInit_tx_inv l s : tx_inv (TXInit l s).
Proof.
  destruct (TXInit_fields l s) as (Hm & Hc & He & _).
  split; [exact Hm|]. eexists _, _. split; [exact Hc|]. split; [exact He|].
  pose proof (to_len_t_u8 l) as HL. unfold is_u8 in HL.
  unfold max_SendEnd. sizes. lia.
Qed.

Lemma TXWait_done cfg ins s :
  Mode_ (comm s) <> MT -> TXWait cfg ins s = Ok (Some (s, ins)).
Proof.
  intros H. destruct ins; cbn [TXWait]; rewrite decide_False by exact H;
    reflexivity.
Qed.

Lemma TXWait_cons cfg i ins s :
  Mode_ (comm s) = MT ->
  TXWait cfg (i :: ins) s
  = match deliver cfg i s with
    | Ok s' => TXWait cfg ins s'
    | Fault f => Fault f
    end.
Proof. intros H. cbn [TXWait]. rewrite decide_True by exact H. reflexivity. Qed.

Lemma TXWait_nil cfg s : Mode_ (comm s) = MT -> TXWait cfg [] s = Ok None.
Proof. intros H. cbn [TXWait]. rewrite decide_True by exact H. reflexivity. Qed.

(** [TXWait] returns the state of the first prefix of the events after
    which the mode is not MT. *)
Lemma TXWait_first_done cfg n : forall ins s r,
  (n <= length ins)%nat ->
  (forall j, (j < n)%nat ->
     exists r', irq_run cfg (take j ins) s = Ok r' /\ Mode_ (comm r') = MT) ->
  irq_run cfg (take n ins) s = Ok r -> Mode_ (comm r) <> MT ->
  TXWait cfg ins s = Ok (Some (r, drop n ins)).
Proof.
  induction n as [|n IH]; intros ins s r Hn Hpre Hrun Hdone.
  - rewrite take_0 in Hrun. cbn in Hrun. injection Hrun as <-.
    rewrite drop_0. apply TXWait_done, Hdone.
  - destruct ins as [|i ins]; [cbn in Hn; lia|]. cbn [length] in Hn.
    destruct (Hpre 0%nat ltac:(lia)) as (r0 & H0 & Hr0).
    rewrite take_0 in H0. cbn in H0. injection H0 as <-.
    rewrite (TXWait_cons cfg i ins s Hr0). cbn [take drop] in *.
    rewrite irq_run_cons in Hrun.
    destruct (deliver cfg i s) as [s1|f] eqn:Hd; [|discriminate Hrun].
    apply IH; [lia | | exact Hrun | exact Hdone].
    intros j Hj. destruct (Hpre (S j) ltac:(lia)) as (r' & H' & Hr').
    cbn [take] in H'. rewrite irq_run_cons, Hd in H'. exists r'. split; assumption.
Qed.

(** While every prefix of the events leaves the mode MT, [TXWait] spins. *)
Lemma TXWait_spins cfg ins : forall s,
  (forall j, (j <= length ins)%nat ->
     exists r', irq_run cfg (take j ins) s = Ok r' /\ Mode_ (comm r') = MT) ->
  TXWait cfg ins s = Ok None.
Proof.
  induction ins as [|i ins IH]; intros s Hpre;
    destruct (Hpre 0%nat ltac:(lia)) as (r0 & H0 & Hr0);
    rewrite take_0 in H0; cbn in H0; injection H0 as <-.
  - apply TXWait_nil, Hr0.
  - rewrite (TXWait_cons cfg i ins s Hr0).
    destruct (Hpre 1%nat ltac:(cbn; lia)) as (r1 & H1 & _).
    cbn [take] in H1. rewrite take_0, irq_run_cons in H1.
    destruct (deliver cfg i s) as [s1|f] eqn:Hd; [|discriminate H1].
    apply IH. intros j Hj.
    destruct (Hpre (S j) ltac:(cbn; lia)) as (r' & H' & Hr').
    cbn [take] in H'. rewrite irq_run_cons, Hd in H'. exists r'. split; assumption.
Qed.

(** Whatever [TXWait] returns is the state after a prefix of the events. *)
Lemma TXWait_run cfg ins : forall s,
  match TXWait cfg ins s with
  | Ok (Some (r, rest)) =>
      exists k, (k <= length ins)%nat /\ irq_run cfg (take k ins) s = Ok r
                /\ rest = drop k ins /\ Mode_ (comm r) <> MT
  | Ok None => exists r, irq_run cfg ins s = Ok r /\ Mode_ (comm r) = MT
  | Fault f => exists k, irq_run cfg (take k ins) s = Fault f
  end.
Proof.
  induction ins as [|i ins IH]; intros s.
  - destruct (decide (Mode_ (comm s) = MT)) as [Hm|Hm].
    + rewrite (TXWait_nil _ _ Hm). exists s. split; [reflexivity | exact Hm].
    + rewrite (TXWait_done _ _ _ Hm). exists 0%nat.
      split; [lia|]. split; [reflexivity|]. split; [reflexivity | exact Hm].
  - destruct (decide (Mode_ (comm s) = MT)) as [Hm|Hm].
    + rewrite (TXWait_cons _ _ _ _ Hm).
      destruct (deliver cfg i s) as [s1|f] eqn:Hd.
      * specialize (IH s1). destruct (TXWait cfg ins s1) as [[[r rest]|]|f].
        -- destruct IH as (k & Hk & Hrun & Hrest & Hdone). exists (S k).
           cbn [take drop length]. rewrite irq_run_cons, Hd.
           split; [lia|]. split; [exact Hrun|]. split; assumption.
        -- destruct IH as (r & Hrun & Hmt). exists r.
           rewrite irq_run_cons, Hd. split; assumption.
        -- destruct IH as (k & Hrun). exists (S k). cbn [take].
           rewrite irq_run_cons, Hd. exact Hrun.
      * exists 1%nat. cbn [take]. rewrite take_0, irq_run_cons, Hd. reflexivity.
    + rewrite (TXWait_done _ _ _ Hm). exists 0%nat.
      split; [lia|]. split; [reflexivity|]. split; [reflexivity | exact Hm].
Qed.

(** ** How TXWait returns *)

(** X5: TXInit followed by TXWait, whatever the events (underruns
    included) and whatever the state TXInit was called in: the handler does
    not fault; TXWait either keeps waiting or returns with the interrupt off
    and the frame buffer as TXInit left it.  It returns in Mt, with TXReady
    true, the TX counter up by exactly one and the transceiver still in TX
    mode, or, only when TX retry is compiled out, in MI after an underrun,
    with the TX counter unchanged, both send cursors NULL and the
    transceiver in its default mode. *)
Theorem TXWait_outcome cfg l s ins :
  exists res,
    TXWait cfg ins (TXInit l s) = Ok res
    /\ forall r rest, res = Some (r, rest) ->
         SendBuff (comm r) = SendBuff (comm (TXInit l s))
         /\ irq_on (rf r) = false
         /\ ((Mode_ (comm r) = Mt /\ TXReady r = true
              /\ PacketsTX (comm r) = to_u32 (PacketsTX (comm s) + 1)
              /\ CurMode (rf r) = TX)
             \/ (COMM_TXRETRY cfg = false /\ Mode_ (comm r) = MI
                 /\ TXReady r = false
                 /\ PacketsTX (comm r) = PacketsTX (comm s)
                 /\ SendCur (comm r) = None /\ SendEnd (comm r) = None
                 /\ CurMode (rf r) = DEF)).
Proof.
  assert (Hpre : forall k, exists r,
            irq_run cfg (take k ins) (TXInit l s) = Ok r
            /\ tx_outcome cfg (TXInit l s) r).
  { intros k. apply tx_run_outcome; [apply TXInit_tx_inv | apply TXInit_irq_on]. }
  assert (Hp0 : PacketsTX (comm (TXInit l s)) = PacketsTX (comm s)).
  { destruct (TXInit_fields l s) as (_ & _ & _ & _ & _ & _ & _ & Hcnt).
    unfold counters in Hcnt. injection Hcnt as H _ _ _. exact H. }
  pose proof (TXWait_run cfg ins (TXInit l s)) as Hw.
  destruct (TXWait cfg ins (TXInit l s)) as [[[r rest]|]|f].
  - destruct Hw as (k & Hk & Hrun & Hrest & Hdone).
    eexists. split; [reflexivity|]. intros r' rest' [= <- <-].
    destruct (Hpre k) as (r2 & Hrun2 & [Hsb _] & Hout & _).
    rewrite Hrun in Hrun2. injection Hrun2 as <-.
    split; [exact Hsb|].
    destruct Hout as [(Hm & _)|[(Hm & Hoff & Hp & _ & Hcm)
                     |(Hcfg & Hm & Hoff & Hp & Hc & He & Hcm)]];
      [contradiction| |]; (split; [exact Hoff|]).
    + left. split; [exact Hm|]. split; [unfold TXReady; rewrite Hm; reflexivity|].
      split; [rewrite Hp, Hp0; reflexivity|].
      rewrite Hcm. apply TXInit_CurMode.
    + right. split; [exact Hcfg|]. split; [exact Hm|].
      split; [unfold TXReady; rewrite Hm; reflexivity|].
      split; [rewrite Hp, Hp0; reflexivity|]. repeat split; assumption.
  - eexists. split; [reflexivity|]. intros r rest H. discriminate H.
  - destruct Hw as (k & Hrun). destruct (Hpre k) as (r2 & Hrun2 & _).
    rewrite Hrun in Hrun2. discriminate Hrun2.
Qed.

(** ** What is read from the send buffer *)

Lemma TXInit_spi l s :
  length (SendBuff (comm s)) = sizeof_frame_t ->
  exists ws, spi (rf (TXInit l s)) = spi (rf s) ++ (Cmd <$> ws).
Proof.
  intros Hlen. destruct (SendBuff (comm s)) as [|b0 rest] eqn:Hraw;
    [cbn in Hlen; sizes; lia|].
  rewrite (TXInit_rf l s b0 rest Hraw).
  change (spi (RF_IRQ_ON ?h)) with (spi h). unfold Transmit.
  rewrite !spi_VSendCommand.
  destruct (decide (CurMode (rf s) <> TX)).
  - exists [RF12.PM_TX; RF12.TXWR_CMD b0; 0].
    change (spi (RF.Mode TX (RF_IRQ_OFF (rf s))))
      with (spi (rf s) ++ [Cmd RF12.PM_TX]).
    rewrite <- !app_assoc. reflexivity.
  - exists [RF12.TXWR_CMD b0; 0].
    change (spi (RF_IRQ_OFF (rf s))) with (spi (rf s)).
    rewrite <- !app_assoc. reflexivity.
Qed.

Lemma transmitted_Cmds ws :
  exists bytes, transmitted (Cmd <$> ws) = Some <$> bytes.
Proof.
  induction ws as [|w ws [bytes IH]]; [exists []; reflexivity|].
  cbn [fmap list_fmap]. unfold transmitted in *. cbn [omap list_omap tx_event].
  case_decide.
  - exists (Z.land w 255 :: bytes). cbn [fmap list_fmap]. f_equal. exact IH.
  - exists bytes. exact IH.
Qed.

(** X6: a transmission of at most 254 bytes reads the frame buffer inside
    its bounds only.  From TXInit on, whatever events arrive (underruns
    and retries included), every byte the handler hands to the transmitter
    comes from inside SendBuff.Raw: nothing but proper command words is
    added to what has been sent to the transceiver. *)
Theorem tx_reads_inside cfg l s ins :
  length (SendBuff (comm s)) = sizeof_frame_t ->
  to_len_t l <= 254 ->
  exists r ws bytes,
    irq_run cfg ins (TXInit l s) = Ok r
    /\ spi (rf r) = spi (rf s) ++ (Cmd <$> ws)
    /\ transmitted (spi (rf r)) = transmitted (spi (rf s)) ++ (Some <$> bytes).
Proof.
  intros Hlen Hl.
  destruct (tx_run_outcome cfg ins (TXInit l s) (TXInit_tx_inv l s)
              (TXInit_irq_on l s)) as (r & Hrun & _ & _ & Hlog).
  destruct (TXInit_fields l s) as (_ & _ & He & Hsl & _).
  destruct (Hlog _ He) as (ws & Hws).
  { pose proof (to_len_t_u8 l) as HL. unfold is_u8 in HL.
    rewrite Hsl, Hlen. sizes. lia. }
  destruct (TXInit_spi l s Hlen) as (ws0 & Hws0).
  destruct (transmitted_Cmds (ws0 ++ ws)) as (bytes & Hbytes).
  exists r, (ws0 ++ ws), bytes. split; [exact Hrun|].
  assert (Hspi : spi (rf r) = spi (rf s) ++ (Cmd <$> ws0 ++ ws))
    by (rewrite Hws, Hws0, fmap_app, app_assoc; reflexivity).
  split; [exact Hspi|].
  rewrite Hspi, transmitted_app, Hbytes. reflexivity.
Qed.

Lemma tx_reads_inside_witness :
  exists r ws bytes,
    irq_run default_config
      (replicate 7 tx_irq ++ rgur_irq :: replicate 40 tx_irq)
      (TXInit 254 booted) = Ok r
    /\ spi (rf r) = spi (rf booted) ++ (Cmd <$> ws)
    /\ transmitted (spi (rf r))
       = transmitted (spi (rf booted)) ++ (Some <$> bytes).
Proof.
  apply (tx_reads_inside default_config 254 booted); [reflexivity|].
  vm_compute. discriminate.
Defined.

(** A whole transmission without underrun: the run ends in Mt after
    [Length + 10] interrupts, not before, and the bytes handed to the
    transmitter are those at offsets 0 .. [Length + 9] of the frame buffer. *)
Lemma TXInit_run_stream cfg l s ins :
  wf s -> Forall no_rgur ins ->
  length ins = (Z.to_nat (to_len_t l) + 10)%nat ->
  let s1 := TXInit l s in
  (forall k, (k < length ins)%nat ->
     exists r, irq_run cfg (take k ins) s1 = Ok r /\ Mode_ (comm r) = MT)
  /\ exists s2,
       irq_run cfg ins s1 = Ok s2 /\ Mode_ (comm s2) = Mt
       /\ irq_on (rf s2) = false /\ CurMode (rf s2) = TX
       /\ SendBuff (comm s2) = SendBuff (comm s1)
       /\ RecvBuff (comm s2) = RecvBuff (comm s)
       /\ PacketsTX (comm s2) = to_u32 (PacketsTX (comm s) + 1)
       /\ rf s2 = RF_IRQ_OFF (tx_from (SendBuff (comm s1)) 1
                                (Z.to_nat (to_len_t l) + 9) (rf s1))
       /\ transmitted (spi (rf s2))
          = transmitted (spi (rf s))
              ++ ((SendBuff (comm s1) !!.)
                    <$> seq 0 (Z.to_nat (to_len_t l) + 10)).
Proof.
  intros Hwf Hr Hlen. cbv zeta.
  pose proof (TXInit_comm l s Hwf) as Hc. cbv zeta in Hc.
  pose proof (wf_TXInit l s Hwf) as Hwf1.
  set (n := Z.to_nat (to_len_t l)) in *.
  destruct (tx_complete_run cfg ins (TXInit l s) 1 (n + 10))
    as [Hpre (sF & Hrun & HmF & HpF & HrfF)];
    [ apply TXInit_irq_on | rewrite Hc; reflexivity | rewrite Hc; reflexivity
    | rewrite Hc; reflexivity | lia | lia | exact Hr | ].
  split.
  - intros k Hk. destruct (Hpre k ltac:(lia)) as (r & H1 & H2 & _).
    exists r. split; assumption.
  - exists sF. split; [exact Hrun|]. split; [exact HmF|].
    replace (n + 10 - 1)%nat with (n + 9)%nat in HrfF by lia.
    split; [rewrite HrfF; reflexivity|].
    destruct (tx_run_outcome cfg ins (TXInit l s) (TXInit_tx_inv l s)
                (TXInit_irq_on l s)) as (r & Hrun' & [Hsb Hrb] & Hout & _).
    rewrite Hrun in Hrun'. injection Hrun' as <-.
    split.
    { destruct Hout as [(Hm & _)|[(_ & _ & _ & _ & Hcm)|(_ & Hm & _)]];
        [congruence | rewrite Hcm; apply TXInit_CurMode | congruence]. }
    split; [exact Hsb|].
    split; [rewrite Hrb, Hc; reflexivity|].
    split; [rewrite HpF, Hc; reflexivity|].
    split; [exact HrfF|].
    rewrite HrfF. change (spi (RF_IRQ_OFF ?h)) with (spi h).
    rewrite transmitted_tx_from by apply Hwf1.
    rewrite (transmitted_TXInit l s Hwf), <- app_assoc. f_equal.
    assert (H0 : SendBuff (comm s) !! 0%nat = SendBuff (comm (TXInit l s)) !! 0%nat).
    { destruct (TXInit_buffer l s Hwf) as (s0 & s1 & s2 & s3 & H4 & Hbuf & _).
      cbv zeta in Hbuf. rewrite Hbuf.
      destruct (SendBuff (comm s)) as [|b0 r0]; [discriminate H4|].
      cbn in H4. injection H4 as -> _. reflexivity. }
    rewrite H0. replace (n + 10)%nat with (S (n + 9)) by lia. reflexivity.
Qed.

(** The state a transmission without underrun ends in. *)
Lemma tx_complete_state cfg ins s cur e :
  irq_on (rf s) = true -> Mode_ (comm s) = MT ->
  SendCur (comm s) = Some cur -> SendEnd (comm s) = Some e ->
  (cur <= e)%nat -> length ins = (e - cur + 1)%nat -> Forall no_rgur ins ->
  exists st,
    irq_run cfg ins s
    = Ok (mkSys (set_PacketsTX (to_u32 (PacketsTX (comm s) + 1))
                   (set_Mode Mt
                      (set_Status st (set_SendCur (Some e) (comm s)))))
                (RF_IRQ_OFF (tx_from (SendBuff (comm s)) cur (e - cur) (rf s)))).
Proof.
  intros Hirq Hm Hc He Hle Hlen Hr.
  rewrite <- (take_drop (e - cur) ins), irq_run_app.
  rewrite (tx_send_run cfg (take (e - cur) ins) s cur e Hirq Hm Hc He);
    [ | rewrite length_take; lia | apply Forall_take, Hr ].
  rewrite length_take. replace ((e - cur) `min` length ins)%nat with (e - cur)%nat by lia.
  destruct (drop (e - cur) ins) as [|iT [|? ?]] eqn:Hd;
    try (apply (f_equal length) in Hd; rewrite length_drop in Hd;
         cbn [length] in Hd; lia).
  cbn [irq_run]. proj.
  assert (Hon : irq_on (tx_from (SendBuff (comm s)) cur (e - cur) (rf s)) = true).
  { unfold tx_from. generalize (seq cur (e - cur)). intros js.
    revert Hirq. generalize (rf s). induction js as [|j js IH]; intros h Hh;
      [exact Hh|]. cbn [foldl]. apply IH. rewrite transmit_at_irq_on. exact Hh. }
  rewrite Hon.
  assert (HrT : no_rgur iT).
  { apply (Forall_drop _ (e - cur)) in Hr. rewrite Hd in Hr.
    apply Forall_cons_1 in Hr as [Hr _]. exact Hr. }
  rewrite ISR_tx_done;
    [ | exact HrT | exact Hm | simp_setters; rewrite He; f_equal; lia ].
  eexists. destruct s as [[] h]. proj_in Hc. proj_in He. subst.
  unfold_setters. replace (cur + (e - cur))%nat with e by lia. reflexivity.
Qed.

Lemma tx_from_snoc raw cur n h :
  tx_from raw cur (S n) h = transmit_at (cur + n) raw (tx_from raw cur n h).
Proof. unfold tx_from. rewrite seq_S, foldl_app. reflexivity. Qed.

(** X7: a transmission of 255 bytes reads one byte past the frame buffer.
    With Length = 255 the end cursor is SendBuff.Raw + 265 while the buffer
    has 264 bytes: the last byte the handler hands to the transmitter before
    it reports completion is read at offset 264, the first byte after
    SendBuff.Raw. *)
Theorem tx_255_reads_past_buffer cfg l s ins :
  wf s -> to_len_t l = 255 -> Forall no_rgur ins -> length ins = 265%nat ->
  SendEnd (comm (TXInit l s)) = Some (sizeof_frame_t + 1)%nat
  /\ exists r,
       irq_run cfg ins (TXInit l s) = Ok r /\ Mode_ (comm r) = Mt
       /\ list.last (spi (rf r)) = Some (TxOutside sizeof_frame_t)
       /\ list.last (transmitted (spi (rf r))) = Some None.
Proof.
  intros Hwf Hl Hr Hlen.
  destruct (TXInit_fields l s) as (_ & _ & He & _). rewrite Hl in He.
  split; [exact He|].
  destruct (TXInit_run_stream cfg l s ins Hwf Hr) as [_ Hfin];
    [rewrite Hl; exact Hlen|].
  destruct Hfin as (r & Hrun & Hm & _ & _ & _ & _ & _ & Hrf & Htx).
  rewrite Hl in Hrf, Htx.
  exists r. split; [exact Hrun|]. split; [exact Hm|].
  pose proof (wf_TXInit l s Hwf) as (Hs1 & _).
  change (Z.to_nat 255 + 9)%nat with (S 263) in Hrf.
  rewrite tx_from_snoc in Hrf.
  rewrite transmit_at_outside in Hrf by (rewrite Hs1; sizes; lia).
  split.
  - rewrite Hrf. change (spi (RF_IRQ_OFF ?h)) with (spi h). proj.
    apply last_snoc.
  - rewrite Htx. change (Z.to_nat 255 + 10)%nat with (S 264).
    rewrite seq_S, fmap_app, app_assoc. cbn [fmap list_fmap Nat.add].
    rewrite last_snoc. f_equal. apply lookup_ge_None_2. rewrite Hs1. sizes. lia.
Qed.

Lemma tx_255_reads_past_buffer_witness :
  SendEnd (comm (TXInit 255 booted)) = Some (sizeof_frame_t + 1)%nat
  /\ exists r,
       irq_run default_config (replicate 265 tx_irq) (TXInit 255 booted) = Ok r
       /\ Mode_ (comm r) = Mt
       /\ list.last (spi (rf r)) = Some (TxOutside sizeof_frame_t)
       /\ list.last (transmitted (spi (rf r))) = Some None.
Proof.
  apply (tx_255_reads_past_buffer default_config 255 booted);
    [by_compute | reflexivity | by_compute | reflexivity].
Defined.

Lemma frame_len_TXInit l s :
  wf s -> frame_len (TXInit l s) = (Z.to_nat (to_len_t l) + 8)%nat.
Proof.
  intros Hwf.
  destruct (TXInit_buffer l s Hwf) as (s0 & s1 & s2 & s3 & _ & Hbuf & _).
  cbv zeta in Hbuf. unfold frame_len. rewrite Hbuf.
  change ((s0 :: s1 :: s2 :: s3 :: to_len_t l :: _) !!! (SynchSize + off_Length)%nat)
    with (to_len_t l). sizes. lia.
Qed.

(** The stream of a transmission: the frame and the two bytes after it. *)
Lemma tx_stream_split l s :
  wf s ->
  let s1 := TXInit l s in
  let n := Z.to_nat (to_len_t l) in
  (SendBuff (comm s1) !!.) <$> seq 0 (n + 10)
  = (Some <$> frame_bytes s1)
      ++ [SendBuff (comm s1) !! (n + 8)%nat; SendBuff (comm s1) !! (n + 9)%nat].
Proof.
  intros Hwf. cbv zeta. set (n := Z.to_nat (to_len_t l)).
  replace (n + 10)%nat with ((n + 8) + 2)%nat by lia.
  rewrite seq_app, fmap_app. f_equal.
  - unfold frame_bytes. rewrite (frame_len_TXInit l s Hwf). apply lookups_take.
    destruct (wf_TXInit l s Hwf) as (Hs1 & _). rewrite Hs1.
    pose proof (to_len_t_u8 l) as HL. unfold is_u8 in HL. subst n. sizes. lia.
  - cbn [seq fmap list_fmap Nat.add].
    replace (S (n + 8)) with (n + 9)%nat by lia. reflexivity.
Qed.

(** ** The transmit example of the module *)

(** X8: the transmit example of the file header (fill the buffer returned
    by TXGetBuff, TXInit, TXWait) for a payload of at most 255 bytes, with no
    underrun: TXWait is still waiting after fewer than Length + 10
    interrupts and returns at the interrupt number Length + 10, leaving the
    later events undelivered.  It returns in Mt with TXReady true, the
    interrupt off, the transceiver in TX mode and the TX counter up by one.
    What has been handed to the transmitter is the frame (its packet being
    the length, the control byte, the caller's payload and the CRC, low byte
    first) followed by exactly two more bytes, those at the two offsets
    after the frame in the send buffer. *)
Theorem tx_example cfg s payload ins more :
  wf s -> Forall is_u8 payload -> (length payload <= 255)%nat ->
  Forall no_rgur ins -> length ins = (length payload + 10)%nat ->
  let n := length payload in
  let s1 := TXInit (Z.of_nat n) (TXFill payload s) in
  let raw1 := SendBuff (comm s1) in
  let ctl := raw1 !!! (SynchSize + off_Type)%nat in
  let crc := crc_fold CRCInit (Z.of_nat n :: ctl :: payload) in
  (forall k, (k < n + 10)%nat -> TXWait cfg (take k ins) s1 = Ok None)
  /\ exists r,
       TXWait cfg (ins ++ more) s1 = Ok (Some (r, more))
       /\ Mode_ (comm r) = Mt /\ TXReady r = true
       /\ irq_on (rf r) = false /\ CurMode (rf r) = TX
       /\ PacketsTX (comm r) = to_u32 (PacketsTX (comm s) + 1)
       /\ packet_bytes s1 = Z.of_nat n :: ctl :: payload ++ [lo8 crc; hi8 crc]
       /\ transmitted (spi (rf r))
          = transmitted (spi (rf s)) ++ (Some <$> frame_bytes s1)
              ++ [raw1 !! (n + 8)%nat; raw1 !! (n + 9)%nat].
Proof.
  intros Hwf Hp Hn Hr Hlen. cbv zeta.
  assert (Hwf' : wf (TXFill payload s))
    by (apply wf_TXFill; [assumption..|sizes; lia]).
  assert (Hl : to_len_t (Z.of_nat (length payload)) = Z.of_nat (length payload)).
  { unfold to_len_t, to_u8. apply Z.mod_small. lia. }
  assert (Hnn : Z.to_nat (to_len_t (Z.of_nat (length payload))) = length payload)
    by (rewrite Hl; lia).
  destruct (TXInit_run_stream cfg (Z.of_nat (length payload)) (TXFill payload s)
              ins Hwf' Hr) as [Hpre Hfin]; [rewrite Hnn; exact Hlen|].
  cbv zeta in Hpre, Hfin.
  set (s1 := TXInit (Z.of_nat (length payload)) (TXFill payload s)) in *.
  split.
  - intros k Hk. apply TXWait_spins. intros j Hj.
    rewrite length_take in Hj. rewrite take_take.
    apply Hpre. lia.
  - destruct Hfin as (r & Hrun & Hm & Hoff & Hcm & _ & _ & Hptx & _ & Htx).
    exists r. split; [|split; [exact Hm|split; [unfold TXReady; rewrite Hm; reflexivity|]]].
    + rewrite <- (drop_app_length ins more) at 2.
      apply TXWait_first_done.
      * rewrite length_app. lia.
      * intros j Hj. rewrite take_app_le by lia. apply Hpre, Hj.
      * rewrite take_app_length. exact Hrun.
      * rewrite Hm. discriminate.
    + split; [exact Hoff|]. split; [exact Hcm|]. split; [exact Hptx|].
      destruct (packet_of_payload s payload Hwf Hp Hn) as (Hpkt & _).
      cbv zeta in Hpkt. fold s1 in Hpkt.
      assert (Hctl : SendBuff (comm s1) !!! (SynchSize + off_Type)%nat
                     = Type_set_Control (Z.lnot (Z.of_nat (length payload)))
                         (SendBuff (comm s) !!! (SynchSize + off_Type)%nat)).
      { subst s1. rewrite (TXInit_Type _ _ Hwf'), Hl. f_equal.
        unfold TXFill. simp_setters.
        rewrite !list_lookup_total_alt, list_lookup_inserts_lt by (sizes; lia).
        reflexivity. }
      rewrite Hctl. split; [exact Hpkt|].
      rewrite Htx, Hnn. f_equal.
      pose proof (tx_stream_split (Z.of_nat (length payload)) (TXFill payload s) Hwf')
        as Hsp.
      cbv zeta in Hsp. rewrite Hnn in Hsp. exact Hsp.
Qed.

Lemma tx_example_witness :
  let s1 := TXInit 5 (TXFill hello booted) in
  let raw1 := SendBuff (comm s1) in
  let ctl := raw1 !!! (SynchSize + off_Type)%nat in
  let crc := crc_fold CRCInit (5 :: ctl :: hello) in
  (forall k, (k < 5 + 10)%nat ->
     TXWait default_config (take k (replicate 15 tx_irq)) s1 = Ok None)
  /\ exists r,
       TXWait default_config (replicate 15 tx_irq ++ [rgur_irq]) s1
       = Ok (Some (r, [rgur_irq]))
       /\ Mode_ (comm r) = Mt /\ TXReady r = true
       /\ irq_on (rf r) = false /\ CurMode (rf r) = TX
       /\ PacketsTX (comm r) = to_u32 (PacketsTX (comm booted) + 1)
       /\ packet_bytes s1 = 5 :: ctl :: hello ++ [lo8 crc; hi8 crc]
       /\ transmitted (spi (rf r))
          = transmitted (spi (rf booted)) ++ (Some <$> frame_bytes s1)
              ++ [raw1 !! (5 + 8)%nat; raw1 !! (5 + 9)%nat].
Proof.
  apply (tx_example default_config booted hello (replicate 15 tx_irq) [rgur_irq]);
    [by_compute | by_compute | cbn; lia | by_compute | reflexivity].
Defined.

(** ** An underrun restarts the whole frame *)

Lemma tx_from_irq_on raw cur n h : irq_on (tx_from raw cur n h) = irq_on h.
Proof.
  unfold tx_from. generalize (seq cur n). intros js. revert h.
  induction js as [|j js IH]; intros h; [reflexivity|].
  cbn [foldl]. rewrite IH. apply transmit_at_irq_on.
Qed.

Lemma lookups_seq_take {A} (l : list A) n k :
  (k <= n)%nat -> take k ((l !!.) <$> seq 0 n) = (l !!.) <$> seq 0 k.
Proof.
  intros Hk. rewrite <- fmap_take, take_seq. f_equal. f_equal. lia.
Qed.

(** X9: with TX retry, an underrun at any point of a transmission makes
    the handler start the frame over: after the bytes already sent, the
    whole stream of the transmission (frame and the two bytes after it)
    goes out again from its first byte; the transmission then completes as
    usual, the TX counter going up by one only, and the underrun is counted
    once in CtrErr. *)
Theorem tx_underrun_resends cfg l s pre i ins :
  COMM_TXRETRY cfg = true -> wf s ->
  Forall no_rgur pre -> (length pre <= Z.to_nat (to_len_t l) + 9)%nat ->
  ~ no_rgur i ->
  Forall no_rgur ins -> length ins = (Z.to_nat (to_len_t l) + 10)%nat ->
  let s1 := TXInit l s in
  let n := Z.to_nat (to_len_t l) in
  let stream := (SendBuff (comm s1) !!.) <$> seq 0 (n + 10) in
  stream = (Some <$> frame_bytes s1)
             ++ [SendBuff (comm s1) !! (n + 8)%nat;
                 SendBuff (comm s1) !! (n + 9)%nat]
  /\ exists r,
       irq_run cfg (pre ++ i :: ins) s1 = Ok r
       /\ Mode_ (comm r) = Mt
       /\ PacketsTX (comm r) = to_u32 (PacketsTX (comm s) + 1)
       /\ CtrErr (comm r) = to_u16 (CtrErr (comm s) + 1)
       /\ transmitted (spi (rf r))
          = transmitted (spi (rf s)) ++ take (length pre + 1) stream ++ stream.
Proof.
  intros Hcfg Hwf Hpre Hlpre Hi Hins Hlins. cbv zeta.
  split; [apply (tx_stream_split l s Hwf)|].
  pose proof (TXInit_comm l s Hwf) as Hc. cbv zeta in Hc.
  pose proof (wf_TXInit l s Hwf) as Hwf1.
  pose proof (TXInit_irq_on l s) as Hon1.
  pose proof (transmitted_TXInit l s Hwf) as Htx1.
  set (n := Z.to_nat (to_len_t l)) in *.
  set (s1 := TXInit l s) in *.
  rewrite irq_run_app.
  rewrite (tx_send_run cfg pre s1 1 (n + 10));
    [ | exact Hon1 | rewrite Hc; reflexivity | rewrite Hc; reflexivity
      | rewrite Hc; reflexivity | lia | exact Hpre ].
  cbn [irq_run]. proj. rewrite tx_from_irq_on, Hon1.
  set (A := mkSys _ _).
  pose proof (ISR_tx_rgur cfg i A Hi) as HI. cbv zeta in HI.
  rewrite HI by (subst A; simp_setters; rewrite Hc; reflexivity).
  rewrite Hcfg. clear HI.
  set (B := mkSys _ _).
  destruct (tx_complete_state cfg ins B 1 (n + 10)) as [st Hrun];
    [ subst B A; proj; rewrite transmit_at_irq_on, tx_from_irq_on; exact Hon1
    | subst B A; simp_setters; rewrite Hc; reflexivity
    | reflexivity
    | subst B A; simp_setters; rewrite Hc; reflexivity
    | lia | lia | exact Hins | ].
  rewrite Hrun. eexists. split; [reflexivity|].
  subst B A. simp_setters.
  split; [reflexivity|].
  split; [rewrite Hc; reflexivity|].
  split; [rewrite Hc; reflexivity|].
  change (spi (RF_IRQ_OFF ?h)) with (spi h).
  rewrite transmitted_tx_from by apply Hwf1.
  rewrite transmitted_transmit_at by apply Hwf1.
  rewrite transmitted_tx_from by apply Hwf1.
  rewrite Htx1.
  assert (H0 : SendBuff (comm s) !! 0%nat = SendBuff (comm s1) !! 0%nat).
  { destruct (TXInit_buffer l s Hwf) as (b0 & b1 & b2 & b3 & H4 & Hbuf & _).
    cbv zeta in Hbuf. subst s1. rewrite Hbuf.
    destruct (SendBuff (comm s)) as [|c0 r0]; [discriminate H4|].
    cbn in H4. injection H4 as -> _. reflexivity. }
  rewrite H0, <- !app_assoc. f_equal.
  rewrite lookups_seq_take by lia.
  replace (length pre + 1)%nat with (S (length pre)) by lia.
  replace (n + 10 - 1)%nat with (n + 9)%nat by lia.
  replace (n + 10)%nat with (S (n + 9)) by lia.
  reflexivity.
Qed.

Lemma tx_underrun_resends_witness :
  let s1 := TXInit 5 (TXFill hello booted) in
  let n := Z.to_nat (to_len_t 5) in
  let stream := (SendBuff (comm s1) !!.) <$> seq 0 (n + 10) in
  stream = (Some <$> frame_bytes s1)
             ++ [SendBuff (comm s1) !! (n + 8)%nat;
                 SendBuff (comm s1) !! (n + 9)%nat]
  /\ exists r,
       irq_run default_config
         (replicate 3 tx_irq ++ rgur_irq :: replicate 15 tx_irq) s1 = Ok r
       /\ Mode_ (comm r) = Mt
       /\ PacketsTX (comm r)
          = to_u32 (PacketsTX (comm (TXFill hello booted)) + 1)
       /\ CtrErr (comm r) = to_u16 (CtrErr (comm (TXFill hello booted)) + 1)
       /\ transmitted (spi (rf r))
          = transmitted (spi (rf (TXFill hello booted)))
              ++ take (length (replicate 3 tx_irq) + 1) stream ++ stream.
Proof.
  apply (tx_underrun_resends default_config 5 (TXFill hello booted)
           (replicate 3 tx_irq) rgur_irq (replicate 15 tx_irq));
    [ reflexivity | by_compute | by_compute | vm_compute; lia
    | vm_compute; intros H; discriminate H | by_compute | reflexivity ].
Defined.

(** ** Sending the same buffer again *)

Lemma Type_set_Control_idem v raw :
  is_u8 raw ->
  Type_set_Control v (Type_set_Control v raw) = Type_set_Control v raw.
Proof.
  intros Hr. rewrite (Type_set_Control_low v), (Type_set_Control_low v raw).
  assert (Hall : all_u8_u8 (fun w r => bool_decide (
            Type_set_Control w (Type_set_Control w r) = Type_set_Control w r))
          = true) by (vm_compute; reflexivity).
  pose proof (all_u8_u8_spec _ Hall _ _ (land15_u8 v) Hr) as H.
  apply bool_decide_eq_true in H. exact H.
Qed.

Lemma TXInit_SendBuff_ext l a b :
  SendBuff (comm a) = SendBuff (comm b) ->
  SendBuff (comm (TXInit l a)) = SendBuff (comm (TXInit l b)).
Proof.
  intros H. unfold TXInit. rewrite H.
  destruct (crc_do _ _ _ _) as [crc Byte]. reflexivity.
Qed.

(** TXInit called again on the buffer it has framed rebuilds the same
    frame. *)
Lemma TXInit_idem l s :
  wf s -> SendBuff (comm (TXInit l (TXInit l s))) = SendBuff (comm (TXInit l s)).
Proof.
  intros Hwf. pose proof (wf_TXInit l s Hwf) as Hwf1.
  destruct (TXInit_buffer l s Hwf)
    as (s0 & s1 & s2 & s3 & H4 & Hbuf & Hp & Hn & Hctl & Hpu & Hcrc).
  destruct (TXInit_buffer l (TXInit l s) Hwf1)
    as (t0 & t1 & t2 & t3 & H4' & Hbuf' & _).
  cbv zeta in *. rewrite Hbuf'. rewrite Hbuf in H4'. cbn [take] in H4'.
  injection H4' as <- <- <- <-.
  set (n := Z.to_nat (to_len_t l)) in *.
  set (payload := take n (drop 6 (SendBuff (comm s)))) in *.
  set (ctl := Type_set_Control _ (SendBuff (comm s) !!! _)) in *.
  set (crc := crc_fold CRCInit (to_len_t l :: ctl :: payload)) in *.
  assert (Hpay : take n (drop 6 (SendBuff (comm (TXInit l s)))) = payload).
  { rewrite Hbuf. cbn [drop]. rewrite <- Hp at 1. apply take_app_length. }
  assert (Hct : SendBuff (comm (TXInit l s)) !!! (SynchSize + off_Type)%nat = ctl)
    by (rewrite Hbuf; reflexivity).
  assert (Hrest : drop (n + 8) (SendBuff (comm (TXInit l s)))
                  = drop (n + 8) (SendBuff (comm s))).
  { rewrite Hbuf at 1.
    replace (n + 8)%nat with (S (S (S (S (S (S (length payload + 2))))))) by lia.
    cbn [drop]. rewrite drop_app_ge by lia.
    replace (length payload + 2 - length payload)%nat with 2%nat by lia.
    reflexivity. }
  rewrite Hpay, Hct, Hrest.
  subst ctl. rewrite Type_set_Control_idem by (apply wf_u8_lookup, Hwf).
  rewrite Hbuf. reflexivity.
Qed.

(** X10: a second TXInit on the buffer of a completed transmission, as the
    transmit testcases do in their loops without refilling the buffer,
    rebuilds the same frame; it finds the transceiver still in TX mode and
    sends no power-management command, only the first frame byte and the
    status read; the second transmission puts the same stream on the air
    and the TX counter ends two higher. *)
Theorem tx_repeat cfg l s ins1 ins2 :
  wf s -> Forall no_rgur ins1 -> Forall no_rgur ins2 ->
  length ins1 = (Z.to_nat (to_len_t l) + 10)%nat ->
  length ins2 = (Z.to_nat (to_len_t l) + 10)%nat ->
  let s1 := TXInit l s in
  let stream := (SendBuff (comm s1) !!.) <$> seq 0 (Z.to_nat (to_len_t l) + 10) in
  exists s2 s4,
    irq_run cfg ins1 s1 = Ok s2
    /\ SendBuff (comm (TXInit l s2)) = SendBuff (comm s1)
    /\ spi (rf (TXInit l s2))
       = spi (rf s2) ++ [Cmd (RF12.TXWR_CMD (SendBuff (comm s1) !!! 0%nat)); Cmd 0]
    /\ irq_run cfg ins2 (TXInit l s2) = Ok s4
    /\ Mode_ (comm s4) = Mt
    /\ PacketsTX (comm s4) = to_u32 (to_u32 (PacketsTX (comm s) + 1) + 1)
    /\ transmitted (spi (rf s4)) = transmitted (spi (rf s)) ++ stream ++ stream.
Proof.
  intros Hwf Hr1 Hr2 Hl1 Hl2. cbv zeta.
  pose proof (wf_TXInit l s Hwf) as Hwf1.
  destruct (TXInit_run_stream cfg l s ins1 Hwf Hr1 Hl1) as [_ Hfin].
  destruct Hfin as (s2 & Hrun & Hm & Hoff & Hcm & Hsb & Hrb & Hptx & _ & Htx).
  assert (Hwf2 : wf s2).
  { destruct Hwf1 as (Hs1 & _ & Hu1). destruct Hwf as (_ & Hrl & _).
    split; [rewrite Hsb; exact Hs1|]. split; [rewrite Hrb; exact Hrl|].
    rewrite Hsb. exact Hu1. }
  assert (Hsame : SendBuff (comm (TXInit l s2)) = SendBuff (comm (TXInit l s))).
  { rewrite (TXInit_SendBuff_ext l s2 (TXInit l s) Hsb). apply TXInit_idem, Hwf. }
  destruct (TXInit_run_stream cfg l s2 ins2 Hwf2 Hr2 Hl2) as [_ Hfin].
  destruct Hfin as (s4 & Hrun4 & Hm4 & _ & _ & _ & _ & Hptx4 & _ & Htx4).
  exists s2, s4. split; [exact Hrun|]. split; [exact Hsame|]. split.
  - destruct (SendBuff (comm s2)) as [|b0 rest] eqn:Hraw.
    { destruct Hwf2 as (Hs2 & _). rewrite Hraw in Hs2. cbn in Hs2. sizes. lia. }
    rewrite (TXInit_rf l s2 b0 rest Hraw).
    rewrite decide_False by (intros H; apply H; exact Hcm).
    rewrite <- Hsb.
    change (spi (RF_IRQ_ON ?h)) with (spi h). unfold Transmit.
    rewrite !spi_VSendCommand, <- app_assoc. reflexivity.
  - split; [exact Hrun4|]. split; [exact Hm4|].
    split; [rewrite Hptx4, Hptx; reflexivity|].
    rewrite Htx4, Htx, Hsame, <- app_assoc. reflexivity.
Qed.

Lemma tx_repeat_witness :
  let s := TXFill hello booted in
  let s1 := TXInit 5 s in
  let stream := (SendBuff (comm s1) !!.) <$> seq 0 (Z.to_nat (to_len_t 5) + 10) in
  exists s2 s4,
    irq_run default_config (replicate 15 tx_irq) s1 = Ok s2
    /\ SendBuff (comm (TXInit 5 s2)) = SendBuff (comm s1)
    /\ spi (rf (TXInit 5 s2))
       = spi (rf s2) ++ [Cmd (RF12.TXWR_CMD (SendBuff (comm s1) !!! 0%nat)); Cmd 0]
    /\ irq_run default_config (replicate 15 tx_irq) (TXInit 5 s2) = Ok s4
    /\ Mode_ (comm s4) = Mt
    /\ PacketsTX (comm s4) = to_u32 (to_u32 (PacketsTX (comm s) + 1) + 1)
    /\ transmitted (spi (rf s4)) = transmitted (spi (rf s)) ++ stream ++ stream.
Proof.
  apply (tx_repeat default_config 5 (TXFill hello booted)
           (replicate 15 tx_irq) (replicate 15 tx_irq));
    [ by_compute | by_compute | by_compute | reflexivity | reflexivity ].
Defined.

(** ** The CRC register loses nothing *)

Lemma crc_ccitt_unserial x :
  is_u16 x -> Nat.iter 8 crc_ccitt_unbit (Nat.iter 8 crc_ccitt_bit x) = x.
Proof.
  intros Hx.
  assert (Hall : all_u16 (fun x => bool_decide
            (Nat.iter 8 crc_ccitt_unbit (Nat.iter 8 crc_ccitt_bit x) = x)) = true)
    by (vm_compute; reflexivity).
  pose proof (all_u16_spec _ Hall x Hx) as H.
  apply bool_decide_eq_true in H. exact H.
Qed.

Lemma lxor_cancel_r a b d : Z.lxor a d = Z.lxor b d -> a = b.
Proof.
  intros H. apply (f_equal (fun x => Z.lxor x d)) in H.
  rewrite !Z.lxor_assoc, Z.lxor_nilpotent, !Z.lxor_0_r in H. exact H.
Qed.

Lemma lxor_cancel_l a b d : Z.lxor d a = Z.lxor d b -> a = b.
Proof. rewrite !(Z.lxor_comm d). apply lxor_cancel_r. Qed.

Lemma crc_update_lxor_inj c d c' d' :
  is_u16 c -> is_u8 d -> is_u16 c' -> is_u8 d' ->
  _crc_ccitt_update c d = _crc_ccitt_update c' d' -> Z.lxor c d = Z.lxor c' d'.
Proof.
  intros Hc Hd Hc' Hd' H.
  rewrite !crc_update_is_ccitt in H by assumption. unfold crc_ccitt_serial in H.
  apply (f_equal (Nat.iter 8 crc_ccitt_unbit)) in H.
  rewrite !crc_ccitt_unserial in H by (apply lxor_u16_u8; assumption).
  exact H.
Qed.

Lemma crc_update_inj_crc c c' d :
  is_u16 c -> is_u16 c' -> is_u8 d ->
  _crc_ccitt_update c d = _crc_ccitt_update c' d -> c = c'.
Proof.
  intros Hc Hc' Hd H. apply (lxor_cancel_r _ _ d).
  apply crc_update_lxor_inj; assumption.
Qed.

Lemma crc_update_inj_data c d d' :
  is_u16 c -> is_u8 d -> is_u8 d' ->
  _crc_ccitt_update c d = _crc_ccitt_update c d' -> d = d'.
Proof.
  intros Hc Hd Hd' H. apply (lxor_cancel_l _ _ c).
  apply crc_update_lxor_inj; assumption.
Qed.

Lemma crc_fold_inj bs : forall c c',
  is_u16 c -> is_u16 c' -> Forall is_u8 bs ->
  crc_fold c bs = crc_fold c' bs -> c = c'.
Proof.
  induction bs as [|b bs IH]; intros c c' Hc Hc' Hu H; [exact H|].
  apply Forall_cons_1 in Hu as [Hb Hu]. cbn [crc_fold foldl] in H.
  apply (crc_update_inj_crc c c' b Hc Hc' Hb).
  apply (IH _ _ (crc_update_u16 _ _ Hc Hb) (crc_update_u16 _ _ Hc' Hb) Hu H).
Qed.

(** Two byte sequences that differ in one byte leave different residues. *)
Lemma crc_fold_one_byte c pre b b' post :
  is_u16 c -> Forall is_u8 pre -> is_u8 b -> is_u8 b' -> Forall is_u8 post ->
  b <> b' ->
  crc_fold c (pre ++ b :: post) <> crc_fold c (pre ++ b' :: post).
Proof.
  intros Hc Hpre Hb Hb' Hpost Hne H.
  rewrite !crc_fold_app in H. cbn [crc_fold foldl] in H.
  pose proof (crc_fold_u16 pre c Hc Hpre) as Hc1. fold (crc_fold c pre) in *.
  apply crc_fold_inj in H;
    [ | apply crc_update_u16; assumption | apply crc_update_u16; assumption
      | exact Hpost ].
  apply Hne. apply (crc_update_inj_data _ _ _ Hc1 Hb Hb' H).
Qed.

(** ** One corrupted byte *)

Lemma packet_shape (X : list Z) n :
  length X = (n + 4)%nat ->
  X = X !!! 0%nat :: X !!! 1%nat
        :: take n (drop 2 X) ++ [X !!! (n + 2)%nat; X !!! (n + 3)%nat].
Proof.
  intros Hlen. destruct X as [|x0 [|x1 X']]; try (cbn in Hlen; lia).
  cbn [length] in Hlen. cbn [drop].
  change ((x0 :: x1 :: X') !!! 0%nat) with x0.
  change ((x0 :: x1 :: X') !!! 1%nat) with x1.
  replace (n + 2)%nat with (S (S n)) by lia.
  replace (n + 3)%nat with (S (S (S n))) by lia.
  change ((x0 :: x1 :: X') !!! S (S n)) with (X' !!! n).
  change ((x0 :: x1 :: X') !!! S (S (S n))) with (X' !!! S n).
  f_equal. f_equal.
  destruct (lookup_lt_is_Some_2 X' n ltac:(lia)) as [a Ha].
  destruct (lookup_lt_is_Some_2 X' (S n) ltac:(lia)) as [b Hb].
  rewrite (list_lookup_total_correct _ _ _ Ha), (list_lookup_total_correct _ _ _ Hb).
  rewrite <- (take_drop n X') at 1. f_equal.
  rewrite (drop_S _ _ _ Ha), (drop_S _ _ _ Hb).
  rewrite drop_ge by lia. reflexivity.
Qed.

Lemma land15_lxor_high c e : Z.land e 0x0F = 0 -> Z.land (Z.lxor c e) 0x0F = Z.land c 0x0F.
Proof. intros H. rewrite land_lxor_distr, H. apply Z.lxor_0_r. Qed.

(** X11: a frame built by TXFill and TXInit in which one byte of the payload
    or of the CRC trailer, or the config nibble of the control byte, has
    been changed on the way is never reported: no prefix of its reception
    reaches MX, the CRC-error counter goes up by one, the other counters do
    not move, and the receiver is re-armed (Mr) with RX retry, idle (MI)
    without. *)
Theorem single_byte_error_detected cfg tx rx payload p e ins :
  wf tx -> length (RecvBuff (comm rx)) = sizeof_packet_t ->
  Forall is_u8 payload -> (1 <= length payload <= 255)%nat ->
  is_u8 e -> e <> 0 ->
  (p = 1%nat /\ Z.land e 0x0F = 0)
  \/ (COMM_HEADSIZE <= p < COMM_HEADSIZE + length payload + COMM_TAILSIZE)%nat ->
  Forall no_rgur ins ->
  let pkt := packet_bytes (TXInit (Z.of_nat (length payload)) (TXFill payload tx)) in
  fifo <$> ins = <[p := Z.lxor (pkt !!! p) e]> pkt ->
  (forall k, exists r,
      irq_run cfg (take k ins) (RXInit rx) = Ok r /\ Mode_ (comm r) <> MX)
  /\ exists rx',
       irq_run cfg ins (RXInit rx) = Ok rx'
       /\ counters (comm rx')
          = (PacketsTX (comm rx), PacketsRX (comm rx), CtrErr (comm rx),
             to_u16 (CRCErr (comm rx) + 1))
       /\ Mode_ (comm rx') = if COMM_RXRETRY cfg then Mr else MI.
Proof.
  intros Htx Hrx Hp Hn He He0 Hpos Hr pkt Hf.
  destruct (packet_of_payload tx payload Htx Hp ltac:(lia))
    as (Hpkt & Hl & Hctl & Hcrc & Hnib).
  cbv zeta in Hpkt. subst pkt. rewrite Hpkt in Hf. clear Hpkt.
  set (n := length payload) in *.
  set (l := Z.of_nat n) in *.
  set (ctl := Type_set_Control (Z.lnot l) _) in *.
  set (crc := crc_fold CRCInit (l :: ctl :: payload)) in *.
  set (pkt := l :: ctl :: payload ++ [lo8 crc; hi8 crc]) in *.
  assert (Hplen : length pkt = (n + 4)%nat).
  { subst pkt. cbn [length]. rewrite length_app. cbn [length]. lia. }
  assert (Hp4 : (1 <= p < n + 4)%nat) by (sizes; lia).
  assert (Hpu : Forall is_u8 pkt).
  { subst pkt. apply Forall_cons_2; [exact Hl|]. apply Forall_cons_2; [exact Hctl|].
    apply Forall_app; split; [exact Hp|].
    apply Forall_cons_2; [apply lo8_u8|].
    apply Forall_cons_2; [apply hi8_u8, Hcrc | constructor]. }
  destruct (lookup_lt_is_Some_2 pkt p ltac:(lia)) as [b Hb].
  rewrite (list_lookup_total_correct _ _ _ Hb) in Hf.
  assert (Hbu : is_u8 b) by (eapply Forall_lookup_1; eassumption).
  set (b' := Z.lxor b e) in *.
  assert (Hb'u : is_u8 b') by (apply lxor_u8; assumption).
  assert (Hbne : b <> b')
    by (intros H; symmetry in H; revert H; apply lxor_flip, He0).
  set (pkt' := <[p := b']> pkt) in *.
  assert (Hp'len : length pkt' = (n + 4)%nat)
    by (subst pkt'; rewrite length_insert; exact Hplen).
  (* the residue of the corrupted packet *)
  assert (Hres : crc_fold CRCInit pkt' <> 0).
  { assert (Hz : crc_fold CRCInit pkt = 0).
    { subst pkt. change (l :: ctl :: payload ++ [lo8 crc; hi8 crc])
        with ((l :: ctl :: payload) ++ [lo8 crc; hi8 crc]).
      rewrite crc_fold_app. fold crc. apply crc_residue_zero, Hcrc. }
    rewrite <- Hz. subst pkt'.
    rewrite insert_take_drop by lia.
    rewrite <- (take_drop_middle pkt p b Hb) at 3.
    intros H. symmetry in H. revert H.
    apply crc_fold_one_byte;
      [ apply CRCInit_u16 | apply Forall_take, Hpu | exact Hbu | exact Hb'u
      | apply Forall_drop, Hpu | exact Hbne ]. }
  (* the corrupted packet still has the shape of a packet *)
  pose proof (packet_shape pkt' n Hp'len) as Hshape.
  assert (H0 : pkt' !!! 0%nat = l).
  { subst pkt'. rewrite list_lookup_total_insert_ne by lia. reflexivity. }
  rewrite H0 in Hshape.
  set (ctl' := pkt' !!! 1%nat) in *.
  assert (Hok : header_ok l ctl').
  { split; [|subst l n; lia].
    destruct Hpos as [[-> Hlow]|Hge].
    - subst ctl' pkt'. rewrite list_lookup_total_insert_eq by lia.
      assert (b = ctl) as -> by (subst pkt; cbn in Hb; congruence).
      subst b'. rewrite land15_lxor_high by exact Hlow. exact Hnib.
    - subst ctl' pkt'. rewrite list_lookup_total_insert_ne by (sizes; lia).
      exact Hnib. }
  rewrite Hshape in Hf, Hres.
  destruct (rx_packet cfg rx l ctl' (take n (drop 2 pkt'))
              (pkt' !!! (n + 2)%nat) (pkt' !!! (n + 3)%nat) ins
              Hrx Hl Hok ltac:(rewrite length_take, length_drop; subst l; lia)
              Hr Hf) as [st Hrun].
  cbv zeta in Hrun.
  change (CRC (rx_taken rx l ctl' (take n (drop 2 pkt'))
                 (pkt' !!! (n + 2)%nat) (pkt' !!! (n + 3)%nat) st))
    with (crc_fold CRCInit
            (l :: ctl' :: take n (drop 2 pkt')
               ++ [pkt' !!! (n + 2)%nat; pkt' !!! (n + 3)%nat])) in Hrun.
  rewrite decide_False in Hrun by exact Hres.
  split.
  - apply (never_ready_prefix cfg ins _ _ (RXInit_quiet rx) Hrun).
    apply ResetRX_comm_rf.
  - eexists. split; [exact Hrun|].
    rewrite ResetRX_Mode. split; [|reflexivity].
    unfold ResetRX. destruct (COMM_RXRETRY cfg); reflexivity.
Qed.

Lemma single_byte_error_detected_witness :
  let pkt := packet_bytes (TXInit (Z.of_nat (length hello)) (TXFill hello booted)) in
  let ins := rx_irq <$> <[4%nat := Z.lxor (pkt !!! 4%nat) 0x20]> pkt in
  (forall k, exists r,
      irq_run default_config (take k ins) (RXInit booted) = Ok r
      /\ Mode_ (comm r) <> MX)
  /\ exists rx',
       irq_run default_config ins (RXInit booted) = Ok rx'
       /\ counters (comm rx')
          = (PacketsTX (comm booted), PacketsRX (comm booted),
             CtrErr (comm booted), to_u16 (CRCErr (comm booted) + 1))
       /\ Mode_ (comm rx') = if COMM_RXRETRY default_config then Mr else MI.
Proof.
  apply (single_byte_error_detected default_config booted booted hello 4 0x20);
    [ by_compute | reflexivity | by_compute | cbn; lia | by_compute
    | discriminate | right; vm_compute; lia | by_compute | ].
  rewrite <- list_fmap_compose. vm_compute. reflexivity.
Defined.

(** ** An overrun while receiving *)

(** X12: the handler entered with RGUR/FFOV flagged while the mode is not MT
    (a FIFO overrun while receiving): the byte in the FIFO is not stored,
    CtrErr goes up by one and no other counter moves, the send side is not
    touched, and the code under ResetRX runs.  With RX retry the FIFO is
    reset (two commands), the mode is Mr, the accumulator is CRCInit and
    the cursors are on the header window; the interrupt mask and the
    transceiver mode are as before.  Without RX retry the mode is MI, both
    receive cursors are NULL, the transceiver is put in its default mode and
    the interrupt is switched off. *)
Theorem rx_overrun cfg i s :
  ~ no_rgur i -> Mode_ (comm s) <> MT ->
  exists s',
    ISR cfg i s = Ok s'
    /\ RecvBuff (comm s') = RecvBuff (comm s)
    /\ counters (comm s')
       = (PacketsTX (comm s), PacketsRX (comm s), to_u16 (CtrErr (comm s) + 1),
          CRCErr (comm s))
    /\ SendBuff (comm s') = SendBuff (comm s)
    /\ SendCur (comm s') = SendCur (comm s)
    /\ SendEnd (comm s') = SendEnd (comm s)
    /\ (COMM_RXRETRY cfg = true ->
        Mode_ (comm s') = Mr /\ CRC (comm s') = CRCInit
        /\ RecvCur (comm s') = Some 0%nat
        /\ RecvEnd (comm s') = Some (COMM_HEADSIZE - 1)%nat
        /\ spi (rf s') = spi (rf s) ++ [Cmd RF12.FIFO_OFF; Cmd RF12.FIFO_ON]
        /\ irq_on (rf s') = irq_on (rf s)
        /\ CurMode (rf s') = CurMode (rf s))
    /\ (COMM_RXRETRY cfg = false ->
        Mode_ (comm s') = MI
        /\ RecvCur (comm s') = None /\ RecvEnd (comm s') = None
        /\ spi (rf s') = spi (rf s) ++ [Cmd RF12.PM_DEF]
        /\ irq_on (rf s') = false
        /\ CurMode (rf s') = DEF).
Proof.
  intros Hr Hm. rewrite (ISR_rx_rgur cfg i s Hr Hm).
  eexists. split; [reflexivity|].
  unfold ResetRX. destruct (COMM_RXRETRY cfg); simp_setters.
  - repeat (split; [reflexivity|]). split; [|intros H; discriminate H].
    intros _. repeat (split; [reflexivity|]). split; [|split; reflexivity].
    unfold FIFOReset. rewrite !spi_VSendCommand, <- app_assoc. reflexivity.
  - repeat (split; [reflexivity|]). split; [intros H; discriminate H|].
    intros _. repeat split.
Qed.

Lemma rx_overrun_witness :
  exists s',
    ISR default_config rgur_irq (RXInit booted) = Ok s'
    /\ RecvBuff (comm s') = RecvBuff (comm (RXInit booted))
    /\ counters (comm s')
       = (PacketsTX (comm (RXInit booted)), PacketsRX (comm (RXInit booted)),
          to_u16 (CtrErr (comm (RXInit booted)) + 1),
          CRCErr (comm (RXInit booted)))
    /\ SendBuff (comm s') = SendBuff (comm (RXInit booted))
    /\ SendCur (comm s') = SendCur (comm (RXInit booted))
    /\ SendEnd (comm s') = SendEnd (comm (RXInit booted))
    /\ (COMM_RXRETRY default_config = true ->
        Mode_ (comm s') = Mr /\ CRC (comm s') = CRCInit
        /\ RecvCur (comm s') = Some 0%nat
        /\ RecvEnd (comm s') = Some (COMM_HEADSIZE - 1)%nat
        /\ spi (rf s')
           = spi (rf (RXInit booted)) ++ [Cmd RF12.FIFO_OFF; Cmd RF12.FIFO_ON]
        /\ irq_on (rf s') = irq_on (rf (RXInit booted))
        /\ CurMode (rf s') = CurMode (rf (RXInit booted)))
    /\ (COMM_RXRETRY default_config = false ->
        Mode_ (comm s') = MI
        /\ RecvCur (comm s') = None /\ RecvEnd (comm s') = None
        /\ spi (rf s') = spi (rf (RXInit booted)) ++ [Cmd RF12.PM_DEF]
        /\ irq_on (rf s') = false
        /\ CurMode (rf s') = DEF).
Proof.
  apply (rx_overrun default_config rgur_irq (RXInit booted));
    [vm_compute; intros H; discriminate H | discriminate].
Defined.

(** ** The frame after an overrun *)

Lemma irq_run_rx_side cfg ins : forall s r,
  Mode_ (comm s) <> MT -> irq_run cfg ins s = Ok r ->
  Mode_ (comm r) <> MT
  /\ length (RecvBuff (comm r)) = length (RecvBuff (comm s)).
Proof.
  induction ins as [|i ins IH]; intros s r Hm Hrun.
  - cbn in Hrun. injection Hrun as <-. split; [exact Hm | reflexivity].
  - cbn [irq_run] in Hrun. destruct (irq_on (rf s)); [|apply (IH s r Hm Hrun)].
    destruct (ISR cfg i s) as [s1|f] eqn:HI; [|discriminate Hrun].
    destruct (ISR_untouched cfg i s s1 HI) as (_ & _ & Hlen & _ & Hrx).
    destruct (Hrx Hm) as (_ & _ & _ & Hm1).
    destruct (IH s1 r Hm1 Hrun) as [H1 H2]. split; [exact H1|].
    rewrite H2. exact Hlen.
Qed.

Lemma ResetRX_armed cfg c h :
  COMM_RXRETRY cfg = true -> irq_on h = true ->
  armed (ResetRX cfg (mkSys c h)).
Proof.
  intros Hcfg Hon. unfold ResetRX. rewrite Hcfg. unfold armed. simp_setters.
  repeat split. exact Hon.
Qed.

(** From any armed state, a frame built by TXFill and TXInit is received
    as it is after RXInit. *)
Lemma armed_receives cfg tx a payload ins :
  armed a -> wf tx -> length (RecvBuff (comm a)) = sizeof_packet_t ->
  Forall is_u8 payload -> (1 <= length payload <= 255)%nat ->
  Forall no_rgur ins ->
  fifo <$> ins
    = packet_bytes (TXInit (Z.of_nat (length payload)) (TXFill payload tx)) ->
  exists r tail,
    irq_run cfg ins a = Ok r /\ Mode_ (comm r) = MX
    /\ RecvBuff (comm r)
       = Z.of_nat (length payload)
           :: Type_set_Control (Z.lnot (Z.of_nat (length payload)))
                (SendBuff (comm tx) !!! (SynchSize + off_Type)%nat)
           :: payload ++ tail
    /\ counters (comm r)
       = (PacketsTX (comm a), to_u32 (PacketsRX (comm a) + 1),
          CtrErr (comm a), CRCErr (comm a))
    /\ irq_on (rf r) = false.
Proof.
  intros Ha Htx Hlen Hp Hn Hr Hf.
  destruct (decode_encoded_counts cfg tx a payload ins Htx Hlen Hp Hn Hr Hf)
    as (rx' & tail & Hrun & Hm & Hbuf & Hcnt & Hoff & _).
  destruct (irq_run_same_link_Ok cfg ins (RXInit a) a rx'
              (armed_same_link a Ha) Hrun) as (r & Hrun' & Hc & Hi).
  exists r, tail. split; [exact Hrun'|]. rewrite <- Hc, <- Hi.
  repeat split; assumption.
Qed.

(** X13: with RX retry, an overrun at any point of a reception costs the
    frame under way only.  Whatever has arrived since RXInit, as long as
    the receiver is still listening, an interrupt that flags RGUR/FFOV
    re-arms it, and a frame built by TXFill and TXInit that follows is
    received: the run ends in MX, RXGetPacket returns the sender's length
    and payload, the frame counter and CtrErr have each gone up by one. *)
Theorem rx_recovers_after_overrun cfg tx rx pre i payload ins r :
  COMM_RXRETRY cfg = true ->
  wf tx -> length (RecvBuff (comm rx)) = sizeof_packet_t ->
  Forall is_u8 payload -> (1 <= length payload <= 255)%nat ->
  irq_run cfg pre (RXInit rx) = Ok r -> irq_on (rf r) = true ->
  ~ no_rgur i ->
  Forall no_rgur ins ->
  fifo <$> ins
    = packet_bytes (TXInit (Z.of_nat (length payload)) (TXFill payload tx)) ->
  exists rx' mesg,
    irq_run cfg (pre ++ i :: ins) (RXInit rx) = Ok rx'
    /\ Mode_ (comm rx') = MX
    /\ RXGetPacket rx' = (Some mesg, Z.of_nat (length payload), rx')
    /\ take (length payload) mesg = payload
    /\ counters (comm rx')
       = (PacketsTX (comm r), to_u32 (PacketsRX (comm r) + 1),
          to_u16 (CtrErr (comm r) + 1), CRCErr (comm r)).
Proof.
  intros Hcfg Htx Hrx Hp Hn Hpre Hon Hi Hr Hf.
  destruct (irq_run_rx_side cfg pre (RXInit rx) r ltac:(discriminate) Hpre)
    as [HnMT Hlen].
  rewrite irq_run_app, Hpre. cbn [irq_run]. rewrite Hon.
  rewrite (ISR_rx_rgur cfg i r Hi HnMT).
  set (a := ResetRX cfg _).
  assert (Ha : armed a) by (apply ResetRX_armed; assumption).
  assert (Hla : length (RecvBuff (comm a)) = sizeof_packet_t).
  { subst a. unfold ResetRX. rewrite Hcfg. simp_setters.
    rewrite Hlen. exact Hrx. }
  destruct (armed_receives cfg tx a payload ins Ha Htx Hla Hp Hn Hr Hf)
    as (rx' & tail & Hrun & Hm & Hbuf & Hcnt & _).
  exists rx', (payload ++ tail).
  split; [exact Hrun|]. split; [exact Hm|].
  split; [rewrite (RXGetPacket_ready rx' Hm), Hbuf; reflexivity|].
  split; [apply take_app_length|].
  rewrite Hcnt. subst a. unfold ResetRX. rewrite Hcfg. reflexivity.
Qed.

Lemma rx_recovers_after_overrun_witness :
  let pkt := packet_bytes (TXInit 5 (TXFill hello booted)) in
  exists r rx' mesg,
    irq_run default_config (rx_irq <$> take 6 pkt) (RXInit booted) = Ok r
    /\ irq_run default_config
         ((rx_irq <$> take 6 pkt) ++ rgur_irq :: (rx_irq <$> pkt))
         (RXInit booted) = Ok rx'
    /\ Mode_ (comm rx') = MX
    /\ RXGetPacket rx' = (Some mesg, 5, rx')
    /\ take 5 mesg = hello
    /\ counters (comm rx')
       = (PacketsTX (comm r), to_u32 (PacketsRX (comm r) + 1),
          to_u16 (CtrErr (comm r) + 1), CRCErr (comm r)).
Proof.
  intros pkt.
  destruct (irq_run default_config (rx_irq <$> take 6 pkt) (RXInit booted))
    as [r|f] eqn:Hpre; [|vm_compute in Hpre; discriminate Hpre].
  exists r.
  destruct (rx_recovers_after_overrun default_config booted booted
              (rx_irq <$> take 6 pkt) rgur_irq hello (rx_irq <$> pkt) r)
    as (rx' & mesg & H);
    [ reflexivity | by_compute | reflexivity | by_compute | cbn; lia
    | exact Hpre
    | vm_compute in Hpre; injection Hpre as <-; reflexivity
    | vm_compute; intros H; discriminate H
    | by_compute
    | rewrite <- list_fmap_compose; vm_compute; reflexivity | ].
  exists rx', mesg. split; [reflexivity | exact H].
Defined.

(** ** Without RX retry *)

(** X14: with RX retry compiled out, a header that fails the check ends the
    reception: RXWait returns right after the control byte, in MI, with the
    interrupt off, the transceiver in its default mode and both receive
    cursors NULL; RXReady is true, RXGetPacket reports nothing (NULL and
    length 0), CtrErr has gone up by one and no frame has been counted. *)
Theorem rx_gives_up_without_retry cfg rx i0 i1 more :
  COMM_RXRETRY cfg = false ->
  length (RecvBuff (comm rx)) = sizeof_packet_t ->
  no_rgur i0 -> no_rgur i1 -> ~ header_ok (fifo i0) (fifo i1) ->
  exists r,
    RXWait cfg (i0 :: i1 :: more) (RXInit rx) = Ok (Some (r, more))
    /\ Mode_ (comm r) = MI /\ RXReady r = true
    /\ RXGetPacket r = (None, 0, r)
    /\ RecvCur (comm r) = None /\ RecvEnd (comm r) = None
    /\ irq_on (rf r) = false /\ CurMode (rf r) = DEF
    /\ counters (comm r)
       = (PacketsTX (comm rx), PacketsRX (comm rx),
          to_u16 (CtrErr (comm rx) + 1), CRCErr (comm rx)).
Proof.
  intros Hcfg Hlen Hr0 Hr1 Hbad.
  pose proof (rx_header_run cfg rx i0 i1 Hlen Hr0 Hr1) as Hrun.
  rewrite decide_False in Hrun by exact Hbad.
  set (r := ResetRX cfg _) in Hrun.
  assert (Hm : Mode_ (comm r) = MI) by (subst r; rewrite ResetRX_Mode, Hcfg; reflexivity).
  exists r. split.
  - change (i0 :: i1 :: more) with ([i0; i1] ++ more).
    rewrite <- (drop_app_length [i0; i1] more) at 2.
    apply RXWait_first_ready.
    + cbn [length app]. lia.
    + intros j Hj. cbn [length] in Hj. destruct j as [|[|j]]; [| |lia].
      * exists (RXInit rx). split; [reflexivity|]. apply RXReady_false.
        split; discriminate.
      * cbn [take app].
        rewrite (rx_store_run cfg [i0] (RXInit rx) 0 1);
          [ | reflexivity | discriminate | reflexivity | reflexivity
            | cbn [length]; lia
            | cbn [RXInit comm]; simp_setters; rewrite Hlen; sizes; lia
            | apply Forall_cons_2; [assumption | constructor] ].
        eexists. split; [reflexivity|]. apply RXReady_false. split; discriminate.
    + rewrite take_app_length. exact Hrun.
    + apply RXReady_true. left. exact Hm.
  - split; [exact Hm|]. split; [apply RXReady_true; left; exact Hm|].
    split; [apply RXGetPacket_empty; rewrite Hm; discriminate|].
    subst r. unfold ResetRX. rewrite Hcfg. repeat split.
Qed.

Lemma rx_gives_up_without_retry_witness :
  exists r,
    RXWait (mkConfig true false) [rx_irq 5; rx_irq 0x0C; rx_irq 0x48]
      (RXInit booted) = Ok (Some (r, [rx_irq 0x48]))
    /\ Mode_ (comm r) = MI /\ RXReady r = true
    /\ RXGetPacket r = (None, 0, r)
    /\ RecvCur (comm r) = None /\ RecvEnd (comm r) = None
    /\ irq_on (rf r) = false /\ CurMode (rf r) = DEF
    /\ counters (comm r)
       = (PacketsTX (comm booted), PacketsRX (comm booted),
          to_u16 (CtrErr (comm booted) + 1), CRCErr (comm booted)).
Proof.
  apply (rx_gives_up_without_retry (mkConfig true false) booted
           (rx_irq 5) (rx_irq 0x0C) [rx_irq 0x48]);
    [ reflexivity | reflexivity | by_compute | by_compute
    | vm_compute; intros [H _]; discriminate H ].
Defined.

(** ** The config nibble *)

(** Filling the message area and setting the config nibble commute. *)
Lemma TXConfig_TXFill cfgn payload tx :
  TXConfig cfgn (TXFill payload tx) = TXFill payload (TXConfig cfgn tx).
Proof.
  unfold TXConfig, TXFill. simp_setters. f_equal. unfold set_SendBuff. simp_setters.
  f_equal.
  rewrite (list_lookup_total_alt (list_inserts _ _ _)),
    list_lookup_inserts_lt by (sizes; lia).
  rewrite <- list_lookup_total_alt.
  apply list_insert_inserts_lt. sizes. lia.
Qed.

(** X15: the config nibble makes the round trip.  Whatever the order in
    which the sender fills the buffer and calls TXConfig, the frame TXInit
    builds for a payload of 1..255 bytes is received (MX) and RXGetConfig on
    the receiver returns the low four bits of the argument of TXConfig, while
    RXGetPacket returns the sender's length and payload. *)
Theorem config_roundtrip cfg tx rx cfgn payload ins :
  wf tx -> length (RecvBuff (comm rx)) = sizeof_packet_t ->
  Forall is_u8 payload -> (1 <= length payload <= 255)%nat ->
  Forall no_rgur ins ->
  fifo <$> ins
    = packet_bytes (TXInit (Z.of_nat (length payload))
                      (TXConfig cfgn (TXFill payload tx))) ->
  TXConfig cfgn (TXFill payload tx) = TXFill payload (TXConfig cfgn tx)
  /\ exists rx' mesg,
       irq_run cfg ins (RXInit rx) = Ok rx'
       /\ Mode_ (comm rx') = MX
       /\ RXGetConfig rx' = Z.land cfgn 0x0F
       /\ RXGetPacket rx' = (Some mesg, Z.of_nat (length payload), rx')
       /\ take (length payload) mesg = payload.
Proof.
  intros Htx Hrx Hp Hn Hr Hf.
  split; [apply TXConfig_TXFill|].
  rewrite TXConfig_TXFill in Hf.
  pose proof (wf_TXConfig cfgn tx Htx) as Htx'.
  destruct (decode_encoded_counts cfg (TXConfig cfgn tx) rx payload ins
              Htx' Hrx Hp Hn Hr Hf)
    as (rx' & tail & Hrun & Hm & Hbuf & _).
  exists rx', (payload ++ tail).
  split; [exact Hrun|]. split; [exact Hm|]. split; [|split].
  - unfold RXGetConfig. rewrite Hbuf.
    change ((?a :: ?b :: ?t) !!! off_Type) with b.
    rewrite (TXConfig_Type cfgn tx Htx).
    pose proof (wf_u8_lookup tx (SynchSize + off_Type)%nat Htx) as Hu.
    destruct (Type_set_Config_spec cfgn _ Hu) as (H1 & H2 & _).
    destruct (Type_set_Control_spec (Z.lnot (Z.of_nat (length payload))) _ H1)
      as (_ & _ & H3).
    rewrite H3. exact H2.
  - rewrite (RXGetPacket_ready rx' Hm), Hbuf. reflexivity.
  - apply take_app_length.
Qed.

Lemma config_roundtrip_witness :
  TXConfig 0xB3 (TXFill hello booted) = TXFill hello (TXConfig 0xB3 booted)
  /\ exists rx' mesg,
       irq_run default_config
         (rx_irq <$> packet_bytes (TXInit 5 (TXConfig 0xB3 (TXFill hello booted))))
         (RXInit booted) = Ok rx'
       /\ Mode_ (comm rx') = MX
       /\ RXGetConfig rx' = Z.land 0xB3 0x0F
       /\ RXGetPacket rx' = (Some mesg, 5, rx')
       /\ take 5 mesg = hello.
Proof.
  apply (config_roundtrip default_config booted booted 0xB3 hello);
    [ by_compute | reflexivity | by_compute | cbn; lia | by_compute
    | rewrite <- list_fmap_compose; vm_compute; reflexivity ].
Defined.

(** ** The handler rests when the link does *)

Lemma run_calls_app cfg cs1 cs2 s :
  run_calls cfg (cs1 ++ cs2) s
  = match run_calls cfg cs1 s with
    | Ok s' => run_calls cfg cs2 s'
    | Fault f => Fault f
    end.
Proof.
  revert s. induction cs1 as [|c cs1 IH]; intros s; [reflexivity|].
  cbn [app run_calls]. destruct (do_call cfg c s); [apply IH | reflexivity].
Qed.

Lemma run_calls_masked cfg ins s :
  irq_on (rf s) = false -> run_calls cfg (Irq <$> ins) s = Ok s.
Proof.
  intros H. induction ins as [|i ins IH]; [reflexivity|].
  cbn [fmap list_fmap run_calls do_call]. unfold deliver. rewrite H. exact IH.
Qed.

(** X16: once a call of the interface has returned, in the modes MI, MX
    and Mt the handler is not entered.  Whatever calls and interrupts led
    there from the statically initialised state, events that arrived inside
    TXInit and TXPreInit included, the interrupt source is off, so the events that
    arrive before the next call change nothing: a received packet stays in
    the buffer, and the counters and cursors stay as they are, until the
    program calls RXInit or TXInit.  (Inside TXPreInit, between its store to
    State.Mode and RF_IRQ_OFF(), the mode is MI with the source possibly
    enabled: that state is not one a call returns in.) *)
Theorem handler_rests_when_done cfg cs r more :
  Forall call_ok cs -> run_calls cfg cs Sys0 = Ok r ->
  Mode_ (comm r) = MI \/ Mode_ (comm r) = MX \/ Mode_ (comm r) = Mt ->
  irq_on (rf r) = false
  /\ run_calls cfg (cs ++ (Irq <$> more)) Sys0 = Ok r.
Proof.
  intros Hok Hrun Hmode.
  pose proof (link_inv_run_calls cfg cs Sys0 link_inv_Sys0 rx_cursors_ok_Sys0 Hok)
    as Hinv.
  rewrite Hrun in Hinv. destruct Hinv as [(_ & _ & Hcase) _].
  assert (Hoff : irq_on (rf r) = false).
  { destruct (irq_on (rf r)) eqn:Hon; [|reflexivity]. exfalso.
    destruct (Hcase eq_refl) as [(Hm & _)|[_ Hrx]].
    - rewrite Hm in Hmode. destruct Hmode as [H|[H|H]]; discriminate H.
    - destruct (Hrx Hon) as (cur & e & _ & _ & _ & _ & Hm).
      destruct Hm as [(Hm & _)|Hm]; rewrite Hm in Hmode;
        destruct Hmode as [H|[H|H]]; discriminate H. }
  split; [exact Hoff|].
  rewrite run_calls_app, Hrun. apply run_calls_masked, Hoff.
Qed.

Lemma handler_rests_when_done_witness :
  let cs := Call_Init :: Call_TXInit 5 [tx_irq] :: Irq tx_irq
              :: Call_TXPreInit [] :: Call_RXInit
              :: (Irq <$> (rx_irq <$> [5; 0x0A] ++ hello ++ [0x79; 0x31])) in
  exists r,
    run_calls default_config cs Sys0 = Ok r
    /\ Mode_ (comm r) = MX
    /\ irq_on (rf r) = false
    /\ run_calls default_config (cs ++ (Irq <$> [rx_irq 0x11; rgur_irq])) Sys0
       = Ok r.
Proof.
  intros cs.
  destruct (run_calls default_config cs Sys0) as [r|f] eqn:Hrun;
    [|vm_compute in Hrun; discriminate Hrun].
  assert (Hm : Mode_ (comm r) = MX)
    by (vm_compute in Hrun; injection Hrun as <-; reflexivity).
  exists r. split; [reflexivity|]. split; [exact Hm|].
  apply (handler_rests_when_done default_config cs r [rx_irq 0x11; rgur_irq]);
    [by_compute | exact Hrun | right; left; exact Hm].
Defined.

(** ** The window inside TXPreInit *)

(** X17: TXPreInit clears the mode before it masks the interrupt.  An event
    that arrives between the two statements while a transmission is under
    way finds the mode MI, so the handler does not take its transmit branch
    but the receive one, and stores the byte it reads through the receive
    cursor: through NULL if no reception has been started since the cursors
    were last cleared.  Once TXPreInit has returned the same event is
    ignored. *)
Theorem TXPreInit_window cfg i s :
  irq_on (rf s) = true -> no_rgur i -> RecvCur (comm s) = None ->
  TXPreInit s = TXPreInit_mask (TXPreInit_mode s)
  /\ deliver cfg i (TXPreInit_mode s) = Fault NullDeref
  /\ deliver cfg i (TXPreInit s) = Ok (TXPreInit s).
Proof.
  intros Hon Hr Hc. split; [reflexivity|]. split.
  - unfold deliver, TXPreInit_mode. proj. rewrite Hon.
    destruct s as [[] h]. proj_in Hc. subst.
    unfold ISR, no_rgur in *. unfold_setters.
    rewrite decide_False by (intros H; apply H; exact Hr).
    rewrite decide_False by discriminate. reflexivity.
  - reflexivity.
Qed.

Lemma TXPreInit_window_witness :
  let s := TXInit 5 (TXFill hello booted) in
  Mode_ (comm s) = MT
  /\ TXPreInit s = TXPreInit_mask (TXPreInit_mode s)
  /\ deliver default_config tx_irq (TXPreInit_mode s) = Fault NullDeref
  /\ deliver default_config tx_irq (TXPreInit s) = Ok (TXPreInit s).
Proof.
  split; [reflexivity|].
  apply (TXPreInit_window default_config tx_irq (TXInit 5 (TXFill hello booted)));
    [reflexivity | by_compute | reflexivity].
Defined.

(** ** One invocation of the handler *)

(** X18: one invocation of the handler moves at most one statistics counter,
    by one: PacketsTX exactly when a transmission is reported complete (MT
    to Mt), PacketsRX exactly when a frame is reported (MX), CtrErr or
    CRCErr when a frame is given up, and none otherwise (the mode then stays
    as it is or goes from Mr to MR). *)
Theorem handler_counts_one_event cfg i s s' :
  ISR cfg i s = Ok s' ->
  let c := comm s in
  let c' := comm s' in
  (counters c' = counters c
   /\ (Mode_ c' = Mode_ c \/ (Mode_ c = Mr /\ Mode_ c' = MR)))
  \/ (counters c'
      = (to_u32 (PacketsTX c + 1), PacketsRX c, CtrErr c, CRCErr c)
      /\ Mode_ c = MT /\ Mode_ c' = Mt)
  \/ (counters c'
      = (PacketsTX c, to_u32 (PacketsRX c + 1), CtrErr c, CRCErr c)
      /\ Mode_ c <> MT /\ Mode_ c' = MX)
  \/ (counters c'
      = (PacketsTX c, PacketsRX c, to_u16 (CtrErr c + 1), CRCErr c)
      /\ Mode_ c' <> Mt /\ Mode_ c' <> MX)
  \/ (counters c'
      = (PacketsTX c, PacketsRX c, CtrErr c, to_u16 (CRCErr c + 1))
      /\ Mode_ c <> MT /\ Mode_ c' <> Mt /\ Mode_ c' <> MX).
Proof.
  intros H. cbv zeta.
  pose proof (ISR_counters cfg i s s' H) as Hc. cbv zeta in Hc. exact Hc.
Qed.

Lemma handler_counts_one_event_witness :
  exists s',
    ISR default_config tx_irq hello_sent = Ok s'
    /\ let c := comm hello_sent in
       let c' := comm s' in
       (counters c' = counters c
        /\ (Mode_ c' = Mode_ c \/ (Mode_ c = Mr /\ Mode_ c' = MR)))
       \/ (counters c'
           = (to_u32 (PacketsTX c + 1), PacketsRX c, CtrErr c, CRCErr c)
           /\ Mode_ c = MT /\ Mode_ c' = Mt)
       \/ (counters c'
           = (PacketsTX c, to_u32 (PacketsRX c + 1), CtrErr c, CRCErr c)
           /\ Mode_ c <> MT /\ Mode_ c' = MX)
       \/ (counters c'
           = (PacketsTX c, PacketsRX c, to_u16 (CtrErr c + 1), CRCErr c)
           /\ Mode_ c' <> Mt /\ Mode_ c' <> MX)
       \/ (counters c'
           = (PacketsTX c, PacketsRX c, CtrErr c, to_u16 (CRCErr c + 1))
           /\ Mode_ c <> MT /\ Mode_ c' <> Mt /\ Mode_ c' <> MX).
Proof.
  destruct (ISR default_config tx_irq hello_sent) as [s'|f] eqn:HI;
    [|vm_compute in HI; discriminate HI].
  exists s'. split; [reflexivity|].
  apply (handler_counts_one_event default_config tx_irq hello_sent s' HI).
Defined.

(** X19: what one invocation of the handler leaves alone.  It never writes
    the send buffer, and it leaves the status word it has read in
    State.Status.  Entered in MT it touches nothing of the receive side
    (buffer, cursors, accumulator, RX counters); entered in any other mode
    it touches nothing of the send side (cursors, TX counter), keeps the
    size of the receive buffer and never sets the mode to MT. *)
Theorem handler_leaves_other_side cfg i s s' :
  ISR cfg i s = Ok s' ->
  SendBuff (comm s') = SendBuff (comm s)
  /\ Status (comm s') = isr_status i
  /\ length (RecvBuff (comm s')) = length (RecvBuff (comm s))
  /\ (Mode_ (comm s) = MT ->
      RecvBuff (comm s') = RecvBuff (comm s)
      /\ RecvCur (comm s') = RecvCur (comm s)
      /\ RecvEnd (comm s') = RecvEnd (comm s)
      /\ CRC (comm s') = CRC (comm s)
      /\ PacketsRX (comm s') = PacketsRX (comm s)
      /\ CRCErr (comm s') = CRCErr (comm s))
  /\ (Mode_ (comm s) <> MT ->
      SendCur (comm s') = SendCur (comm s)
      /\ SendEnd (comm s') = SendEnd (comm s)
      /\ PacketsTX (comm s') = PacketsTX (comm s)
      /\ Mode_ (comm s') <> MT).
Proof.
  intros H.
  destruct (ISR_untouched cfg i s s' H) as (H1 & H2 & H3 & H4 & H5).
  split; [exact H1|]. split; [exact H2|]. split; [exact H3|].
  split; [exact H4 | exact H5].
Qed.

Lemma handler_leaves_other_side_witness :
  exists s',
    ISR default_config (rx_irq 5) (RXInit booted) = Ok s'
    /\ SendBuff (comm s') = SendBuff (comm (RXInit booted))
    /\ Status (comm s') = isr_status (rx_irq 5)
    /\ length (RecvBuff (comm s')) = length (RecvBuff (comm (RXInit booted)))
    /\ (Mode_ (comm (RXInit booted)) = MT ->
        RecvBuff (comm s') = RecvBuff (comm (RXInit booted))
        /\ RecvCur (comm s') = RecvCur (comm (RXInit booted))
        /\ RecvEnd (comm s') = RecvEnd (comm (RXInit booted))
        /\ CRC (comm s') = CRC (comm (RXInit booted))
        /\ PacketsRX (comm s') = PacketsRX (comm (RXInit booted))
        /\ CRCErr (comm s') = CRCErr (comm (RXInit booted)))
    /\ (Mode_ (comm (RXInit booted)) <> MT ->
        SendCur (comm s') = SendCur (comm (RXInit booted))
        /\ SendEnd (comm s') = SendEnd (comm (RXInit booted))
        /\ PacketsTX (comm s') = PacketsTX (comm (RXInit booted))
        /\ Mode_ (comm s') <> MT).
Proof.
  destruct (ISR default_config (rx_irq 5) (RXInit booted)) as [s'|f] eqn:HI;
    [|vm_compute in HI; discriminate HI].
  exists s'. split; [reflexivity|].
  apply (handler_leaves_other_side default_config (rx_irq 5) (RXInit booted) s' HI).
Defined.

(** ** The length Testcase_UART_TX asks for *)

Lemma Buff_store_TXFill acc b s :
  Buff_store (Z.of_nat (length acc)) b (TXFill acc s) = TXFill (acc ++ [b]) s.
Proof.
  unfold Buff_store, TXFill. simp_setters. f_equal. unfold set_SendBuff.
  simp_setters. f_equal.
  rewrite list_inserts_app_l. cbn [list_inserts].
  rewrite Nat2Z.id. f_equal. lia.
Qed.

Lemma UART_TX_gather_spec s chars : forall acc L s' rest,
  (length acc <= 255)%nat ->
  UART_TX_gather chars (Z.of_nat (length acc)) (TXFill acc s) = Some (L, s', rest) ->
  exists consumed,
    chars = consumed ++ rest
    /\ let data := acc ++ (to_u8 <$> filter (fun c => c <> -1) consumed) in
       L = Z.of_nat (length data) /\ (length data <= 255)%nat
       /\ (acc = [] -> data <> [])
       /\ s' = TXFill data s.
Proof.
  induction chars as [|i chars IH]; intros acc L s' rest Hacc H.
  - cbn [UART_TX_gather] in H. case_decide as Hlt; [discriminate H|].
    injection H as <- <- <-. exists []. split; [reflexivity|]. cbv zeta.
    cbn [filter list_filter fmap list_fmap]. rewrite app_nil_r.
    split; [reflexivity|]. split; [exact Hacc|]. split; [|reflexivity].
    intros ->. cbn in Hlt. lia.
  - cbn [UART_TX_gather] in H. case_decide as Hlt.
    2:{ injection H as <- <- <-. exists []. split; [reflexivity|]. cbv zeta.
        cbn [filter list_filter fmap list_fmap]. rewrite app_nil_r.
        split; [reflexivity|]. split; [exact Hacc|]. split; [|reflexivity].
        intros ->. cbn in Hlt. lia. }
    case_decide as Hi.
    + case_decide as H0.
      * destruct (IH acc L s' rest Hacc H) as (consumed & Hc & Hd).
        exists (i :: consumed). split; [rewrite Hc; reflexivity|].
        rewrite filter_cons_False by (intros Hn; apply Hn; exact Hi). exact Hd.
      * injection H as <- <- <-. exists [i]. split; [reflexivity|]. cbv zeta.
        rewrite filter_cons_False by (intros Hn; apply Hn; exact Hi).
        cbn [filter list_filter fmap list_fmap]. rewrite app_nil_r.
        split; [reflexivity|]. split; [exact Hacc|]. split; [|reflexivity].
        intros ->. cbn in H0. lia.
    + rewrite Buff_store_TXFill in H.
      replace (Z.of_nat (length acc) + 1) with (Z.of_nat (length (acc ++ [to_u8 i])))
        in H by (rewrite length_app; cbn [length]; lia).
      destruct (IH (acc ++ [to_u8 i]) L s' rest
                  ltac:(rewrite length_app; cbn [length]; lia) H)
        as (consumed & Hc & Hd).
      exists (i :: consumed). split; [rewrite Hc; reflexivity|].
      rewrite filter_cons_True by exact Hi. cbn [fmap list_fmap].
      cbv zeta in Hd |- *. rewrite <- app_assoc in Hd. cbn [app] in Hd.
      destruct Hd as (H1 & H2 & _ & H4).
      split; [exact H1|]. split; [exact H2|]. split; [|exact H4].
      intros _ Hnil. apply app_eq_nil in Hnil as [_ Hnil]. discriminate Hnil.
Qed.

Lemma to_u8_is_u8 x : is_u8 (to_u8 x).
Proof. unfold is_u8, to_u8. apply Z.mod_pos_bound. lia. Qed.

(** X20: the loop of Testcase_UART_TX that gathers a packet from getchar.
    Whatever getchar returns, if the loop ends it has gathered between 1 and
    255 bytes, so the length it passes to TXInit fits the one-byte length
    field; the bytes now in the message area are the characters read, in
    order and each cut to a byte, the -1 results skipped; and the frame
    TXInit then builds is received intact by any receiver armed with
    RXInit. *)
Theorem Testcase_UART_TX_length chars s L s' rest :
  wf s -> UART_TX_gather chars 0 s = Some (L, s', rest) ->
  exists consumed data,
    chars = consumed ++ rest
    /\ data = to_u8 <$> filter (fun c => c <> -1) consumed
    /\ L = Z.of_nat (length data) /\ 1 <= L <= 255
    /\ s' = TXFill data s
    /\ forall cfg rx, wf rx -> roundtrips cfg s rx data.
Proof.
  intros Hwf H.
  assert (Hs : TXFill [] s = s) by (destruct s as [[] h]; reflexivity).
  rewrite <- Hs in H at 1.
  destruct (UART_TX_gather_spec s chars [] L s' rest ltac:(cbn; lia) H)
    as (consumed & Hc & Hd).
  cbv zeta in Hd. cbn [app] in Hd. destruct Hd as (HL & Hlen & Hne & Hs').
  set (data := to_u8 <$> filter (fun c => c <> -1) consumed) in *.
  assert (Hpos : (1 <= length data)%nat).
  { destruct data; [exfalso; apply (Hne eq_refl); reflexivity | cbn; lia]. }
  exists consumed, data. split; [exact Hc|]. split; [reflexivity|].
  split; [exact HL|]. split; [lia|]. split; [exact Hs'|].
  intros cfg rx Hrx ins Hr Hf.
  assert (Hu : Forall is_u8 data).
  { subst data. apply Forall_fmap, Forall_forall. intros x _. apply to_u8_is_u8. }
  destruct (decode_encoded cfg s rx data ins Hwf Hrx Hu ltac:(lia) Hr Hf)
    as (rx' & ctl & tail & Hrun & Hmode & Hbuf).
  exists rx', (data ++ tail).
  split; [exact Hrun|]. split; [exact Hmode|]. split.
  - rewrite (RXGetPacket_ready rx' Hmode), Hbuf. reflexivity.
  - apply take_app_length.
Qed.

Lemma Testcase_UART_TX_length_witness :
  let chars := [-1; -1; 0x48; 0x69; 0x21; -1; 0x3F] in
  exists L s' rest consumed data,
    UART_TX_gather chars 0 booted = Some (L, s', rest)
    /\ chars = consumed ++ rest
    /\ data = to_u8 <$> filter (fun c => c <> -1) consumed
    /\ L = Z.of_nat (length data) /\ 1 <= L <= 255
    /\ s' = TXFill data booted
    /\ forall cfg rx, wf rx -> roundtrips cfg booted rx data.
Proof.
  intros chars.
  destruct (UART_TX_gather chars 0 booted) as [[[L s'] rest]|] eqn:Hg;
    [|vm_compute in Hg; discriminate Hg].
  destruct (Testcase_UART_TX_length chars booted L s' rest ltac:(by_compute) Hg)
    as (consumed & data & H).
  exists L, s', rest, consumed, data. split; [reflexivity | exact H].
Defined.

(** ** TXPreInit and the TXInit after it *)

Lemma irq_run_send_side cfg ins : forall s s',
  irq_run cfg ins s = Ok s' -> Mode_ (comm s) <> MT ->
  SendBuff (comm s') = SendBuff (comm s) /\ Mode_ (comm s') <> MT.
Proof.
  induction ins as [|i ins IH]; intros s s' Hrun Hm.
  - injection Hrun as <-. split; [reflexivity | exact Hm].
  - cbn [irq_run] in Hrun. destruct (irq_on (rf s)); [|apply IH; assumption].
    destruct (ISR cfg i s) as [s1|f] eqn:HI; [|discriminate Hrun].
    destruct (ISR_untouched cfg i s s1 HI) as (Hsb & _ & _ & _ & Hrest).
    destruct (Hrest Hm) as (_ & _ & _ & Hm1).
    destruct (IH s1 s' Hrun Hm1) as [H1 H2].
    split; [rewrite H1; exact Hsb | exact H2].
Qed.

(** X21: TXPreInit and the TXInit that follows it.  Entered with the
    interrupt off, or with no event arriving between its store to
    State.Mode and RF_IRQ_OFF(), TXPreInit returns with the link idle (MI),
    the receive buffer and the counters untouched and one command sent, the
    power-management word that starts the transmitter.  With events in that
    window it can fault (a NULL store); when it returns, the mode is
    whatever the handler made of it (never MT), but the interrupt is off,
    the driver mode is TX, the send buffer is untouched and the last command
    sent is that power-management word.  In either case the TXInit that
    follows, with any write to the send buffer in between, finds the driver
    in TX mode and sends no power-management command: its only commands are
    the first frame byte and the status read. *)
Theorem TXPreInit_then_TXInit cfg during l s raw :
  length raw = sizeof_frame_t ->
  (irq_on (rf s) = false \/ during = [] ->
   TXPreInit_irq cfg during s = Ok (TXPreInit s)
   /\ Mode_ (comm (TXPreInit s)) = MI
   /\ RecvBuff (comm (TXPreInit s)) = RecvBuff (comm s)
   /\ counters (comm (TXPreInit s)) = counters (comm s)
   /\ spi (rf (TXPreInit s)) = spi (rf s) ++ [Cmd RF12.PM_TX])
  /\ (forall s1, TXPreInit_irq cfg during s = Ok s1 ->
        let s2 := mkSys (set_SendBuff raw (comm s1)) (rf s1) in
        irq_on (rf s1) = false /\ CurMode (rf s1) = TX
        /\ Mode_ (comm s1) <> MT
        /\ SendBuff (comm s1) = SendBuff (comm s)
        /\ list.last (spi (rf s1)) = Some (Cmd RF12.PM_TX)
        /\ spi (rf (TXInit l s2))
           = spi (rf s1) ++ [Cmd (RF12.TXWR_CMD (raw !!! 0%nat)); Cmd 0]
        /\ CurMode (rf (TXInit l s2)) = TX).
Proof.
  intros Hlen. split.
  - intros Hq. split; [apply TXPreInit_irq_quiet, Hq|].
    repeat (split; [reflexivity|]). reflexivity.
  - intros s1 Hs1. cbv zeta. unfold TXPreInit_irq in Hs1.
    destruct (irq_run cfg during (TXPreInit_mode s)) as [s'|f] eqn:Hrun;
      [|discriminate Hs1].
    injection Hs1 as <-.
    destruct (irq_run_send_side cfg during _ s' Hrun
                ltac:(unfold TXPreInit_mode; simp_setters; discriminate))
      as [Hsb Hm].
    unfold TXPreInit_mask. proj.
    split; [reflexivity|]. split; [reflexivity|]. split; [exact Hm|].
    split; [exact Hsb|]. split.
    { change (spi (RF.Mode TX (RF_IRQ_OFF (rf s'))))
        with (spi (rf s') ++ [Cmd RF12.PM_TX]).
      apply last_snoc. }
    split; [|apply TXInit_CurMode].
    destruct raw as [|b0 rest]; [cbn in Hlen; sizes; lia|].
    rewrite (TXInit_rf l _ b0 rest) by reflexivity. proj.
    rewrite decide_False by (intros H; apply H; reflexivity).
    change (spi (RF_IRQ_ON ?h)) with (spi h). unfold Transmit.
    rewrite !spi_VSendCommand, <- app_assoc. reflexivity.
Qed.

Lemma TXPreInit_then_TXInit_witness :
  let s := RXInit booted in
  let raw := SendBuff (comm (TXFill hello booted)) in
  exists s1,
    TXPreInit_irq default_config [rx_irq 5] s = Ok s1
    /\ RecvBuff (comm s1) <> RecvBuff (comm s)
    /\ let s2 := mkSys (set_SendBuff raw (comm s1)) (rf s1) in
       irq_on (rf s1) = false /\ CurMode (rf s1) = TX
       /\ Mode_ (comm s1) <> MT
       /\ SendBuff (comm s1) = SendBuff (comm s)
       /\ list.last (spi (rf s1)) = Some (Cmd RF12.PM_TX)
       /\ spi (rf (TXInit 5 s2))
          = spi (rf s1) ++ [Cmd (RF12.TXWR_CMD (raw !!! 0%nat)); Cmd 0]
       /\ CurMode (rf (TXInit 5 s2)) = TX.
Proof.
  intros s raw.
  destruct (TXPreInit_irq default_config [rx_irq 5] s) as [s1|f] eqn:Hs1;
    [|vm_compute in Hs1; discriminate Hs1].
  exists s1. split; [reflexivity|]. split.
  { vm_compute in Hs1. injection Hs1 as <-. vm_compute. intros H. discriminate H. }
  apply (TXPreInit_then_TXInit default_config [rx_irq 5] 5 s raw);
    [reflexivity | exact Hs1].
Defined.

(** ** The trailer that is accepted *)

Lemma crc_mix_zero e h :
  is_u8 e -> is_u8 h -> (crc_mix e h = 0 <-> e = 0 /\ h = 0).
Proof.
  intros He Hh.
  assert (Hc : all_u8_u8 (fun e h =>
            bool_decide (crc_mix e h = 0 <-> e = 0 /\ h = 0)) = true)
    by (vm_compute; reflexivity).
  pose proof (all_u8_u8_spec _ Hc e h He Hh) as H.
  apply bool_decide_eq_true in H. exact H.
Qed.

Lemma crc_mix_high e h :
  is_u8 e -> is_u8 h ->
  (hi8 (crc_mix e h) = 0 <-> e = 0) /\ (e = 0 -> lo8 (crc_mix e h) = h).
Proof.
  intros He Hh.
  assert (Hc : all_u8_u8 (fun e h =>
            bool_decide ((hi8 (crc_mix e h) = 0 <-> e = 0)
                         /\ (e = 0 -> lo8 (crc_mix e h) = h))) = true)
    by (vm_compute; reflexivity).
  pose proof (all_u8_u8_spec _ Hc e h He Hh) as H.
  apply bool_decide_eq_true in H. exact H.
Qed.

(** The only two bytes that bring the accumulator to zero are its own low
    and high byte, in this order. *)
Lemma crc_trailer_iff crc t1 t2 :
  is_u16 crc -> is_u8 t1 -> is_u8 t2 ->
  (_crc_ccitt_update (_crc_ccitt_update crc t1) t2 = 0
   <-> t1 = lo8 crc /\ t2 = hi8 crc).
Proof.
  intros Hc H1 H2. split.
  - intros Hz.
    pose proof (crc_update_u16 crc t1 Hc H1) as Hc1.
    set (c1 := _crc_ccitt_update crc t1) in *.
    rewrite (crc_update_mix c1 t2) in Hz.
    apply crc_mix_zero in Hz;
      [ | apply lxor_u8; [exact H2 | apply lo8_u8] | apply hi8_u8, Hc1 ].
    destruct Hz as [Hlo Hhi].
    apply Z.lxor_eq in Hlo.
    subst c1. rewrite (crc_update_mix crc t1) in Hhi, Hlo.
    destruct (crc_mix_high (Z.lxor t1 (lo8 crc)) (hi8 crc)
                ltac:(apply lxor_u8; [exact H1 | apply lo8_u8])
                ltac:(apply hi8_u8, Hc)) as [Hh Hl].
    apply Hh in Hhi. specialize (Hl Hhi).
    apply Z.lxor_eq in Hhi. split; [exact Hhi|]. rewrite Hlo. exact Hl.
  - intros [-> ->]. apply crc_residue_zero, Hc.
Qed.

(** X22: the receiver reports a frame exactly when its trailer is the CRC
    of what came before.  For a header that passes the check and a body of
    the announced length, followed by any two trailer bytes, the reception
    ends in MX iff the first trailer byte is the low byte and the second the
    high byte of the CRC-16/CCITT (initial value 0xFFFF) of length byte,
    control byte and body; in that case the frame counter goes up by one,
    and otherwise the CRC-error counter does. *)
Theorem rx_accepts_iff_trailer_matches cfg rx len ctl body t1 t2 ins :
  length (RecvBuff (comm rx)) = sizeof_packet_t ->
  is_u8 len -> header_ok len ctl -> length body = Z.to_nat len ->
  is_u8 ctl -> Forall is_u8 body -> is_u8 t1 -> is_u8 t2 ->
  Forall no_rgur ins -> fifo <$> ins = len :: ctl :: body ++ [t1; t2] ->
  let crc := crc_fold CRCInit (len :: ctl :: body) in
  exists rx',
    irq_run cfg ins (RXInit rx) = Ok rx'
    /\ (Mode_ (comm rx') = MX <-> t1 = lo8 crc /\ t2 = hi8 crc)
    /\ (Mode_ (comm rx') = MX ->
        counters (comm rx')
        = (PacketsTX (comm rx), to_u32 (PacketsRX (comm rx) + 1),
           CtrErr (comm rx), CRCErr (comm rx)))
    /\ (Mode_ (comm rx') <> MX ->
        counters (comm rx')
        = (PacketsTX (comm rx), PacketsRX (comm rx), CtrErr (comm rx),
           to_u16 (CRCErr (comm rx) + 1))).
Proof.
  intros Hrx Hlen Hok Hb Hctl Hbody Ht1 Ht2 Hr Hf crc.
  assert (Hcrc : is_u16 crc).
  { apply crc_fold_u16; [apply CRCInit_u16|].
    apply Forall_cons_2; [exact Hlen|]. apply Forall_cons_2; assumption. }
  destruct (rx_packet cfg rx len ctl body t1 t2 ins Hrx Hlen Hok Hb Hr Hf)
    as [st Hrun].
  cbv zeta in Hrun.
  change (CRC (rx_taken rx len ctl body t1 t2 st))
    with (crc_fold CRCInit (len :: ctl :: body ++ [t1; t2])) in Hrun.
  change (len :: ctl :: body ++ [t1; t2])
    with ((len :: ctl :: body) ++ [t1; t2]) in Hrun.
  rewrite crc_fold_app in Hrun. fold crc in Hrun.
  cbn [crc_fold foldl] in Hrun.
  pose proof (crc_trailer_iff crc t1 t2 Hcrc Ht1 Ht2) as Hiff.
  destruct (decide (_crc_ccitt_update (_crc_ccitt_update crc t1) t2 = 0))
    as [Hz|Hz]; eexists; (split; [exact Hrun|]).
  - split; [split; [intros _; apply Hiff, Hz | reflexivity]|].
    split; [intros _; reflexivity | intros H; exfalso; apply H; reflexivity].
  - assert (HnX : Mode_ (comm (ResetRX cfg
               (mkSys (set_CRCErr
                         (to_u16 (CRCErr (rx_taken rx len ctl body t1 t2 st) + 1))
                         (rx_taken rx len ctl body t1 t2 st))
                      (rf (RXInit rx))))) <> MX) by apply ResetRX_comm_rf.
    split; [split; [intros H; contradiction | intros H; exfalso; apply Hz, Hiff, H]|].
    split; [intros H; contradiction|]. intros _.
    unfold ResetRX. destruct (COMM_RXRETRY cfg); reflexivity.
Qed.

Lemma rx_accepts_iff_trailer_matches_witness :
  let crc := crc_fold CRCInit (5 :: 0x0A :: hello) in
  exists rx',
    irq_run default_config (rx_irq <$> [5; 0x0A] ++ hello ++ [0x79; 0x30])
      (RXInit booted) = Ok rx'
    /\ (Mode_ (comm rx') = MX <-> 0x79 = lo8 crc /\ 0x30 = hi8 crc)
    /\ (Mode_ (comm rx') = MX ->
        counters (comm rx')
        = (PacketsTX (comm booted), to_u32 (PacketsRX (comm booted) + 1),
           CtrErr (comm booted), CRCErr (comm booted)))
    /\ (Mode_ (comm rx') <> MX ->
        counters (comm rx')
        = (PacketsTX (comm booted), PacketsRX (comm booted),
           CtrErr (comm booted), to_u16 (CRCErr (comm booted) + 1))).
Proof.
  apply (rx_accepts_iff_trailer_matches default_config booted 5 0x0A hello
           0x79 0x30);
    [ reflexivity | by_compute | by_compute | reflexivity | by_compute
    | by_compute | by_compute | by_compute | by_compute | reflexivity ].
Defined.

(** ** Two adjacent corrupted bytes *)

Lemma crc_mix_split e h :
  is_u8 e -> is_u8 h -> crc_mix e h = Z.lxor (crc_mix e 0) h.
Proof.
  intros He Hh.
  assert (Hc : all_u8_u8 (fun e h =>
            bool_decide (crc_mix e h = Z.lxor (crc_mix e 0) h)) = true)
    by (vm_compute; reflexivity).
  pose proof (all_u8_u8_spec _ Hc e h He Hh) as H.
  apply bool_decide_eq_true in H. exact H.
Qed.

Lemma crc_mix_diff_high e e' :
  is_u8 e -> is_u8 e' ->
  hi8 (Z.lxor (crc_mix e 0) (crc_mix e' 0)) = 0 -> e = e'.
Proof.
  intros He He'.
  assert (Hc : all_u8_u8 (fun e e' =>
            bool_decide (hi8 (Z.lxor (crc_mix e 0) (crc_mix e' 0)) = 0 -> e = e'))
          = true) by (vm_compute; reflexivity).
  pose proof (all_u8_u8_spec _ Hc e e' He He') as H.
  apply bool_decide_eq_true in H. exact H.
Qed.

Lemma lxor_swap a b c d : Z.lxor a b = Z.lxor c d -> Z.lxor a c = Z.lxor b d.
Proof.
  intros H. apply Z.bits_inj'. intros n Hn.
  apply (f_equal (fun x => Z.testbit x n)) in H.
  rewrite !Z.lxor_spec in *.
  destruct (Z.testbit a n), (Z.testbit b n), (Z.testbit c n), (Z.testbit d n);
    cbn in *; congruence.
Qed.

(** Two updates of the accumulator lose nothing of the two bytes. *)
Lemma crc_update2_inj c b1 b2 b1' b2' :
  is_u16 c -> is_u8 b1 -> is_u8 b2 -> is_u8 b1' -> is_u8 b2' ->
  _crc_ccitt_update (_crc_ccitt_update c b1) b2
  = _crc_ccitt_update (_crc_ccitt_update c b1') b2' ->
  b1 = b1' /\ b2 = b2'.
Proof.
  intros Hc H1 H2 H1' H2' H.
  pose proof (crc_update_u16 c b1 Hc H1) as Hc1.
  pose proof (crc_update_u16 c b1' Hc H1') as Hc1'.
  apply crc_update_lxor_inj in H; try assumption.
  apply lxor_swap in H.
  assert (He : is_u8 (Z.lxor b1 (lo8 c))) by (apply lxor_u8; [exact H1 | apply lo8_u8]).
  assert (He' : is_u8 (Z.lxor b1' (lo8 c))) by (apply lxor_u8; [exact H1' | apply lo8_u8]).
  pose proof (hi8_u8 c Hc) as Hh.
  assert (Hb1 : b1 = b1').
  { apply (lxor_cancel_r _ _ (lo8 c)). apply crc_mix_diff_high; try assumption.
    rewrite !crc_update_mix in H.
    rewrite (crc_mix_split _ _ He Hh), (crc_mix_split _ _ He' Hh) in H.
    assert (Hx : Z.lxor (Z.lxor (crc_mix (Z.lxor b1 (lo8 c)) 0) (hi8 c))
                        (Z.lxor (crc_mix (Z.lxor b1' (lo8 c)) 0) (hi8 c))
                 = Z.lxor (crc_mix (Z.lxor b1 (lo8 c)) 0)
                          (crc_mix (Z.lxor b1' (lo8 c)) 0)).
    { rewrite (Z.lxor_comm (crc_mix (Z.lxor b1' (lo8 c)) 0) (hi8 c)).
      rewrite Z.lxor_assoc, <- (Z.lxor_assoc (hi8 c)), Z.lxor_nilpotent, Z.lxor_0_l.
      reflexivity. }
    rewrite <- Hx, H. apply hi8_of_u8, lxor_u8; assumption. }
  split; [exact Hb1|]. subst b1'.
  rewrite Z.lxor_nilpotent in H. symmetry in H. apply Z.lxor_eq in H. exact H.
Qed.

(** Byte sequences that differ in two adjacent bytes at most leave
    different residues. *)
Lemma crc_fold_two_bytes c pre b1 b2 b1' b2' post :
  is_u16 c -> Forall is_u8 pre ->
  is_u8 b1 -> is_u8 b2 -> is_u8 b1' -> is_u8 b2' -> Forall is_u8 post ->
  (b1, b2) <> (b1', b2') ->
  crc_fold c (pre ++ b1 :: b2 :: post) <> crc_fold c (pre ++ b1' :: b2' :: post).
Proof.
  intros Hc Hpre H1 H2 H1' H2' Hpost Hne H.
  rewrite !crc_fold_app in H. cbn [crc_fold foldl] in H.
  pose proof (crc_fold_u16 pre c Hc Hpre) as Hc1. fold (crc_fold c pre) in *.
  apply crc_fold_inj in H;
    [ | repeat apply crc_update_u16; assumption
      | repeat apply crc_update_u16; assumption | exact Hpost ].
  apply crc_update2_inj in H; try assumption.
  destruct H as [-> ->]. apply Hne. reflexivity.
Qed.

Lemma insert2_take_drop {A} (l : list A) p x y :
  (S p < length l)%nat ->
  <[S p := y]> (<[p := x]> l) = take p l ++ x :: y :: drop (S (S p)) l.
Proof.
  intros Hp. rewrite (insert_take_drop (<[p := x]> l)) by (rewrite length_insert; lia).
  rewrite take_S_insert by lia. rewrite drop_insert_lt by lia.
  rewrite <- app_assoc. reflexivity.
Qed.

Lemma take_drop_middle2 {A} (l : list A) p x y :
  l !! p = Some x -> l !! S p = Some y ->
  take p l ++ x :: y :: drop (S (S p)) l = l.
Proof.
  intros Hx Hy. rewrite <- (take_drop_middle l p x Hx) at 3. f_equal. f_equal.
  symmetry. apply drop_S. exact Hy.
Qed.

(** X23: a frame built by TXFill and TXInit in which two adjacent bytes of
    the payload or of the CRC trailer (any 16 consecutive bits, byte
    aligned) have been replaced on the way is never reported: no prefix of
    its reception reaches MX, the CRC-error counter goes up by one and the
    other counters do not move. *)
Theorem burst_error_detected cfg tx rx payload p b1' b2' ins :
  wf tx -> length (RecvBuff (comm rx)) = sizeof_packet_t ->
  Forall is_u8 payload -> (1 <= length payload <= 255)%nat ->
  is_u8 b1' -> is_u8 b2' ->
  (COMM_HEADSIZE <= p /\ S p < COMM_HEADSIZE + length payload + COMM_TAILSIZE)%nat ->
  Forall no_rgur ins ->
  let pkt := packet_bytes (TXInit (Z.of_nat (length payload)) (TXFill payload tx)) in
  (b1', b2') <> (pkt !!! p, pkt !!! S p) ->
  fifo <$> ins = <[S p := b2']> (<[p := b1']> pkt) ->
  (forall k, exists r,
      irq_run cfg (take k ins) (RXInit rx) = Ok r /\ Mode_ (comm r) <> MX)
  /\ exists rx',
       irq_run cfg ins (RXInit rx) = Ok rx'
       /\ counters (comm rx')
          = (PacketsTX (comm rx), PacketsRX (comm rx), CtrErr (comm rx),
             to_u16 (CRCErr (comm rx) + 1))
       /\ Mode_ (comm rx') = if COMM_RXRETRY cfg then Mr else MI.
Proof.
  intros Htx Hrx Hp Hn H1' H2' Hpos Hr pkt Hne Hf.
  destruct (packet_of_payload tx payload Htx Hp ltac:(lia))
    as (Hpkt & Hl & Hctl & Hcrc & Hnib).
  cbv zeta in Hpkt. subst pkt. rewrite Hpkt in Hf, Hne. clear Hpkt.
  set (n := length payload) in *.
  set (l := Z.of_nat n) in *.
  set (ctl := Type_set_Control (Z.lnot l) _) in *.
  set (crc := crc_fold CRCInit (l :: ctl :: payload)) in *.
  set (pkt := l :: ctl :: payload ++ [lo8 crc; hi8 crc]) in *.
  assert (Hplen : length pkt = (n + 4)%nat).
  { subst pkt. cbn [length]. rewrite length_app. cbn [length]. lia. }
  assert (Hp4 : (2 <= p /\ S p < n + 4)%nat) by (sizes; lia).
  assert (Hpu : Forall is_u8 pkt).
  { subst pkt. apply Forall_cons_2; [exact Hl|]. apply Forall_cons_2; [exact Hctl|].
    apply Forall_app; split; [exact Hp|].
    apply Forall_cons_2; [apply lo8_u8|].
    apply Forall_cons_2; [apply hi8_u8, Hcrc | constructor]. }
  destruct (lookup_lt_is_Some_2 pkt p ltac:(lia)) as [b1 Hb1].
  destruct (lookup_lt_is_Some_2 pkt (S p) ltac:(lia)) as [b2 Hb2].
  rewrite (list_lookup_total_correct _ _ _ Hb1),
    (list_lookup_total_correct _ _ _ Hb2) in Hne.
  assert (Hb1u : is_u8 b1) by (eapply Forall_lookup_1; eassumption).
  assert (Hb2u : is_u8 b2) by (eapply Forall_lookup_1; eassumption).
  set (pkt' := <[S p := b2']> (<[p := b1']> pkt)) in *.
  assert (Hp'len : length pkt' = (n + 4)%nat)
    by (subst pkt'; rewrite !length_insert; exact Hplen).
  assert (Hres : crc_fold CRCInit pkt' <> 0).
  { assert (Hz : crc_fold CRCInit pkt = 0).
    { subst pkt. change (l :: ctl :: payload ++ [lo8 crc; hi8 crc])
        with ((l :: ctl :: payload) ++ [lo8 crc; hi8 crc]).
      rewrite crc_fold_app. fold crc. apply crc_residue_zero, Hcrc. }
    rewrite <- Hz. subst pkt'.
    rewrite insert2_take_drop by lia.
    rewrite <- (take_drop_middle2 pkt p b1 b2 Hb1 Hb2) at 3.
    apply crc_fold_two_bytes;
      [ apply CRCInit_u16 | apply Forall_take, Hpu | exact H1' | exact H2'
      | exact Hb1u | exact Hb2u | apply Forall_drop, Hpu | exact Hne ]. }
  pose proof (packet_shape pkt' n Hp'len) as Hshape.
  assert (H0 : pkt' !!! 0%nat = l).
  { subst pkt'. rewrite !list_lookup_total_insert_ne by lia. reflexivity. }
  assert (H1 : pkt' !!! 1%nat = ctl).
  { subst pkt'. rewrite !list_lookup_total_insert_ne by lia. reflexivity. }
  rewrite H0, H1 in Hshape.
  assert (Hok : header_ok l ctl) by (split; [exact Hnib | subst l n; lia]).
  rewrite Hshape in Hf, Hres.
  destruct (rx_packet cfg rx l ctl (take n (drop 2 pkt'))
              (pkt' !!! (n + 2)%nat) (pkt' !!! (n + 3)%nat) ins
              Hrx Hl Hok ltac:(rewrite length_take, length_drop; subst l; lia)
              Hr Hf) as [st Hrun].
  cbv zeta in Hrun.
  change (CRC (rx_taken rx l ctl (take n (drop 2 pkt'))
                 (pkt' !!! (n + 2)%nat) (pkt' !!! (n + 3)%nat) st))
    with (crc_fold CRCInit
            (l :: ctl :: take n (drop 2 pkt')
               ++ [pkt' !!! (n + 2)%nat; pkt' !!! (n + 3)%nat])) in Hrun.
  rewrite decide_False in Hrun by exact Hres.
  split.
  - apply (never_ready_prefix cfg ins _ _ (RXInit_quiet rx) Hrun).
    apply ResetRX_comm_rf.
  - eexists. split; [exact Hrun|].
    rewrite ResetRX_Mode. split; [|reflexivity].
    unfold ResetRX. destruct (COMM_RXRETRY cfg); reflexivity.
Qed.

Lemma burst_error_detected_witness :
  let pkt := packet_bytes (TXInit (Z.of_nat (length hello)) (TXFill hello booted)) in
  let ins := rx_irq <$> <[4%nat := 0x00]> (<[3%nat := 0xFF]> pkt) in
  (forall k, exists r,
      irq_run default_config (take k ins) (RXInit booted) = Ok r
      /\ Mode_ (comm r) <> MX)
  /\ exists rx',
       irq_run default_config ins (RXInit booted) = Ok rx'
       /\ counters (comm rx')
          = (PacketsTX (comm booted), PacketsRX (comm booted),
             CtrErr (comm booted), to_u16 (CRCErr (comm booted) + 1))
       /\ Mode_ (comm rx') = if COMM_RXRETRY default_config then Mr else MI.
Proof.
  apply (burst_error_detected default_config booted booted hello 3 0xFF 0x00);
    [ by_compute | reflexivity | by_compute | cbn; lia | by_compute
    | by_compute | vm_compute; lia | by_compute
    | vm_compute; intros H; discriminate H | ].
  rewrite <- list_fmap_compose. vm_compute. reflexivity.
Defined.
